(** * RPi-Storage-Benchmarking: [run_benchmark.py]

    A shallow embedding of the benchmark harness and the properties its
    specification states about it, followed by the start-up code (the check
    for [fio] and the main block) and by further properties of both: what
    the functions raise, what they do at the edges of their inputs, and how
    they compose.

    Conventions of the embedding.
    - A Python [str] is a [string]; each [ascii] is a code point below 256.
      The character classes ([str.isspace], the line boundaries of
      [str.splitlines]) are the Unicode ones restricted to that range.
    - A Python [int] is a [Z].
    - A Python [float] is a primitive binary64 [float]; the arithmetic is
      IEEE 754 with rounding to nearest even, as in CPython.
    - An exception is a value of [exn]; a computation that can raise returns a
      [result].
    - The file system, the clock, the console and the [fio] child process are
      the world the program runs in: [World] holds the mutable part, [Env] the
      oracles that answer the program's requests.

    What the world is taken to do.
    - A file is its text and two permissions; its size in bytes is the length
      of its text, one byte a character. Paths are strings, directories are
      not files: [mkdir] leaves a mark in the trace and nothing else.
    - Opening a file for writing fails only on a file that is not writable:
      the directory of a path is taken to be there, and so is the room on the
      disk; a write and a [stat] on a file that is there do not fail.
    - The [fio] process always starts and ends, and what it prints decodes
      to text; what it prints and what it does to the files is the oracle's.
      The clock is any sequence of floats.
    - A failing [mkdir], a missing directory, a [fio] that cannot be started
      and an output that does not decode are outside the model: the
      properties below are about the runs of the program in which none of
      these happens.
    - Formatting a float ([float_repr], [float_fixed2]) and decoding a file's
      text ([decodes]) are oracles of [Env]: the properties are stated for
      every answer they may give. *)

From Stdlib Require Import ZArith NArith String Ascii List Lia Bool Floats Uint63.
From Equations Require Import Equations.
From stdpp Require Import base option list gmap strings.

Import ListNotations.
Local Open Scope Z_scope.
#[local] Arguments String.append : simpl nomatch.

(** ** Exceptions and results *)

Inductive exn : Type :=
| IndexError
| ValueError
| UnboundLocalError
| FileNotFoundError
| PermissionError
| UnicodeDecodeError
| ZeroDivisionError
| OverflowError.

Inductive result (A : Type) : Type :=
| Ok (a : A)
| Raise (e : exn).
Arguments Ok {A} a.
Arguments Raise {A} e.

Definition rbind {A B : Type} (r : result A) (k : A -> result B) : result B :=
  match r with
  | Ok a => k a
  | Raise e => Raise e
  end.

Definition is_ok {A : Type} (r : result A) : bool :=
  match r with Ok _ => true | Raise _ => false end.

(** ** Python strings *)

Module PyStr.

(** The one-character string. *)
Definition chr (c : ascii) : string := String c EmptyString.

(** [c.isspace()], for a code point below 256. *)
Definition is_space (c : ascii) : bool :=
  let n := N_of_ascii c in
  ((9 <=? n) && (n <=? 13) || (28 <=? n) && (n <=? 32) || (n =? 133) || (n =? 160))%N.

(** The line boundaries of [str.splitlines], below 256:
    LF, VT, FF, CR, FS, GS, RS and NEL. *)
Definition is_linebreak (c : ascii) : bool :=
  let n := N_of_ascii c in
  ((10 <=? n) && (n <=? 13) || (28 <=? n) && (n <=? 30) || (n =? 133))%N.

Definition is_cr (c : ascii) : bool := (N_of_ascii c =? 13)%N.
Definition is_lf (c : ascii) : bool := (N_of_ascii c =? 10)%N.

(** Prepend a character to the first piece of a list of pieces. *)
Definition cons_head (c : ascii) (l : list string) : list string :=
  match l with
  | h :: t => String c h :: t
  | [] => [chr c]
  end.

(** Prepend a string to the first piece of a list of pieces. *)
Definition prepend_head (t : string) (l : list string) : list string :=
  match l with
  | h :: r => (t +:+ h) :: r
  | [] => [t]
  end.

(** [s.splitlines()]: CR LF counts as one boundary, and no empty last line
    is produced. *)
Fixpoint splitlines (s : string) : list string :=
  match s with
  | EmptyString => []
  | String c s' =>
      if is_linebreak c then
        EmptyString ::
          match s' with
          | String c2 s'' => if is_cr c && is_lf c2 then splitlines s'' else splitlines s'
          | EmptyString => []
          end
      else cons_head c (splitlines s')
  end.

(** [s.startswith(p)]. *)
Fixpoint starts_with (p s : string) : bool :=
  match p with
  | EmptyString => true
  | String a p' =>
      match s with
      | EmptyString => false
      | String b s' => Ascii.eqb a b && starts_with p' s'
      end
  end.

(** [sub in s]. *)
Fixpoint contains (sub s : string) : bool :=
  starts_with sub s ||
  match s with
  | EmptyString => false
  | String _ s' => contains sub s'
  end.

(** [s.split(sep)] for a non-empty [sep]: the pieces between the
    occurrences of [sep], found from left to right without overlap.
    [skip] counts the characters of a matched separator still to pass. *)
Fixpoint split_go (sep : string) (skip : nat) (s : string) : list string :=
  match s with
  | EmptyString => [EmptyString]
  | String c s' =>
      match skip with
      | S k => split_go sep k s'
      | O =>
          if starts_with sep s
          then EmptyString :: split_go sep (Nat.pred (String.length sep)) s'
          else cons_head c (split_go sep O s')
      end
  end.

Definition split_on (sep s : string) : list string := split_go sep O s.

(** [s.split()]: the maximal runs of non-space characters. *)
Fixpoint split_ws (s : string) : list string :=
  match s with
  | EmptyString => []
  | String c s' =>
      if is_space c then split_ws s'
      else
        match s' with
        | EmptyString => [chr c]
        | String c' _ =>
            if is_space c' then chr c :: split_ws s'
            else cons_head c (split_ws s')
        end
  end.

(** [s.replace(old, new)] for a non-empty [old]. *)
Fixpoint replace_go (old new : string) (skip : nat) (s : string) : string :=
  match s with
  | EmptyString => EmptyString
  | String c s' =>
      match skip with
      | S k => replace_go old new k s'
      | O =>
          if starts_with old s
          then new +:+ replace_go old new (Nat.pred (String.length old)) s'
          else String c (replace_go old new O s')
      end
  end.

Definition replace (old new s : string) : string := replace_go old new O s.

Fixpoint lstrip (s : string) : string :=
  match s with
  | EmptyString => EmptyString
  | String c s' => if is_space c then lstrip s' else s
  end.

Fixpoint rstrip (s : string) : string :=
  match s with
  | EmptyString => EmptyString
  | String c s' =>
      match rstrip s' with
      | EmptyString => if is_space c then EmptyString else chr c
      | r => String c r
      end
  end.

(** [s.strip()]. *)
Definition strip (s : string) : string := rstrip (lstrip s).

(** [len(s)]. *)
Definition len (s : string) : Z := Z.of_nat (String.length s).

(** [l[i]] on a list, raising [IndexError] out of range
    (non-negative [i] only, which is all the program uses). *)
Definition index {A : Type} (l : list A) (i : nat) : result A :=
  match nth_error l i with
  | Some a => Ok a
  | None => Raise IndexError
  end.

(** [str(n)] for an [int]: decimal digits, most significant first. *)
Definition digit_char (d : Z) : ascii := ascii_of_N (48 + Z.to_N d).

Fixpoint digits_go (fuel : nat) (n : Z) (acc : string) : string :=
  match fuel with
  | O => acc
  | S f =>
      let acc' := String (digit_char (n mod 10)) acc in
      if n <? 10 then acc' else digits_go f (n / 10) acc'
  end.

Definition str_of_nonneg (n : Z) : string :=
  digits_go (S (Z.to_nat (Z.log2 n))) n EmptyString.

Definition str_of_int (n : Z) : string :=
  if n <? 0 then String "-" (str_of_nonneg (- n)) else str_of_nonneg n.

End PyStr.

(** ** Python floats and arithmetic *)

Module PyFloat.

(** The exponent of the least significant bit of a binary64 number whose
    most significant bit has the exponent [e - 1]. *)
Definition fexp64 : Z -> Z := fexp prec emax.

(** An [int] taken as an exact, not yet rounded, binary number. *)
Definition SF_exact (n : Z) : spec_float :=
  match n with
  | Z0 => S754_zero false
  | Zpos p => S754_finite false p 0
  | Zneg p => S754_finite true p 0
  end.

(** [a / b] on two [int]s: the correctly rounded quotient. *)
Definition int_truediv (a b : Z) : result float :=
  if b =? 0 then Raise ZeroDivisionError
  else if a =? 0 then Ok (if b <? 0 then neg_zero else zero)
  else
    match SFdiv prec emax (SF_exact a) (SF_exact b) with
    | S754_infinity _ => Raise OverflowError
    | r => Ok (SF2Prim r)
    end.

(** [x / y] on two [float]s. *)
Definition float_div (x y : float) : result float :=
  if PrimFloat.eqb y zero then Raise ZeroDivisionError
  else Ok (PrimFloat.div x y).

(** [0 < x] as Python decides it. *)
Definition positive (x : float) : bool := PrimFloat.ltb zero x.

(** A finite float: neither an infinity nor a NaN. *)
Definition finite (x : float) : bool :=
  PrimFloat.ltb neg_infinity x && PrimFloat.ltb x infinity.

(** *** [float(s)] on a string *)

Definition is_digit (c : ascii) : bool :=
  let n := N_of_ascii c in ((48 <=? n) && (n <=? 57))%N.

Definition digit_val (c : ascii) : Z := Z.of_N (N_of_ascii c) - 48.

Definition lower (c : ascii) : ascii :=
  let n := N_of_ascii c in
  if ((65 <=? n) && (n <=? 90))%N then ascii_of_N (n + 32) else c.

(** Equality with a lower-case word, case ignored. *)
Fixpoint eqb_nocase (s word : string) : bool :=
  match s, word with
  | EmptyString, EmptyString => true
  | String c s', String d word' => Ascii.eqb (lower c) d && eqb_nocase s' word'
  | _, _ => false
  end.

(** Where the scan of a number stands. *)
Inductive fstate : Type :=
| FStart      (* nothing read yet *)
| FInt        (* integer digits, the last character a digit *)
| FIntUs      (* an underscore after an integer digit *)
| FDotInt     (* the point, after an integer part *)
| FDotNoInt   (* the point, with no integer part *)
| FFrac       (* fraction digits, the last character a digit *)
| FFracUs     (* an underscore after a fraction digit *)
| FExp        (* just after the exponent marker *)
| FExpSign    (* the sign of the exponent *)
| FExpDig     (* exponent digits, the last character a digit *)
| FExpDigUs.  (* an underscore after an exponent digit *)

Record fscan : Type := mk_fscan {
  f_st : fstate;
  f_mant : Z;       (* the digits read, as an integer *)
  f_frac : Z;       (* how many of them follow the point *)
  f_eneg : bool;    (* the exponent's sign *)
  f_exp : Z         (* the exponent's digits, as an integer *)
}.

Definition fscan0 : fscan := mk_fscan FStart 0 0 false 0.

Definition fstep (a : fscan) (c : ascii) : option fscan :=
  let '(mk_fscan st m k en ex) := a in
  if is_digit c then
    let d := digit_val c in
    match st with
    | FStart | FInt | FIntUs => Some (mk_fscan FInt (10 * m + d) k en ex)
    | FDotInt | FDotNoInt | FFrac | FFracUs => Some (mk_fscan FFrac (10 * m + d) (k + 1) en ex)
    | FExp | FExpSign | FExpDig | FExpDigUs => Some (mk_fscan FExpDig m k en (10 * ex + d))
    end
  else if Ascii.eqb c "_" then
    match st with
    | FInt => Some (mk_fscan FIntUs m k en ex)
    | FFrac => Some (mk_fscan FFracUs m k en ex)
    | FExpDig => Some (mk_fscan FExpDigUs m k en ex)
    | _ => None
    end
  else if Ascii.eqb c "." then
    match st with
    | FStart => Some (mk_fscan FDotNoInt m k en ex)
    | FInt => Some (mk_fscan FDotInt m k en ex)
    | _ => None
    end
  else if Ascii.eqb (lower c) "e" then
    match st with
    | FInt | FDotInt | FFrac => Some (mk_fscan FExp m k en ex)
    | _ => None
    end
  else if Ascii.eqb c "+" || Ascii.eqb c "-" then
    match st with
    | FExp => Some (mk_fscan FExpSign m k (Ascii.eqb c "-") ex)
    | _ => None
    end
  else None.

Fixpoint frun (a : fscan) (s : string) : option fscan :=
  match s with
  | EmptyString => Some a
  | String c s' =>
      match fstep a c with
      | Some a' => frun a' s'
      | None => None
      end
  end.

Definition faccepts (st : fstate) : bool :=
  match st with
  | FInt | FDotInt | FFrac | FExpDig => true
  | _ => false
  end.

(** The binary64 number nearest to [(-1)^neg * m * 10^e10]. *)
Definition SF_of_decimal (neg : bool) (m e10 : Z) : spec_float :=
  match m with
  | Zpos p =>
      if 0 <=? e10
      then binary_round prec emax neg (Z.to_pos (Zpos p * 10 ^ e10)) 0
      else SFdiv prec emax (S754_finite neg p 0)
             (S754_finite false (Z.to_pos (10 ^ (- e10))) 0)
  | _ => S754_zero neg
  end.

Definition float_of_scan (neg : bool) (a : fscan) : float :=
  let e := if f_eneg a then - f_exp a else f_exp a in
  SF2Prim (SF_of_decimal neg (f_mant a) (e - f_frac a)).

(** [float(s)]: [None] stands for [ValueError]. *)
Definition float_of_string (s : string) : option float :=
  let t := PyStr.strip s in
  let '(neg, u) :=
    match t with
    | String c r =>
        if Ascii.eqb c "-" then (true, r)
        else if Ascii.eqb c "+" then (false, r)
        else (false, t)
    | EmptyString => (false, t)
    end in
  if eqb_nocase u "inf" || eqb_nocase u "infinity"
  then Some (if neg then neg_infinity else infinity)
  else if eqb_nocase u "nan" then Some nan
  else
    match frun fscan0 u with
    | Some a => if faccepts (f_st a) then Some (float_of_scan neg a) else None
    | None => None
    end.

Definition float_of_str (s : string) : result float :=
  match float_of_string s with
  | Some v => Ok v
  | None => Raise ValueError
  end.

End PyFloat.

(** ** The world the program runs in *)

(** A [pathlib.Path], by its string form; [d / name] joins with a slash. *)
Definition Path : Type := string.
Definition joinpath (d : Path) (name : string) : Path := d +:+ "/" +:+ name.

(** A regular file: its bytes and whether this process may open it for
    reading and for writing. Text written by the program is ASCII, one byte a
    character. *)
Record File : Type := mk_File {
  content : string;
  readable : bool;
  writable : bool
}.

(** The file [f] with [s] appended. *)
Definition append_content (s : string) (f : File) : File :=
  mk_File (content f +:+ s) (readable f) (writable f).

(** What the program does to its surroundings, in the order it does it. *)
Inductive event : Type :=
| EvMkdir (p : Path)
| EvRun (argv : list string)
| EvClock
| EvStat (p : Path)
| EvOpen (p : Path) (mode : string)
| EvWrite (p : Path) (s : string)
| EvReadLine (p : Path) (line : string)
| EvClose (p : Path)
| EvWriteRow (p : Path) (fields : list string)
| EvPrint (s : string).

Record World : Type := mk_World {
  fs : gmap string File;   (* the file system, by path *)
  ticks : nat;             (* how many times the clock was read *)
  runs : nat;              (* how many child processes were run *)
  trace : list event       (* the events so far, oldest first *)
}.

(** The answers of the surroundings. [fio k argv files] is what the [k]-th
    child process prints on its standard output and the file system it leaves;
    [clock k] is the [k]-th reading of [time.monotonic()]; [decodes bytes]
    says whether [bytes] decode as text in the locale's encoding;
    [float_repr] and [float_fixed2] are [repr(x)] and [format(x, ".2f")]. *)
Record Env : Type := mk_Env {
  clock : nat -> float;
  fio : nat -> list string -> gmap string File -> string * gmap string File;
  decodes : string -> bool;
  float_repr : float -> string;
  float_fixed2 : float -> string
}.

(** Computations: they read and change the world and return or raise. *)
Definition M (A : Type) : Type := World -> result A * World.

Definition ret {A : Type} (a : A) : M A := fun w => (Ok a, w).
Definition raise {A : Type} (e : exn) : M A := fun w => (Raise e, w).
Definition lift {A : Type} (r : result A) : M A := fun w => (r, w).

Definition bind {A B : Type} (m : M A) (k : A -> M B) : M B :=
  fun w =>
    match m w with
    | (Ok a, w') => k a w'
    | (Raise e, w') => (Raise e, w')
    end.

Notation "x <- m ;; k" := (bind m (fun x => k))
  (at level 90, m at level 80, right associativity, only parsing).
Notation "m ;;; k" := (bind m (fun _ => k))
  (at level 90, right associativity, only parsing).

(** [try: m finally: fin], the shape of a [with] block's exit. *)
Definition finally {A : Type} (m : M A) (fin : World -> World) : M A :=
  fun w => let '(r, w') := m w in (r, fin w').

Definition log (e : event) (w : World) : World :=
  mk_World (fs w) (ticks w) (runs w) (trace w ++ [e]).

Definition set_fs (files : gmap string File) (w : World) : World :=
  mk_World files (ticks w) (runs w) (trace w).

Definition emit (e : event) : M unit := fun w => (Ok tt, log e w).

Fixpoint for_each {A S : Type} (xs : list A) (body : A -> S -> M S) (s : S) : M S :=
  match xs with
  | [] => ret s
  | x :: xs' => s' <- body x s ;; for_each xs' body s'
  end.

(** [range(n)]. *)
Definition range (n : Z) : list Z := map Z.of_nat (seq 0 (Z.to_nat n)).

Section Program.

Variable E : Env.

(** *** The operations of the surroundings *)

(** [time.monotonic()]. *)
Definition monotonic : M float :=
  fun w => (Ok (clock E (ticks w)),
            mk_World (fs w) (S (ticks w)) (runs w) (trace w ++ [EvClock])).

(** [subprocess.run(argv, capture_output=True, text=True).stdout]. *)
Definition subprocess_run (argv : list string) : M string :=
  fun w =>
    let '(out, files) := fio E (runs w) argv (fs w) in
    (Ok out, mk_World files (ticks w) (S (runs w)) (trace w ++ [EvRun argv])).

(** [p.stat().st_size]. *)
Definition stat_size (p : Path) : M Z :=
  fun w =>
    match fs w !! p with
    | Some f => (Ok (PyStr.len (content f)), log (EvStat p) w)
    | None => (Raise FileNotFoundError, log (EvStat p) w)
    end.

(** [p.open("w")]: the file is created, or emptied when it is there. *)
Definition open_w (p : Path) : M unit :=
  fun w =>
    match fs w !! p with
    | Some f =>
        if writable f
        then (Ok tt, log (EvOpen p "w")
                       (set_fs (<[p := mk_File EmptyString (readable f) true]> (fs w)) w))
        else (Raise PermissionError, log (EvOpen p "w") w)
    | None =>
        (Ok tt, log (EvOpen p "w") (set_fs (<[p := mk_File EmptyString true true]> (fs w)) w))
    end.

(** [f.write(s)] on the file opened at [p]. *)
Definition do_write (p : Path) (s : string) (w : World) : World :=
  log (EvWrite p s)
    (set_fs (alter (append_content s) p (fs w)) w).

Definition file_write (p : Path) (s : string) : M unit :=
  fun w => (Ok tt, do_write p s w).

(** Leaving the [with] block closes the file. *)
Definition close (p : Path) (w : World) : World := log (EvClose p) w.

(** [p.open("r")]: the file object, here the file it reads. *)
Definition open_r (p : Path) : M File :=
  fun w =>
    match fs w !! p with
    | Some f =>
        if readable f then (Ok f, log (EvOpen p "r") w)
        else (Raise PermissionError, log (EvOpen p "r") w)
    | None => (Raise FileNotFoundError, log (EvOpen p "r") w)
    end.

(** The lines of a text, each with its terminator: LF, CR LF or CR. *)
Fixpoint text_lines (s : string) : list string :=
  match s with
  | EmptyString => []
  | String c s' =>
      if PyStr.is_lf c then PyStr.chr c :: text_lines s'
      else if PyStr.is_cr c then
        match s' with
        | String c2 s'' =>
            if PyStr.is_lf c2 then String c (PyStr.chr c2) :: text_lines s''
            else PyStr.chr c :: text_lines s'
        | EmptyString => [PyStr.chr c]
        end
      else PyStr.cons_head c (text_lines s')
  end.

(** [for _ in f: pass] on the file [f] opened at [p]. *)
Definition read_all_lines (p : Path) (f : File) : M unit :=
  if decodes E (content f)
  then for_each (text_lines (content f))
         (fun line (_ : unit) => emit (EvReadLine p line)) tt
  else raise UnicodeDecodeError.

(** [p.mkdir(exist_ok=True)]. *)
Definition mkdir (p : Path) : M unit := emit (EvMkdir p).

(** [print(s)]. *)
Definition print (s : string) : M unit := emit (EvPrint s).

End Program.

(** ** The program *)

Definition nl : string := String "010"%char EmptyString.
Definition crlf : string := String "013"%char (String "010"%char EmptyString).

(** [mib_to_mb = float(1024) / float(1000)]. *)
Definition mib_to_mb : float :=
  PrimFloat.div (PrimFloat.of_uint63 1024%uint63) (PrimFloat.of_uint63 1000%uint63).

(** [bw_value]: the value of
    [line.split("BW=")[1].split()[0].replace("/s", "").strip()]. *)
Definition bw_value_of (line : string) : result string :=
  rbind (PyStr.index (PyStr.split_on "BW=" line) 1) (fun after =>
  rbind (PyStr.index (PyStr.split_ws after) 0) (fun first =>
  Ok (PyStr.strip (PyStr.replace "/s" "" first)))).

(** The body of the loop of [run_fio_test] on a line that holds the marker.
    [bandwidth] is a local variable that only the two unit branches bind:
    [None] is the variable left unbound. *)
Definition bw_of_line (line : string) : result float :=
  rbind (bw_value_of line) (fun bw_value =>
  rbind
    (if PyStr.contains "MiB" bw_value then
       rbind (PyFloat.float_of_str (PyStr.strip (PyStr.replace "MiB" "" bw_value)))
         (fun v => Ok (Some (PrimFloat.mul v mib_to_mb)))
     else if PyStr.contains "MB" bw_value then
       rbind (PyFloat.float_of_str (PyStr.strip (PyStr.replace "MB" "" bw_value)))
         (fun v => Ok (Some v))
     else Ok None)
    (fun bandwidth =>
       match bandwidth with
       | Some b => Ok b
       | None => Raise UnboundLocalError
       end)).

(** [for line in output.splitlines(): ...; return 0.0]. *)
Fixpoint scan_lines (lines : list string) : result float :=
  match lines with
  | [] => Ok zero
  | line :: rest =>
      if PyStr.contains "BW=" line then bw_of_line line else scan_lines rest
  end.

Definition parse_bandwidth (output : string) : result float :=
  scan_lines (PyStr.splitlines output).

Definition fio_argv (name : string) (filename : Path) (block_size : string)
    (io_depth : Z) (rw_mode : string) (size num_jobs : Z) : list string :=
  [ "fio"; "--name"; name; "--filename"; filename; "--size"; PyStr.str_of_int size;
    "--time_based"; "--runtime=60s"; "--ramp_time=2s"; "--ioengine=libaio";
    "--direct=1"; "--verify=0"; "--bs"; block_size;
    "--iodepth"; PyStr.str_of_int io_depth; "--rw"; rw_mode;
    "--numjobs"; PyStr.str_of_int num_jobs; "--group_reporting" ]%string.

(** The header of the synthetic file and its [i]-th record. *)
Definition header : string := "id,name" +:+ nl.
Definition record (i : Z) : string :=
  PyStr.str_of_int i +:+ ",sample_" +:+ PyStr.str_of_int i +:+ nl.

(** [while bytes_written < size_in_bytes: ...], on the pair
    [(bytes_written, i)]. *)
Equations? write_loop (p : Path) (size_in_bytes : Z) (st : Z * Z) (w : World)
  : (Z * Z) * World by wf (Z.to_nat (size_in_bytes - fst st)) lt :=
  write_loop p size_in_bytes (bytes_written, i) w with Z_lt_dec bytes_written size_in_bytes := {
    | left _ =>
        let write_str := record i in
        write_loop p size_in_bytes (bytes_written + PyStr.len write_str, i + 1)
          (do_write p write_str w)
    | right _ => ((bytes_written, i), w) }.
Proof.
  assert (Happ : forall a b : string,
             String.length (a +:+ b) = (String.length a + String.length b)%nat).
  { intros a b. induction a as [|c a IH]; simpl; [reflexivity | now rewrite IH]. }
  assert (Hpos : 0 < PyStr.len (record i)).
  { unfold PyStr.len, record. rewrite !Happ. simpl. lia. }
  subst write_str. simpl. lia.
Qed.

(** A result tuple: test name, size in MB, run number, value. *)
Definition row : Type := string * float * Z * float.

Section Benchmarks.

Variable E : Env.

Definition run_fio_test (name : string) (filename : Path) (block_size : string)
    (io_depth : Z) (rw_mode : string) (size num_jobs : Z) : M float :=
  output <- subprocess_run E
              (fio_argv name filename block_size io_depth rw_mode size num_jobs) ;;
  lift (parse_bandwidth output).

Definition write_csv_test (filepath : Path) (size_in_bytes : Z) : M float :=
  start_time <- monotonic E ;;
  let bytes_written := 0 in
  open_w filepath ;;;
  finally
    (file_write filepath header ;;;
     let bytes_written := bytes_written + PyStr.len header in
     let i := 0 in
     fun w => let '(_, w') := write_loop filepath size_in_bytes (bytes_written, i) w in
              (Ok tt, w'))
    (close filepath) ;;;
  now <- monotonic E ;;
  let elapsed_time := PrimFloat.sub now start_time in
  final_size_in_bytes <- stat_size filepath ;;
  size_in_mb <- lift (PyFloat.int_truediv final_size_in_bytes (1024 * 1024)) ;;
  lift (PyFloat.float_div size_in_mb elapsed_time).

Definition read_csv_test (filepath : Path) : M float :=
  size_in_bytes <- stat_size filepath ;;
  start_time <- monotonic E ;;
  f <- open_r filepath ;;
  finally (read_all_lines E filepath f) (close filepath) ;;;
  now <- monotonic E ;;
  let elapsed_time := PrimFloat.sub now start_time in
  size_in_mb <- lift (PyFloat.int_truediv size_in_bytes (1024 * 1024)) ;;
  lift (PyFloat.float_div size_in_mb elapsed_time).

(** *** The [csv] writer, with the default dialect *)

Definition quote : ascii := "034"%char.

Definition csv_special (c : ascii) : bool :=
  Ascii.eqb c "," || Ascii.eqb c quote || PyStr.is_cr c || PyStr.is_lf c.

Fixpoint has_special (s : string) : bool :=
  match s with
  | EmptyString => false
  | String c s' => csv_special c || has_special s'
  end.

Fixpoint double_quotes (s : string) : string :=
  match s with
  | EmptyString => EmptyString
  | String c s' =>
      if Ascii.eqb c quote then String c (String c (double_quotes s'))
      else String c (double_quotes s')
  end.

Definition csv_field (s : string) : string :=
  if has_special s then String quote (double_quotes s +:+ PyStr.chr quote) else s.

Fixpoint join (sep : string) (l : list string) : string :=
  match l with
  | [] => EmptyString
  | [x] => x
  | x :: l' => x +:+ sep +:+ join sep l'
  end.

Definition csv_line (fields : list string) : string :=
  join "," (map csv_field fields) +:+ crlf.

(** [writer.writerow(fields)] on the file opened at [p]. *)
Definition writerow (p : Path) (fields : list string) : M unit :=
  fun w =>
    (Ok tt,
     log (EvWriteRow p fields)
       (set_fs (alter (append_content (csv_line fields)) p (fs w)) w)).

(** The fields of a result tuple as the writer formats them: [str] of each. *)
Definition row_fields (r : row) : list string :=
  let '(name, size_mb, run, value) := r in
  [name; float_repr E size_mb; PyStr.str_of_int run; float_repr E value].

Definition headers : list string :=
  ["Test Type"; "Data Size (MB)"; "Run"; "Result (MB/s)"]%string.

Definition save_results_to_csv (results : list row) (results_file : Path) : M unit :=
  open_w results_file ;;;
  finally
    (writerow results_file headers ;;;
     for_each results (fun r (_ : unit) => writerow results_file (row_fields r)) tt)
    (close results_file).

(** *** The driver *)

(** One pass of the inner loop's body. *)
Definition run_once (test_dir : Path) (size : Z) (size_mb : float) (num_runs : Z)
    (run : Z) (all_results : list row) : M (list row) :=
  print (("Run " +:+ PyStr.str_of_int (run + 1) +:+ " of " +:+ PyStr.str_of_int num_runs)%string) ;;;
  (* Sequential write *)
  write_bw <- run_fio_test "sequential_write" (joinpath test_dir "seq_write_test")
                "1M" 64 "write" size 4 ;;
  print ("Sequential Write Bandwidth: " +:+ float_repr E write_bw +:+ " MB/s")%string ;;;
  let all_results := all_results ++ [("Sequential Write"%string, size_mb, run + 1, write_bw)] in
  (* Sequential read *)
  read_bw <- run_fio_test "sequential_read" (joinpath test_dir "seq_read_test")
               "1M" 64 "read" size 4 ;;
  print ("Sequential Read Bandwidth: " +:+ float_repr E read_bw +:+ " MB/s")%string ;;;
  let all_results := all_results ++ [("Sequential Read"%string, size_mb, run + 1, read_bw)] in
  (* Random write *)
  rand_write_bw <- run_fio_test "random_write" (joinpath test_dir "rand_write_test")
                     "4K" 64 "randwrite" size 4 ;;
  print ("Random Write Bandwidth: " +:+ float_repr E rand_write_bw +:+ " MB/s")%string ;;;
  let all_results := all_results ++ [("Random Write"%string, size_mb, run + 1, rand_write_bw)] in
  (* Random read *)
  rand_read_bw <- run_fio_test "random_read" (joinpath test_dir "rand_read_test")
                    "4K" 64 "randread" size 4 ;;
  print ("Random Read Bandwidth: " +:+ float_repr E rand_read_bw +:+ " MB/s")%string ;;;
  let all_results := all_results ++ [("Random Read"%string, size_mb, run + 1, rand_read_bw)] in
  (* Custom CSV write test *)
  write_time <- write_csv_test
                  (joinpath test_dir ("custom_write_" +:+ PyStr.str_of_int size +:+ ".csv")) size ;;
  print ("Custom CSV Write Time: " +:+ float_fixed2 E write_time +:+ " seconds")%string ;;;
  let all_results := all_results ++ [("Custom CSV Write"%string, size_mb, run + 1, write_time)] in
  (* Custom CSV read test *)
  read_time <- read_csv_test
                 (joinpath test_dir ("custom_write_" +:+ PyStr.str_of_int size +:+ ".csv")) ;;
  print ("Custom CSV Read Time: " +:+ float_fixed2 E read_time +:+ " seconds")%string ;;;
  let all_results := all_results ++ [("Custom CSV Read"%string, size_mb, run + 1, read_time)] in
  ret all_results.

(** The body of the outer loop. *)
Definition run_size (test_dir : Path) (num_runs : Z) (size : Z)
    (all_results : list row) : M (list row) :=
  size_mb <- lift (PyFloat.int_truediv size (1024 ^ 2)) ;;
  print (nl +:+ "Testing with size: " +:+ float_fixed2 E size_mb +:+ " MB" +:+ nl) ;;;
  for_each (range num_runs) (run_once test_dir size size_mb num_runs) all_results.

(** The loops of [run_benchmarks], up to the saving of the results. *)
Definition run_all (test_dir : Path) (sizes : list Z) (num_runs : Z) : M (list row) :=
  mkdir test_dir ;;;
  let all_results := [] in
  for_each sizes (run_size test_dir num_runs) all_results.

Definition run_benchmarks (test_dir : Path) (sizes : list Z) (num_runs : Z)
    (results_file : Path) : M unit :=
  all_results <- run_all test_dir sizes num_runs ;;
  save_results_to_csv all_results results_file.

End Benchmarks.

(** ** Vocabulary of the statements *)

Fixpoint forall_chars (P : ascii -> bool) (s : string) : bool :=
  match s with
  | EmptyString => true
  | String c s' => P c && forall_chars P s'
  end.

(** Only blanks; no blank. *)
Definition all_space (s : string) : bool := forall_chars PyStr.is_space s.
Definition no_space (s : string) : bool :=
  forall_chars (fun c => negb (PyStr.is_space c)) s.

(** What may follow a token: the end of the line, or a blank. *)
Definition ends_token (post : string) : bool :=
  match post with
  | EmptyString => true
  | String c _ => PyStr.is_space c
  end.

(** No occurrence of [sep] in [t +:+ post] starts inside [t]. *)
Fixpoint no_start (sep t post : string) : bool :=
  match t with
  | EmptyString => true
  | String c t' => negb (PyStr.starts_with sep (t +:+ post)) && no_start sep t' post
  end.

Definition first_char_differs (sep : string) (c : ascii) : bool :=
  match sep with
  | EmptyString => false
  | String a _ => negb (Ascii.eqb a c)
  end.

Definition in_chars (c : ascii) (s : string) : bool :=
  negb (forall_chars (fun d => negb (Ascii.eqb c d)) s).

(** The characters a string that [float] accepts is made of. *)
Definition float_char (c : ascii) : bool :=
  PyStr.is_space c || PyFloat.is_digit c || in_chars (PyFloat.lower c) "+-._einfaty".

(** The "/s" after a unit, or nothing. *)
Definition rate_suffix (per_s : bool) : string :=
  if per_s then "/s"%string else EmptyString.

(** No line of [lines] holds the bandwidth marker. *)
Definition no_marker (lines : list string) : Prop :=
  Forall (fun line => PyStr.contains "BW=" line = false) lines.

(** What the child process started by [w]'s next [subprocess.run] prints. *)
Definition fio_stdout (E : Env) (argv : list string) (w : World) : string :=
  (fio E (runs w) argv (fs w)).1.

(** ** Sample surroundings *)

(** A sample environment: the clock advances by two seconds at each reading,
    every child process prints [out] and leaves the files as they are. *)
Definition sample_env (out : string) : Env :=
  mk_Env (fun k => PrimFloat.of_uint63 (Uint63.of_Z (Z.of_nat (2 * k))))
         (fun _ _ files => (out, files))
         (fun _ => true)
         (fun _ => "<float>"%string)
         (fun _ => "<.2f>"%string).

(** The world at the start: no file, no event. *)
Definition world0 : World := mk_World ∅ 0 0 [].

(** ** Vocabulary of the synthetic file *)

(** The records numbered [i], [i+1], ... ([k] of them), one after the other,
    and the events of their writing. *)
Fixpoint records_from (i : Z) (k : nat) : string :=
  match k with
  | O => EmptyString
  | S k' => record i +:+ records_from (i + 1) k'
  end.

Fixpoint write_events (p : Path) (i : Z) (k : nat) : list event :=
  match k with
  | O => []
  | S k' => EvWrite p (record i) :: write_events p (i + 1) k'
  end.

(** The world after [k] records, numbered from [i], were written to [p]. *)
Definition after_writes (p : Path) (i : Z) (k : nat) (w : World) : World :=
  mk_World (alter (append_content (records_from i k)) p (fs w))
           (ticks w) (runs w) (trace w ++ write_events p i k).

(** [p] can be opened for writing: it is absent, or present and writable. *)
Definition can_create (files : gmap string File) (p : Path) : Prop :=
  forall f, files !! p = Some f -> writable f = true.

(** The file [p.open("w")] leaves at [p]: emptied, or new. *)
Definition opened_file (files : gmap string File) (p : Path) : File :=
  match files !! p with
  | Some f => mk_File EmptyString (readable f) true
  | None => mk_File EmptyString true true
  end.

(** The world [write_csv_test] leaves after it wrote [k] records to [p]. *)
Definition written_world (p : Path) (k : nat) (w : World) : World :=
  mk_World
    (<[p := mk_File (header +:+ records_from 0 k) (readable (opened_file (fs w) p)) true]> (fs w))
    (S (S (ticks w))) (runs w)
    (trace w ++ [EvClock; EvOpen p "w"; EvWrite p header] ++
     write_events p 0 k ++ [EvClose p; EvClock; EvStat p]).

(** ** Vocabulary of the read benchmark *)

(** The pieces of a text, one after the other. *)
Definition concat_str (l : list string) : string := fold_right String.append EmptyString l.

(** The events of [read_csv_test] on a file whose lines are [lines]. *)
Definition read_events (p : Path) (lines : list string) : list event :=
  [EvStat p; EvClock; EvOpen p "r"] ++ map (EvReadLine p) lines ++ [EvClose p; EvClock].

(** An event that changes no file: a reading of the clock, or a [stat], an
    opening for reading, the reading of a line or the closing of [p]. *)
Definition read_only (p : Path) (e : event) : bool :=
  match e with
  | EvClock => true
  | EvStat q | EvReadLine q _ | EvClose q => String.eqb p q
  | EvOpen q mode => String.eqb p q && String.eqb mode "r"
  | _ => false
  end.

(** The time between the next two readings of the clock. *)
Definition next_elapsed (E : Env) (w : World) : float :=
  PrimFloat.sub (clock E (S (ticks w))) (clock E (ticks w)).

(** [size / (1024 * 1024) / elapsed], as the two benchmarks compute it. *)
Definition throughput (size : Z) (elapsed : float) : result float :=
  rbind (PyFloat.int_truediv size (1024 * 1024))
    (fun size_in_mb => PyFloat.float_div size_in_mb elapsed).

(** A clock that stands still at five seconds, with a silent [fio]. *)
Definition frozen_env : Env :=
  mk_Env (fun _ => PrimFloat.of_uint63 5%uint63)
         (fun _ _ files => (EmptyString, files))
         (fun _ => true)
         (fun _ => "<float>"%string)
         (fun _ => "<.2f>"%string).

(** A world whose only file is [p], holding [text], readable and writable. *)
Definition world_with (p : Path) (text : string) : World :=
  mk_World {[ p := mk_File text true true ]} 0 0 [].

(** ** Vocabulary of the driver *)

(** The six tests, in the order the driver runs them. *)
Definition test_names : list string :=
  ["Sequential Write"; "Sequential Read"; "Random Write"; "Random Read";
   "Custom CSV Write"; "Custom CSV Read"]%string.

(** A result tuple without its value. *)
Definition row_key (r : row) : string * float * Z :=
  let '(name, size_mb, run, _) := r in (name, size_mb, run).

(** The value of a result tuple. *)
Definition row_value (r : row) : float := r.2.

(** The six tuples of the pass [run] (counted from 0) over one size. *)
Definition six_rows (size_mb : float) (run : Z) (v1 v2 v3 v4 v5 v6 : float) : list row :=
  [("Sequential Write"%string, size_mb, run + 1, v1);
   ("Sequential Read"%string, size_mb, run + 1, v2);
   ("Random Write"%string, size_mb, run + 1, v3);
   ("Random Read"%string, size_mb, run + 1, v4);
   ("Custom CSV Write"%string, size_mb, run + 1, v5);
   ("Custom CSV Read"%string, size_mb, run + 1, v6)].

Definition keys_of (size_mb : float) (run : Z) : list (string * float * Z) :=
  map (fun name => (name, size_mb, run + 1)) test_names.

(** [size / 1024**2], where that is a float. *)
Definition size_mb_of (size : Z) : float :=
  match PyFloat.int_truediv size (1024 ^ 2) with
  | Ok v => v
  | Raise _ => zero
  end.

(** The tuples a whole run collects, without their values. *)
Definition expected_keys (sizes : list Z) (num_runs : Z) : list (string * float * Z) :=
  flat_map (fun size => flat_map (keys_of (size_mb_of size)) (range num_runs)) sizes.

(** The file of the custom tests for [size]. *)
Definition custom_path (test_dir : Path) (size : Z) : Path :=
  joinpath test_dir ("custom_write_" +:+ PyStr.str_of_int size +:+ ".csv").

(** The events of one pass of the inner loop that ends well: the four [fio]
    runs with their arguments, the custom write of [k] records and the custom
    read of the file so written, each followed by its line on the console. *)
Definition once_events (E : Env) (test_dir : Path) (size num_runs run : Z)
    (v1 v2 v3 v4 v5 v6 : float) (k : nat) : list event :=
  [EvPrint ("Run " +:+ PyStr.str_of_int (run + 1) +:+ " of " +:+ PyStr.str_of_int num_runs);
   EvRun (fio_argv "sequential_write" (joinpath test_dir "seq_write_test") "1M" 64 "write" size 4);
   EvPrint ("Sequential Write Bandwidth: " +:+ float_repr E v1 +:+ " MB/s");
   EvRun (fio_argv "sequential_read" (joinpath test_dir "seq_read_test") "1M" 64 "read" size 4);
   EvPrint ("Sequential Read Bandwidth: " +:+ float_repr E v2 +:+ " MB/s");
   EvRun (fio_argv "random_write" (joinpath test_dir "rand_write_test") "4K" 64 "randwrite" size 4);
   EvPrint ("Random Write Bandwidth: " +:+ float_repr E v3 +:+ " MB/s");
   EvRun (fio_argv "random_read" (joinpath test_dir "rand_read_test") "4K" 64 "randread" size 4);
   EvPrint ("Random Read Bandwidth: " +:+ float_repr E v4 +:+ " MB/s")] ++
  ([EvClock; EvOpen (custom_path test_dir size) "w"; EvWrite (custom_path test_dir size) header] ++
   write_events (custom_path test_dir size) 0 k ++
   [EvClose (custom_path test_dir size); EvClock; EvStat (custom_path test_dir size)]) ++
  [EvPrint ("Custom CSV Write Time: " +:+ float_fixed2 E v5 +:+ " seconds")] ++
  read_events (custom_path test_dir size) (text_lines (header +:+ records_from 0 k)) ++
  [EvPrint ("Custom CSV Read Time: " +:+ float_fixed2 E v6 +:+ " seconds")].




(** The writing of a row of the results file. *)
Definition is_row_event (e : event) : bool :=
  match e with
  | EvWriteRow _ _ => true
  | _ => false
  end.

(** The rows of the results file for [results], header first. *)
Definition results_table (E : Env) (results : list row) : list (list string) :=
  headers :: map (row_fields E) results.

(** The events of [save_results_to_csv]. *)
Definition save_events (E : Env) (p : Path) (results : list row) : list event :=
  [EvOpen p "w"] ++ map (EvWriteRow p) (results_table E results) ++ [EvClose p].

(** The rows and the events of the inner loop over the passes [runs], when
    every pass ends well. *)
Inductive inner_loop (E : Env) (test_dir : Path) (size : Z) (size_mb : float) (num_runs : Z)
  : list Z -> list row -> list event -> Prop :=
| inner_done : inner_loop E test_dir size size_mb num_runs [] [] []
| inner_pass (run : Z) (runs : list Z) (v1 v2 v3 v4 v5 v6 : float) (k : nat)
    (rows : list row) (evs : list event) :
    inner_loop E test_dir size size_mb num_runs runs rows evs ->
    inner_loop E test_dir size size_mb num_runs (run :: runs)
      (six_rows size_mb run v1 v2 v3 v4 v5 v6 ++ rows)
      (once_events E test_dir size num_runs run v1 v2 v3 v4 v5 v6 k ++ evs).

(** The rows and the events of the outer loop over [sizes]. *)
Inductive outer_loop (E : Env) (test_dir : Path) (num_runs : Z)
  : list Z -> list row -> list event -> Prop :=
| outer_done : outer_loop E test_dir num_runs [] [] []
| outer_size (size : Z) (sizes : list Z) (size_mb : float)
    (rows1 rows : list row) (evs1 evs : list event) :
    PyFloat.int_truediv size (1024 ^ 2) = Ok size_mb ->
    inner_loop E test_dir size size_mb num_runs (range num_runs) rows1 evs1 ->
    outer_loop E test_dir num_runs sizes rows evs ->
    outer_loop E test_dir num_runs (size :: sizes) (rows1 ++ rows)
      (EvPrint (nl +:+ "Testing with size: " +:+ float_fixed2 E size_mb +:+ " MB" +:+ nl)
         :: evs1 ++ evs).

(** Any event but the writing of a row of the results file. *)
Definition quiet (e : event) : bool := negb (is_row_event e).

(** A computation that writes no row of the results file, however it ends. *)
Definition writes_no_row {A : Type} (m : M A) : Prop :=
  forall w : World, exists evs : list event,
    trace (m w).2 = trace w ++ evs /\ forallb quiet evs = true.

(** ** Vocabulary of the edge cases *)

(** The records numbered [i], [i+1], ... ([k] of them), line by line. *)
Fixpoint record_lines (i : Z) (k : nat) : list string :=
  match k with
  | O => []
  | S k' => record i :: record_lines (i + 1) k'
  end.

(** A world whose only file is [p], holding [text], that this process may
    read but not write. *)
Definition locked_world (p : Path) (text : string) : World :=
  mk_World {[ p := mk_File text true false ]} 0 0 [].

(** Neither CR nor LF. *)
Definition inline_char (c : ascii) : bool := negb (PyStr.is_cr c) && negb (PyStr.is_lf c).

(** The launching of a child process; a reading of the clock. *)
Definition is_run_event (e : event) : bool :=
  match e with
  | EvRun _ => true
  | _ => false
  end.

Definition is_clock_event (e : event) : bool :=
  match e with
  | EvClock => true
  | _ => false
  end.

(** How many events of [evs] satisfy [P]. *)
Definition count_events (P : event -> bool) (evs : list event) : nat :=
  length (List.filter P evs).

(** The header line of the results file. *)
Definition header_line : string := "Test Type,Data Size (MB),Run,Result (MB/s)" +:+ crlf.

(** ** Vocabulary of a pass *)

(** What the [fio] runs see and change: the count of child processes so far
    and the file system. *)
Definition fio_state : Type := nat * gmap string File.

(** What the next child process prints, and the state it leaves. *)
Definition fio_text (E : Env) (argv : list string) (st : fio_state) : string :=
  (fio E st.1 argv st.2).1.

Definition next_fio (E : Env) (argv : list string) (st : fio_state) : fio_state :=
  (S st.1, (fio E st.1 argv st.2).2).

(** The command lines of the four [fio] tests of a pass, in their order. *)
Definition pass_argv (test_dir : Path) (size : Z) (i : nat) : list string :=
  match i with
  | 0%nat => fio_argv "sequential_write" (joinpath test_dir "seq_write_test") "1M" 64 "write" size 4
  | 1%nat => fio_argv "sequential_read" (joinpath test_dir "seq_read_test") "1M" 64 "read" size 4
  | 2%nat => fio_argv "random_write" (joinpath test_dir "rand_write_test") "4K" 64 "randwrite" size 4
  | _ => fio_argv "random_read" (joinpath test_dir "rand_read_test") "4K" 64 "randread" size 4
  end.

(** ** Start-up: the check for [fio] and the main block

    The start-up code asks more of its surroundings than the benchmarks do:
    which system this is, where the script lies, how a child process ends,
    what the YAML loader makes of the configuration file. [Host] holds these
    answers. A value loaded from YAML is a [pyval]: null, a boolean, an
    integer, a float, a string, a sequence or a mapping (the timestamps,
    binaries and sets of YAML are left out). *)

#[local] Set Warnings "-register-all".

Inductive pyval : Type :=
| PyNone
| PyBool (b : bool)
| PyInt (n : Z)
| PyFloat (x : float)
| PyStr (s : string)
| PyList (items : list pyval)
| PyDict (entries : list (pyval * pyval)).

(** The exceptions of the start-up code: those of [exn], and four more. *)
Inductive py_exn : Type :=
| Builtin (e : exn)
| AttributeError
| KeyError (key : string)
| TypeError
| YAMLError.

(** How [subprocess.run(argv, check=True)] ends: the child ran and exited
    with [returncode], or it could not be started. *)
Inductive spawned : Type :=
| Exited (returncode : Z)
| NotStarted (e : exn).

(** What [yaml.safe_load] returns on a text. *)
Inductive loaded : Type :=
| Loaded (v : pyval)
| LoadError (e : py_exn).

(** [platform_system] is [platform.system()]; [script_dir] is
    [Path(__file__).resolve().parent], an absolute path without a trailing
    slash; [spawn k argv files] is how the [k]-th child process ends and the
    files it leaves; [str_of_value v] is [str(v)] for a float, a sequence or
    a mapping. *)
Record Host : Type := mk_Host {
  platform_system : string;
  script_dir : Path;
  spawn : nat -> list string -> gmap string File -> spawned * gmap string File;
  safe_load : string -> loaded;
  str_of_value : pyval -> string
}.

(** How a piece of start-up code ends: it goes on with a value, it calls
    [sys.exit(code)], or it lets an exception escape. *)
Inductive outcome (A : Type) : Type :=
| Return (a : A)
| SysExit (code : Z)
| Uncaught (e : py_exn).

Arguments Return {A} a.
Arguments SysExit {A} code.
Arguments Uncaught {A} e.

Definition Startup (A : Type) : Type := World -> outcome A * World.

Definition sret {A : Type} (a : A) : Startup A := fun w => (Return a, w).
Definition sys_exit {A : Type} (code : Z) : Startup A := fun w => (SysExit code, w).

Definition sbind {A B : Type} (m : Startup A) (k : A -> Startup B) : Startup B :=
  fun w =>
    match m w with
    | (Return a, w') => k a w'
    | (SysExit code, w') => (SysExit code, w')
    | (Uncaught e, w') => (Uncaught e, w')
    end.

Notation "x <~ m ;; k" := (sbind m (fun x => k))
  (at level 90, m at level 80, right associativity, only parsing).
Notation "m ~;; k" := (sbind m (fun _ => k))
  (at level 90, right associativity, only parsing).

(** A computation of the benchmarks, run by the start-up code. *)
Definition of_M {A : Type} (m : M A) : Startup A :=
  fun w =>
    match m w with
    | (Ok a, w') => (Return a, w')
    | (Raise e, w') => (Uncaught (Builtin e), w')
    end.

(** [if cond: body], for a [body] that falls through or leaves. *)
Definition when (cond : bool) (body : Startup unit) : Startup unit :=
  if cond then body else sret tt.

(** *** [check_fio_installed] *)

(** [subprocess.run(argv, ...)]: one more child process, started or not. *)
Definition subprocess_run_check (H : Host) (argv : list string) : World -> spawned * World :=
  fun w =>
    let '(r, files) := spawn H (runs w) argv (fs w) in
    (r, mk_World files (ticks w) (S (runs w)) (trace w ++ [EvRun argv])).

Definition fio_version_argv : list string := ["fio"; "--version"]%string.
Definition apt_install_argv : list string := ["sudo"; "apt"; "install"; "-y"; "fio"]%string.

(** The handler of the outer [try]: one attempt to install, whose
    [CalledProcessError] is caught and whose other exceptions escape. *)
Definition install_fio (H : Host) : Startup bool :=
  of_M (print "Fio is not installed. Attempting to install it via apt...") ~;;
  fun w =>
    let '(r, w') := subprocess_run_check H apt_install_argv w in
    match r with
    | Exited returncode =>
        if returncode =? 0 then
          (of_M (print "Fio was successfully installed.") ~;; sret true) w'
        else
          (of_M (print ("ERROR: Could not install 'fio'. " +:+
                        "Please install it manually using 'sudo apt install fio'.")) ~;;
           sret false) w'
    | NotStarted e => (Uncaught (Builtin e), w')
    end.

(** With [check=True] a non-zero exit status is a [CalledProcessError]; the
    outer [try] catches it and [FileNotFoundError], nothing else. *)
Definition check_fio_installed (H : Host) : Startup bool :=
  fun w =>
    let '(r, w') := subprocess_run_check H fio_version_argv w in
    match r with
    | Exited returncode =>
        if returncode =? 0 then (Return true, w') else install_fio H w'
    | NotStarted FileNotFoundError => install_fio H w'
    | NotStarted e => (Uncaught (Builtin e), w')
    end.

(** *** The values of the configuration *)

(** [bool(v)]. *)
Definition truthy (v : pyval) : bool :=
  match v with
  | PyNone => false
  | PyBool b => b
  | PyInt n => negb (n =? 0)
  | PyFloat x => negb (PrimFloat.eqb x zero)
  | PyStr s => negb (String.eqb s EmptyString)
  | PyList items => match items with [] => false | _ => true end
  | PyDict entries => match entries with [] => false | _ => true end
  end.

(** [key == k] for a string [k]: only a string equals a string. *)
Definition key_is (k : string) (key : pyval) : bool :=
  match key with
  | PyStr s => String.eqb s k
  | _ => false
  end.

(** The value at the key [k] of a mapping, whose keys are distinct. *)
Fixpoint lookup_key (k : string) (entries : list (pyval * pyval)) : option pyval :=
  match entries with
  | [] => None
  | (key, v) :: rest => if key_is k key then Some v else lookup_key k rest
  end.

(** [config.get(k, default)]: only a mapping has the method. *)
Definition dict_get (config : pyval) (k : string) (default : pyval) : outcome pyval :=
  match config with
  | PyDict entries =>
      match lookup_key k entries with
      | Some v => Return v
      | None => Return default
      end
  | _ => Uncaught AttributeError
  end.

(** [config[k]] for a string [k]. *)
Definition subscript (config : pyval) (k : string) : outcome pyval :=
  match config with
  | PyDict entries =>
      match lookup_key k entries with
      | Some v => Return v
      | None => Uncaught (KeyError k)
      end
  | _ => Uncaught TypeError
  end.

(** [iter(v)], all at once: the items of a sequence, the keys of a mapping,
    the characters of a string. *)
Definition iterate (v : pyval) : outcome (list pyval) :=
  match v with
  | PyList items => Return items
  | PyDict entries => Return (map fst entries)
  | PyStr s => Return (map (fun c => PyStr (PyStr.chr c)) (list_ascii_of_string s))
  | _ => Uncaught TypeError
  end.

(** [n] copies of [s], and of [l], one after the other. *)
Definition repeat_str (s : string) (n : N) : string :=
  N.iter n (String.append s) EmptyString.
Definition repeat_list (l : list pyval) (n : N) : list pyval :=
  N.iter n (app l) [].

(** [size_mb * 1024**2]. *)
Definition times_mb (size_mb : pyval) : outcome pyval :=
  match size_mb with
  | PyInt n => Return (PyInt (n * 1024 ^ 2))
  | PyBool b => Return (PyInt ((if b then 1 else 0) * 1024 ^ 2))
  | PyFloat x => Return (PyFloat (PrimFloat.mul x (PrimFloat.of_uint63 1048576%uint63)))
  | PyStr s => Return (PyStr (repeat_str s 1048576))
  | PyList l => Return (PyList (repeat_list l 1048576))
  | PyNone | PyDict _ => Uncaught TypeError
  end.

(** A list comprehension: the first item that raises ends it. *)
Fixpoint comprehension (f : pyval -> outcome pyval) (items : list pyval)
  : outcome (list pyval) :=
  match items with
  | [] => Return []
  | x :: rest =>
      match f x with
      | Return y =>
          match comprehension f rest with
          | Return ys => Return (y :: ys)
          | SysExit code => SysExit code
          | Uncaught e => Uncaught e
          end
      | SysExit code => SysExit code
      | Uncaught e => Uncaught e
      end
  end.

(** [str(v)], as an f-string formats [v]. *)
Definition py_str (H : Host) (v : pyval) : string :=
  match v with
  | PyStr s => s
  | PyInt n => PyStr.str_of_int n
  | PyBool b => if b then "True"%string else "False"%string
  | PyNone => "None"%string
  | _ => str_of_value H v
  end.

(** [d / name] as [pathlib] joins: the new segment is cut at its slashes,
    its empty and "." components dropped. [name] does not start with a
    slash. *)
Definition child (d : Path) (name : string) : Path :=
  if String.eqb d "/" then "/" +:+ name else joinpath d name.

Definition kept_component (c : string) : bool :=
  negb (String.eqb c EmptyString) && negb (String.eqb c ".").

Definition path_div (d : Path) (name : string) : Path :=
  fold_left child (List.filter kept_component (PyStr.split_on "/" name)) d.

(** *** The main block *)

(** [with open(p, "r") as file: config = yaml.safe_load(file)]. *)
Definition load_config (H : Host) (p : Path) : Startup pyval :=
  fun w =>
    match open_r p w with
    | (Ok f, w') =>
        match safe_load H (content f) with
        | Loaded config => (Return config, close p w')
        | LoadError e => (Uncaught e, close p w')
        end
    | (Raise e, w') => (Uncaught (Builtin e), w')
    end.

(** The call the main block ends with:
    [run_benchmarks(TEST_DIR, TEST_SIZES, NUM_RUNS, TEST_DIR / "benchmark_results.csv")]. *)
Record benchmark_call : Type := mk_call {
  call_test_dir : Path;
  call_sizes : list pyval;
  call_num_runs : pyval;
  call_results_file : Path
}.

(** The main block once the configuration is loaded, up to that call. *)
Definition configure (H : Host) (config : pyval) : Startup benchmark_call :=
  TEST_HW <~ (fun w => (dict_get config "test_hw" (PyStr ""), w)) ;;
  when (negb (truthy TEST_HW))
    (of_M (print ("ERROR: Please specify a hardware identifier in the 'test_hw' " +:+
                  "field of the config file.")) ~;;
     sys_exit 1) ~;;
  let TEST_DIR := path_div (script_dir H) ("hw_benchmark_results_" +:+ py_str H TEST_HW) in
  TEST_SIZES_MB <~ (fun w => (subscript config "test_data_sizes_mB", w)) ;;
  TEST_SIZES <~ (fun w =>
                   (match iterate TEST_SIZES_MB with
                    | Return items => comprehension times_mb items
                    | SysExit code => SysExit code
                    | Uncaught e => Uncaught e
                    end, w)) ;;
  NUM_RUNS <~ (fun w => (subscript config "num_runs", w)) ;;
  sret (mk_call TEST_DIR TEST_SIZES NUM_RUNS (path_div TEST_DIR "benchmark_results.csv")).

(** The main block, up to that call: what it exits with, what escapes it,
    or the call it makes. *)
Definition main (H : Host) : Startup benchmark_call :=
  when (negb (String.eqb (platform_system H) "Linux"))
    (of_M (print "ERROR: This script is only supported on Linux. Exiting.") ~;;
     sys_exit 1) ~;;
  installed <~ check_fio_installed H ;;
  when (negb installed) (sys_exit 1) ~;;
  let CONFIG_FILE := path_div (script_dir H) "benchmark_config.yaml" in
  config <~ load_config H CONFIG_FILE ;;
  configure H config.

(** *** Vocabulary of the start-up *)

(** How the two commands of [check_fio_installed] end when it starts in
    [w]: the version check, and the installation if it comes to it. *)
Definition version_check (H : Host) (w : World) : spawned :=
  (spawn H (runs w) fio_version_argv (fs w)).1.

Definition installation (H : Host) (w : World) : spawned :=
  (spawn H (S (runs w)) apt_install_argv (spawn H (runs w) fio_version_argv (fs w)).2).1.

(** The version check ended in a way that the outer [try] catches. *)
Definition install_needed (r : spawned) : bool :=
  match r with
  | Exited returncode => negb (returncode =? 0)
  | NotStarted FileNotFoundError => true
  | NotStarted _ => false
  end.

(** The three lines [check_fio_installed] may print. *)
Definition msg_attempt : string := "Fio is not installed. Attempting to install it via apt...".
Definition msg_installed : string := "Fio was successfully installed.".
Definition msg_failed : string :=
  "ERROR: Could not install 'fio'. Please install it manually using 'sudo apt install fio'.".

(** The two lines the main block may print before it exits. *)
Definition msg_not_linux : string := "ERROR: This script is only supported on Linux. Exiting.".
Definition msg_no_hw : string :=
  "ERROR: Please specify a hardware identifier in the 'test_hw' field of the config file.".

(** The mapping has no usable "test_hw": the key is missing, or its value
    is one that [not] takes for false. *)
Definition no_test_hw (entries : list (pyval * pyval)) : bool :=
  match lookup_key "test_hw" entries with
  | Some v => negb (truthy v)
  | None => true
  end.

(** The path of the configuration file. *)
Definition config_path (H : Host) : Path := path_div (script_dir H) "benchmark_config.yaml".

(** No slash in [s]. *)
Definition no_slash (s : string) : bool := forall_chars (first_char_differs "/") s.

(** The arguments of a call that are integers, as [run_benchmarks] takes
    them. *)
Definition int_of (v : pyval) : option Z :=
  match v with
  | PyInt n => Some n
  | _ => None
  end.

Fixpoint ints_of (l : list pyval) : option (list Z) :=
  match l with
  | [] => Some []
  | v :: rest =>
      match int_of v, ints_of rest with
      | Some n, Some ns => Some (n :: ns)
      | _, _ => None
      end
  end.

(** A sample host: a Linux system whose script lies in "/opt/bench", where
    the two commands end as [fio_ends] and [apt_ends] and the loader returns
    [config] whatever the text. *)
Definition sample_host (system : string) (fio_ends apt_ends : spawned) (config : loaded)
  : Host :=
  mk_Host system "/opt/bench"
    (fun _ argv files =>
       (match argv with
        | cmd :: _ => if String.eqb cmd "fio" then fio_ends else apt_ends
        | [] => apt_ends
        end, files))
    (fun _ => config)
    (fun _ => "<value>"%string).

(** The configuration of the sample scenario. *)
Definition sample_config : pyval :=
  PyDict [(PyStr "test_hw", PyStr "nvme1");
          (PyStr "test_data_sizes_mB", PyList [PyInt 1]);
          (PyStr "num_runs", PyInt 1)].

(** * Properties *)

(** ** Binary64 arithmetic *)

Module FloatFacts.

Local Abbreviation fexp64 := PyFloat.fexp64.

Lemma fexp64_eq e : fexp64 e = Z.max (e - 53) (-1074).
Proof. reflexivity. Qed.

Lemma digits_log2 (p : positive) : Zpos (digits2_pos p) = Z.succ (Z.log2 (Zpos p)).
Proof.
  assert (H : forall q, digits2_pos q = Pos.size q).
  { induction q; simpl; congruence. }
  rewrite H. destruct p; simpl; lia.
Qed.

Lemma Zdigits2_log2 (m : Z) : 0 < m -> Zdigits2 m = Z.succ (Z.log2 m).
Proof. destruct m; try lia. intros _. apply digits_log2. Qed.

Lemma Zdigits2_bounds (m : Z) :
  0 < m -> 2 ^ (Zdigits2 m - 1) <= m < 2 ^ Zdigits2 m.
Proof.
  intros Hm. rewrite Zdigits2_log2 by assumption.
  replace (Z.succ (Z.log2 m) - 1) with (Z.log2 m) by lia.
  apply Z.log2_spec. assumption.
Qed.

Lemma Zdigits2_pos (m : Z) : 0 < m -> 1 <= Zdigits2 m.
Proof.
  intros Hm. rewrite Zdigits2_log2 by assumption.
  pose proof (Z.log2_nonneg m). lia.
Qed.

Lemma Zdigits2_ge (m k : Z) : 0 <= k -> 2 ^ k <= m -> k + 1 <= Zdigits2 m.
Proof.
  intros Hk Hm.
  assert (0 < m) by (pose proof (Z.pow_pos_nonneg 2 k); lia).
  rewrite Zdigits2_log2 by assumption.
  pose proof (Z.log2_le_pow2 m k). lia.
Qed.

Lemma Zdigits2_le (m k : Z) : 0 < m -> m < 2 ^ k -> Zdigits2 m <= k.
Proof.
  intros Hm Hlt.
  rewrite Zdigits2_log2 by assumption.
  pose proof (Z.log2_lt_pow2 m k Hm). lia.
Qed.

(** *** The right shift of the rounding procedure *)

Lemma shr_1_m (mrs : shr_record) :
  0 <= shr_m mrs -> shr_m (shr_1 mrs) = shr_m mrs / 2.
Proof.
  destruct mrs as [m r s]. simpl. intros Hm.
  rewrite <- Z.div2_div.
  destruct m as [|p|p]; [reflexivity | destruct p; reflexivity | lia].
Qed.

Lemma iter_pos_shr_m (n : positive) :
  forall mrs, 0 <= shr_m mrs ->
    shr_m (SpecFloat.iter_pos shr_1 n mrs) = shr_m mrs / 2 ^ Zpos n.
Proof.
  induction n as [n IH | n IH |]; intros mrs Hm; simpl SpecFloat.iter_pos.
  - assert (H1 : 0 <= shr_m (shr_1 mrs)).
    { rewrite shr_1_m by assumption. apply Z.div_pos; lia. }
    assert (H2 : 0 <= shr_m (SpecFloat.iter_pos shr_1 n (shr_1 mrs))).
    { rewrite IH by assumption. apply Z.div_pos; [assumption | apply Z.pow_pos_nonneg; lia]. }
    rewrite IH by assumption. rewrite IH by assumption.
    rewrite shr_1_m by assumption.
    assert (Hp : 0 < 2 ^ Zpos n) by (apply Z.pow_pos_nonneg; lia).
    rewrite !Z.div_div by lia.
    f_equal. rewrite (Pos2Z.inj_xI n).
    replace (2 * Zpos n + 1) with (1 + Zpos n + Zpos n) by lia.
    rewrite !Z.pow_add_r by lia. change (2 ^ 1) with 2. ring.
  - assert (H2 : 0 <= shr_m (SpecFloat.iter_pos shr_1 n mrs)).
    { rewrite IH by assumption. apply Z.div_pos; [assumption | apply Z.pow_pos_nonneg; lia]. }
    rewrite IH by assumption. rewrite IH by assumption.
    assert (Hp : 0 < 2 ^ Zpos n) by (apply Z.pow_pos_nonneg; lia).
    rewrite !Z.div_div by lia.
    f_equal. rewrite (Pos2Z.inj_xO n).
    replace (2 * Zpos n) with (Zpos n + Zpos n) by lia.
    rewrite Z.pow_add_r by lia. ring.
  - rewrite shr_1_m by assumption. reflexivity.
Qed.

Lemma shr_m_of_loc (m : Z) (l : location) : shr_m (shr_record_of_loc m l) = m.
Proof. destruct l as [|[]]; reflexivity. Qed.

Lemma shr_fexp_spec (m e : Z) (l : location) :
  0 < m ->
  let n := fexp64 (Zdigits2 m + e) - e in
  shr_m (fst (shr_fexp prec emax m e l)) = (if 0 <? n then m / 2 ^ n else m) /\
  snd (shr_fexp prec emax m e l) = (if 0 <? n then e + n else e).
Proof.
  intros Hm n. unfold shr_fexp, shr. fold fexp64. fold n.
  destruct n as [|p|p]; simpl; rewrite ?shr_m_of_loc; try (split; reflexivity).
  split; [|reflexivity].
  rewrite iter_pos_shr_m by (rewrite shr_m_of_loc; lia).
  rewrite shr_m_of_loc. reflexivity.
Qed.

Lemma round_nearest_even_bounds (m : Z) (l : location) :
  m <= round_nearest_even m l <= m + 1.
Proof.
  destruct l as [|[]]; simpl; try destruct (Z.even m); lia.
Qed.

Lemma Zdigits2_div_pow2 (m n : Z) :
  0 < m -> 0 <= n < Zdigits2 m ->
  0 < m / 2 ^ n /\ Zdigits2 (m / 2 ^ n) = Zdigits2 m - n.
Proof.
  intros Hm Hn.
  pose proof (Zdigits2_bounds m Hm) as [Hlo _].
  assert (Hpn : 0 < 2 ^ n) by (apply Z.pow_pos_nonneg; lia).
  assert (Hle : 2 ^ n <= m).
  { transitivity (2 ^ (Zdigits2 m - 1)); [|assumption].
    apply Z.pow_le_mono_r; lia. }
  assert (Hq : 0 < m / 2 ^ n).
  { apply Z.div_str_pos. lia. }
  split; [assumption|].
  rewrite (Zdigits2_log2 _ Hq), (Zdigits2_log2 _ Hm).
  rewrite <- Z.shiftr_div_pow2 by lia.
  rewrite Z.log2_shiftr by assumption.
  rewrite (Zdigits2_log2 _ Hm) in Hn. lia.
Qed.

Lemma Zdigits2_succ (m m' : Z) :
  0 < m -> m <= m' <= m + 1 -> Zdigits2 m <= Zdigits2 m' <= Zdigits2 m + 1.
Proof.
  intros Hm Hm'.
  pose proof (Zdigits2_bounds m Hm) as [Hlo Hhi].
  pose proof (Zdigits2_pos m Hm) as Hd.
  split.
  - pose proof (Zdigits2_ge m' (Zdigits2 m - 1)). lia.
  - apply Zdigits2_le; [lia|].
    replace (Zdigits2 m + 1) with (Z.succ (Zdigits2 m)) by lia.
    rewrite Z.pow_succ_r by lia. lia.
Qed.

(** The rounding step, on a positive number with enough digits that is not
    below the least positive subnormal: the result is a positive canonical
    number of the same magnitude, or an infinity. *)
Lemma binary_round_aux_pos (s : bool) (mx ex : Z) (lx : location) :
  0 < mx ->
  ex <= fexp64 (Zdigits2 mx + ex) ->
  -1073 <= Zdigits2 mx + ex ->
  exists (m : positive) (e : Z),
    binary_round_aux prec emax s mx ex lx =
      (if e <=? emax - prec then S754_finite s m e else S754_infinity s) /\
    canonical_mantissa prec emax m e = true /\
    Zdigits2 mx + ex <= Zpos (digits2_pos m) + e <= Zdigits2 mx + ex + 1.
Proof.
  intros Hmx Hfx Hlow.
  unfold binary_round_aux.
  pose proof (shr_fexp_spec mx ex lx Hmx) as [Hm1 He1].
  destruct (shr_fexp prec emax mx ex lx) as [mrs1 e1]. simpl in Hm1, He1.
  set (T := Zdigits2 mx + ex) in *.
  assert (HT : fexp64 T = Z.max (T - 53) (-1074)) by apply fexp64_eq.
  pose proof (Zdigits2_pos mx Hmx) as Hdx.
  (* after the first shift *)
  assert (H1 : 0 < shr_m mrs1 /\ Zdigits2 (shr_m mrs1) + e1 = T /\ e1 = fexp64 T).
  { destruct (Z.ltb_spec 0 (fexp64 T - ex)) as [Hn | Hn].
    - destruct (Zdigits2_div_pow2 mx (fexp64 T - ex) Hmx) as [Hq Hd]; [lia|].
      rewrite Hm1. repeat split; [assumption | lia | lia].
    - rewrite Hm1. repeat split; [assumption | lia | lia]. }
  destruct H1 as (Hpos1 & Hd1 & He1').
  pose proof (round_nearest_even_bounds (shr_m mrs1) (loc_of_shr_record mrs1)) as Hr.
  set (m1 := round_nearest_even (shr_m mrs1) (loc_of_shr_record mrs1)) in *.
  assert (Hm1pos : 0 < m1) by lia.
  pose proof (Zdigits2_succ (shr_m mrs1) m1 Hpos1 Hr) as Hd1'.
  pose proof (shr_fexp_spec m1 e1 loc_Exact Hm1pos) as [Hm2 He2].
  destruct (shr_fexp prec emax m1 e1 loc_Exact) as [mrs2 e2]. simpl in Hm2, He2.
  set (T1 := Zdigits2 m1 + e1) in *.
  assert (HT1 : fexp64 T1 = Z.max (T1 - 53) (-1074)) by apply fexp64_eq.
  pose proof (Zdigits2_pos m1 Hm1pos) as Hdm1.
  assert (H2 : 0 < shr_m mrs2 /\ Zdigits2 (shr_m mrs2) + e2 = T1 /\ e2 = fexp64 T1).
  { destruct (Z.ltb_spec 0 (fexp64 T1 - e1)) as [Hn | Hn].
    - destruct (Zdigits2_div_pow2 m1 (fexp64 T1 - e1) Hm1pos) as [Hq Hd]; [lia|].
      rewrite Hm2. repeat split; [assumption | lia | lia].
    - rewrite Hm2. repeat split; [assumption | lia | lia]. }
  destruct H2 as (Hpos2 & Hd2 & He2').
  destruct (shr_m mrs2) as [|m|m] eqn:Em; try lia.
  exists m, e2. split; [reflexivity|]. split.
  - unfold canonical_mantissa. fold fexp64. simpl in Hd2. rewrite Hd2. lia.
  - simpl in Hd2. lia.
Qed.

Lemma div_eucl_div_mod (a b : Z) : Z.div_eucl a b = (a / b, a mod b).
Proof. unfold Z.div, Z.modulo. destruct (Z.div_eucl a b). reflexivity. Qed.

(** The quotient of two positive finite numbers whose magnitudes differ by
    at least [2^-1073]: a positive canonical number of about that
    magnitude, or an infinity. *)
Lemma SFdiv_finite_pos (sx sy : bool) (mx my : positive) (ex ey : Z) :
  let D := (Zpos (digits2_pos mx) + ex) - (Zpos (digits2_pos my) + ey) in
  -1073 <= D ->
  exists (m : positive) (e : Z),
    SFdiv prec emax (S754_finite sx mx ex) (S754_finite sy my ey) =
      (if e <=? emax - prec then S754_finite (xorb sx sy) m e
       else S754_infinity (xorb sx sy)) /\
    canonical_mantissa prec emax m e = true /\
    D <= Zpos (digits2_pos m) + e <= D + 2.
Proof.
  intros D HD.
  unfold SFdiv, SFdiv_core_binary. fold fexp64.
  change (Zdigits2 (Zpos mx)) with (Zpos (digits2_pos mx)).
  change (Zdigits2 (Zpos my)) with (Zpos (digits2_pos my)).
  fold D.
  set (d1 := Zpos (digits2_pos mx)) in *.
  set (d2 := Zpos (digits2_pos my)) in *.
  set (e' := Z.min (fexp64 D) (ex - ey)).
  set (sh := ex - ey - e').
  assert (HfD : fexp64 D = Z.max (D - 53) (-1074)) by apply fexp64_eq.
  assert (Hsh : 0 <= sh) by (unfold sh, e'; lia).
  set (m' := match sh with Zpos _ => Z.shiftl (Zpos mx) sh | Z0 => Zpos mx | Zneg _ => 0 end).
  assert (Hm' : m' = Zpos mx * 2 ^ sh).
  { unfold m'. destruct sh as [|p|p] eqn:Esh; [simpl; lia | | lia].
    apply Z.shiftl_mul_pow2. lia. }
  rewrite div_eucl_div_mod.
  pose proof (Zdigits2_bounds (Zpos mx) eq_refl) as [Hx1 Hx2].
  pose proof (Zdigits2_bounds (Zpos my) eq_refl) as [Hy1 Hy2].
  change (Zdigits2 (Zpos mx)) with d1 in Hx1, Hx2.
  change (Zdigits2 (Zpos my)) with d2 in Hy1, Hy2.
  assert (Hd1 : 1 <= d1) by (unfold d1; lia).
  assert (Hd2 : 1 <= d2) by (unfold d2; lia).
  set (k := d1 - 1 + sh - d2).
  assert (Hk : 0 <= k) by (unfold k, sh, e', D in *; lia).
  assert (Hps : 0 < 2 ^ sh) by (apply Z.pow_pos_nonneg; lia).
  assert (Hpk : 0 < 2 ^ k) by (apply Z.pow_pos_nonneg; lia).
  assert (P1 : 2 ^ (d1 - 1) * 2 ^ sh = 2 ^ k * 2 ^ d2).
  { rewrite <- !Z.pow_add_r by lia. f_equal. unfold k. lia. }
  assert (P2 : 2 ^ d1 * 2 ^ sh = 2 ^ (d2 - 1) * 2 ^ (k + 2)).
  { rewrite <- !Z.pow_add_r by lia. f_equal. unfold k. lia. }
  assert (Hqlo : 2 ^ k <= m' / Zpos my).
  { apply Z.div_le_lower_bound; [lia|]. rewrite Hm'. nia. }
  assert (Hqhi : m' / Zpos my < 2 ^ (k + 2)).
  { apply Z.div_lt_upper_bound; [lia|]. rewrite Hm'.
    assert (0 < 2 ^ (k + 2)) by (apply Z.pow_pos_nonneg; lia). nia. }
  assert (Hq : 0 < m' / Zpos my) by lia.
  pose proof (Zdigits2_ge _ _ Hk Hqlo) as Hdq1.
  pose proof (Zdigits2_le _ _ Hq Hqhi) as Hdq2.
  destruct (binary_round_aux_pos (xorb sx sy) (m' / Zpos my) e'
              (new_location (Zpos my) (m' mod Zpos my)) Hq) as (m & e & Heq & Hcan & Hmag).
  - assert (Hf : fexp64 (Zdigits2 (m' / Zpos my) + e') =
                 Z.max (Zdigits2 (m' / Zpos my) + e' - 53) (-1074)) by apply fexp64_eq.
    unfold k, sh, e', D in *. lia.
  - unfold k, sh, e', D in *. lia.
  - exists m, e. split; [exact Heq|]. split; [exact Hcan|].
    unfold k, sh, e', D in *. lia.
Qed.

(** *** Primitive floats *)

Lemma Prim2SF_zero : Prim2SF zero = S754_zero false.
Proof. vm_compute. reflexivity. Qed.

Lemma Prim2SF_infinity : Prim2SF infinity = S754_infinity false.
Proof. vm_compute. reflexivity. Qed.

Lemma bounded_magnitude (m : positive) (e : Z) :
  bounded prec emax m e = true ->
  -1073 <= Zpos (digits2_pos m) + e <= 1024.
Proof.
  unfold bounded, canonical_mantissa. fold fexp64. rewrite fexp64_eq.
  change (emax - prec) with 971.
  intros H. apply andb_prop in H as [H1 H2]. lia.
Qed.

(** A positive finite float is a positive binary64 number. *)
Lemma positive_finite_SF (x : float) :
  PyFloat.positive x = true -> PyFloat.finite x = true ->
  exists (m : positive) (e : Z),
    Prim2SF x = S754_finite false m e /\ bounded prec emax m e = true.
Proof.
  unfold PyFloat.positive, PyFloat.finite. intros Hp Hf.
  apply andb_prop in Hf as [_ Hf].
  rewrite FloatAxioms.ltb_spec, Prim2SF_zero in Hp.
  rewrite FloatAxioms.ltb_spec, Prim2SF_infinity in Hf.
  pose proof (Prim2SF_valid x) as Hv.
  destruct (Prim2SF x) as [s | s | | s m e]; try discriminate.
  - destruct s; discriminate.
  - destruct s; [discriminate|]. exists m, e. split; [reflexivity | exact Hv].
Qed.

(** The size in MB of a non-empty file: [n / (1024 * 1024)] is a positive
    float of magnitude at least [2^-21]. *)
Lemma int_truediv_mb (n : Z) :
  1 <= n < 2 ^ 1000 ->
  exists (v : float) (m : positive) (e : Z),
    PyFloat.int_truediv n (1024 * 1024) = Ok v /\
    Prim2SF v = S754_finite false m e /\
    -20 <= Zpos (digits2_pos m) + e.
Proof.
  intros [Hn1 Hn2]. destruct n as [|p|p]; try lia.
  unfold PyFloat.int_truediv. change (1024 * 1024) with 1048576. simpl.
  destruct (SFdiv_finite_pos false false p 1048576 0 0) as (m & e & Heq & Hcan & Hmag).
  { change (Zpos (digits2_pos 1048576)) with 21. lia. }
  change (Zpos (digits2_pos 1048576)) with 21 in Hmag.
  assert (Hdp : Zpos (digits2_pos p) <= 1000).
  { change (Zpos (digits2_pos p)) with (Zdigits2 (Zpos p)). apply Zdigits2_le; lia. }
  assert (He : e <= emax - prec).
  { unfold canonical_mantissa in Hcan. fold fexp64 in Hcan. rewrite fexp64_eq in Hcan.
    change (emax - prec) with 971. lia. }
  apply Z.leb_le in He as Hle. rewrite Hle in Heq. simpl in Heq.
  rewrite Heq.
  exists (SF2Prim (S754_finite false m e)), m, e.
  split; [reflexivity|]. split; [|lia].
  apply Prim2SF_SF2Prim. simpl. unfold bounded. rewrite Hcan, Hle. reflexivity.
Qed.

(** Dividing a positive number of magnitude at least [2^-21] by a positive
    finite float gives a positive float. *)
Lemma float_div_positive (x y : float) (mx : positive) (ex : Z) :
  Prim2SF x = S754_finite false mx ex ->
  -20 <= Zpos (digits2_pos mx) + ex ->
  PyFloat.positive y = true -> PyFloat.finite y = true ->
  exists v : float, PyFloat.float_div x y = Ok v /\ PyFloat.positive v = true.
Proof.
  intros Hx Hmx Hp Hf.
  destruct (positive_finite_SF y Hp Hf) as (my & ey & Hy & Hb).
  pose proof (bounded_magnitude my ey Hb) as Hmy.
  unfold PyFloat.float_div.
  rewrite FloatAxioms.eqb_spec, Hy, Prim2SF_zero. simpl.
  eexists. split; [reflexivity|].
  unfold PyFloat.positive. rewrite FloatAxioms.ltb_spec, FloatAxioms.div_spec, Hx, Hy, Prim2SF_zero.
  unfold SF64div.
  destruct (SFdiv_finite_pos false false mx my ex ey) as (m & e & Heq & _ & _); [lia|].
  rewrite Heq. destruct (e <=? emax - prec); reflexivity.
Qed.

(** The throughput of a non-empty file over a positive finite time. *)
Lemma throughput_positive (n : Z) (elapsed : float) :
  1 <= n < 2 ^ 1000 ->
  PyFloat.positive elapsed = true -> PyFloat.finite elapsed = true ->
  exists mb v : float,
    PyFloat.int_truediv n (1024 * 1024) = Ok mb /\
    PyFloat.float_div mb elapsed = Ok v /\
    PyFloat.positive v = true.
Proof.
  intros Hn Hp Hf.
  destruct (int_truediv_mb n Hn) as (mb & m & e & Hmb & Hsf & Hmag).
  destruct (float_div_positive mb elapsed m e Hsf Hmag Hp Hf) as (v & Hv & Hpos).
  exists mb, v. auto.
Qed.

End FloatFacts.

(** ** Strings *)

Module StrFacts.
Import PyStr.

Lemma append_assoc (a b c : string) : (a +:+ b) +:+ c = a +:+ (b +:+ c).
Proof. induction a as [|x a IH]; simpl; [reflexivity | now rewrite IH]. Qed.

Lemma append_nil_r (a : string) : a +:+ EmptyString = a.
Proof. induction a as [|x a IH]; simpl; [reflexivity | now rewrite IH]. Qed.

Lemma length_append (a b : string) :
  String.length (a +:+ b) = (String.length a + String.length b)%nat.
Proof. induction a as [|x a IH]; simpl; [reflexivity | now rewrite IH]. Qed.

Lemma forall_chars_app (P : ascii -> bool) (a b : string) :
  forall_chars P (a +:+ b) = forall_chars P a && forall_chars P b.
Proof.
  induction a as [|x a IH]; simpl; [reflexivity|].
  rewrite IH. now rewrite andb_assoc.
Qed.

Lemma forall_chars_impl (P Q : ascii -> bool) (s : string) :
  (forall c, P c = true -> Q c = true) ->
  forall_chars P s = true -> forall_chars Q s = true.
Proof.
  intros HPQ. induction s as [|x s IH]; simpl; [reflexivity|].
  intros H. apply andb_prop in H as [H1 H2].
  rewrite (HPQ _ H1), (IH H2). reflexivity.
Qed.

(** *** Occurrences of a separator *)

Lemma prefix_first_char (sep : string) (c : ascii) (s : string) :
  first_char_differs sep c = true -> PyStr.starts_with sep (String c s) = false.
Proof.
  destruct sep as [|a sep]; simpl; [discriminate|].
  intros H. apply negb_true_iff in H. rewrite H. reflexivity.
Qed.

Lemma no_start_chars (sep t post : string) :
  forall_chars (first_char_differs sep) t = true -> no_start sep t post = true.
Proof.
  induction t as [|c t IH]; cbn [no_start forall_chars String.append]; [reflexivity|].
  intros H. apply andb_prop in H as [H1 H2].
  rewrite (IH H2), andb_true_r.
  rewrite prefix_first_char by assumption. reflexivity.
Qed.

Lemma no_start_app (sep t1 t2 post : string) :
  no_start sep (t1 +:+ t2) post = no_start sep t1 (t2 +:+ post) && no_start sep t2 post.
Proof.
  induction t1 as [|c t1 IH]; cbn [no_start String.append]; [reflexivity|].
  rewrite IH, append_assoc. now rewrite andb_assoc.
Qed.

Lemma split_go_nonempty (sep : string) (k : nat) (s : string) : split_go sep k s <> [].
Proof.
  revert k. induction s as [|c s IH]; intros k; cbn [split_go]; [discriminate|].
  destruct k; [|apply IH].
  destruct (PyStr.starts_with sep (String c s)); [discriminate|].
  specialize (IH O). destruct (split_go sep 0 s); [contradiction | discriminate].
Qed.

Lemma split_go_no_start (sep t post : string) :
  no_start sep t post = true ->
  split_go sep O (t +:+ post) = prepend_head t (split_go sep O post).
Proof.
  induction t as [|c t IH]; cbn [no_start String.append split_go].
  - intros _. pose proof (split_go_nonempty sep O post).
    destruct (split_go sep O post); [contradiction | reflexivity].
  - intros H. apply andb_prop in H as [H1 H2].
    apply negb_true_iff in H1. rewrite H1, (IH H2).
    pose proof (split_go_nonempty sep O post).
    destruct (split_go sep O post); [contradiction | reflexivity].
Qed.

Lemma split_go_skip (sep : string) (a s : string) :
  split_go sep (String.length a) (a +:+ s) = split_go sep O s.
Proof. induction a as [|c a IH]; simpl; [reflexivity | exact IH]. Qed.

Lemma prefix_app (sep s : string) : PyStr.starts_with sep (sep +:+ s) = true.
Proof.
  induction sep as [|c sep IH]; simpl; [reflexivity|].
  rewrite Ascii.eqb_refl. exact IH.
Qed.

(** Splitting at the first occurrence. *)
Lemma split_on_first (c : ascii) (sep' t rest : string) :
  let sep := String c sep' in
  no_start sep t (sep +:+ rest) = true ->
  split_on sep (t +:+ sep +:+ rest) = t :: split_on sep rest.
Proof.
  intros sep H. unfold split_on.
  rewrite split_go_no_start by assumption.
  assert (Hs : split_go sep O (sep +:+ rest) = EmptyString :: split_go sep O rest).
  { pose proof (prefix_app sep rest) as Hp.
    unfold sep in *. cbn [String.append split_go] in *.
    rewrite Hp. cbn [String.length Nat.pred]. f_equal. apply split_go_skip. }
  rewrite Hs. simpl. now rewrite append_nil_r.
Qed.

Lemma contains_no_start (sep t post : string) :
  no_start sep t post = true -> contains sep (t +:+ post) = contains sep post.
Proof.
  induction t as [|c t IH]; cbn [no_start String.append contains]; [reflexivity|].
  intros H. apply andb_prop in H as [H1 H2].
  apply negb_true_iff in H1. rewrite H1. simpl. exact (IH H2).
Qed.

Lemma replace_go_no_start (old new t post : string) :
  no_start old t post = true ->
  replace_go old new O (t +:+ post) = t +:+ replace_go old new O post.
Proof.
  induction t as [|c t IH]; cbn [no_start String.append replace_go]; [reflexivity|].
  intros H. apply andb_prop in H as [H1 H2].
  apply negb_true_iff in H1. rewrite H1, (IH H2). reflexivity.
Qed.

(** The marker does not overlap itself: with no occurrence inside [pre], the
    first one in [pre +:+ "BW=" +:+ rest] is the one written. *)
Lemma marker_first (pre rest : string) :
  contains "BW=" pre = false ->
  no_start "BW=" pre ("BW=" +:+ rest) = true.
Proof.
  assert (Htail : "BW=" +:+ rest = String "B" (String "W" (String "=" rest))) by reflexivity.
  remember ("BW=" +:+ rest) as tail eqn:Etail. clear Etail.
  induction pre as [|a pre IH]; [reflexivity|].
  intros H. cbn [contains] in H. apply orb_false_iff in H as [H1 H2].
  cbn [no_start]. rewrite (IH H2), andb_true_r. apply negb_true_iff.
  cbn [String.append starts_with] in *.
  destruct (Ascii.eqb "B" a) eqn:Ea; [|reflexivity].
  destruct pre as [|b pre]; cbn [String.append starts_with andb] in *.
  { rewrite Htail. reflexivity. }
  destruct (Ascii.eqb "W" b) eqn:Eb; [|reflexivity].
  destruct pre as [|c pre]; cbn [String.append starts_with andb] in *.
  { rewrite Htail. reflexivity. }
  destruct (Ascii.eqb "=" c) eqn:Ec; [|reflexivity].
  discriminate.
Qed.

(** *** Tokens and blanks *)

Lemma split_ws_token (tok post : string) :
  tok <> EmptyString -> no_space tok = true -> ends_token post = true ->
  split_ws (tok +:+ post) = tok :: split_ws post.
Proof.
  induction tok as [|c tok IH]; [contradiction|].
  intros _ Hns Hpost. cbn [no_space forall_chars] in Hns.
  apply andb_prop in Hns as [Hc Htok]. apply negb_true_iff in Hc.
  cbn [String.append split_ws]. rewrite Hc.
  destruct tok as [|c' tok].
  - cbn [String.append]. destruct post as [|d post]; [reflexivity|].
    cbn [ends_token] in Hpost. rewrite Hpost. reflexivity.
  - cbn [String.append]. cbn [forall_chars] in Htok.
    apply andb_prop in Htok as [Hc' Htok']. apply negb_true_iff in Hc' as Hc''.
    rewrite Hc''.
    change (String c' (tok +:+ post)) with (String c' tok +:+ post).
    rewrite IH; [reflexivity | discriminate | | assumption].
    unfold no_space. cbn [forall_chars]. now rewrite Hc', Htok'.
Qed.

Lemma split_ws_blank (sp s : string) :
  all_space sp = true -> split_ws (sp +:+ s) = split_ws s.
Proof.
  induction sp as [|c sp IH]; [reflexivity|].
  unfold all_space. cbn [forall_chars]. intros H. apply andb_prop in H as [Hc Hsp].
  cbn [String.append split_ws]. rewrite Hc. exact (IH Hsp).
Qed.

Lemma lstrip_no_space (t : string) : no_space t = true -> lstrip t = t.
Proof.
  destruct t as [|c t]; [reflexivity|].
  unfold no_space. cbn [forall_chars lstrip]. intros H. apply andb_prop in H as [Hc _].
  apply negb_true_iff in Hc. now rewrite Hc.
Qed.

Lemma rstrip_no_space (t : string) : no_space t = true -> rstrip t = t.
Proof.
  induction t as [|c t IH]; [reflexivity|].
  unfold no_space. cbn [forall_chars rstrip]. intros H. apply andb_prop in H as [Hc Ht].
  apply negb_true_iff in Hc. rewrite (IH Ht), Hc.
  destruct t; reflexivity.
Qed.

Lemma strip_no_space (t : string) : no_space t = true -> strip t = t.
Proof.
  intros H. unfold strip. rewrite lstrip_no_space by assumption.
  apply rstrip_no_space. assumption.
Qed.

Lemma space_not_marker (c : ascii) :
  is_space c = true -> first_char_differs "BW=" c = true.
Proof.
  intros H. cbn [first_char_differs]. apply negb_true_iff.
  destruct (Ascii.eqb "B" c) eqn:E; [|reflexivity].
  apply Ascii.eqb_eq in E. subst c. discriminate.
Qed.

(** The value the program reads on a line of the shape
    [pre BW= blanks token rest]. *)
Lemma bw_value_of_shape (pre sp tok post : string) :
  contains "BW=" pre = false ->
  all_space sp = true ->
  tok <> EmptyString -> no_space tok = true ->
  no_start "BW=" tok post = true ->
  ends_token post = true ->
  bw_value_of (pre +:+ "BW=" +:+ sp +:+ tok +:+ post) =
    Ok (strip (replace "/s" "" tok)).
Proof.
  intros Hpre Hsp Hne Hns Hnost Hpost.
  unfold bw_value_of.
  rewrite (split_on_first "B" "W=" pre (sp +:+ tok +:+ post))
    by (apply marker_first; assumption).
  unfold index at 1. cbn [nth_error rbind].
  unfold split_on.
  assert (Hsp' : no_start "BW=" sp (tok +:+ post) = true).
  { apply no_start_chars. revert Hsp. apply forall_chars_impl, space_not_marker. }
  rewrite split_go_no_start by assumption.
  rewrite split_go_no_start by assumption.
  pose proof (split_go_nonempty "BW=" O post) as Hnil.
  assert (Hhd : exists h r, split_go "BW=" O post = h :: r /\ ends_token h = true).
  { destruct post as [|d post]; [exists EmptyString, []; split; reflexivity|].
    cbn [ends_token] in Hpost. cbn [split_go].
    rewrite prefix_first_char by (apply space_not_marker; assumption).
    pose proof (split_go_nonempty "BW=" O post) as Hn.
    destruct (split_go "BW=" O post) as [|h r]; [contradiction|].
    exists (String d h), r. split; [reflexivity | exact Hpost]. }
  destruct Hhd as (h & r & Hsplit & Hh). rewrite Hsplit.
  cbn [prepend_head nth_error rbind].
  rewrite split_ws_blank by assumption.
  rewrite split_ws_token by assumption.
  reflexivity.
Qed.

(** *** The characters of a number *)

Lemma in_chars_eqb (c d : ascii) (s : string) :
  Ascii.eqb c d = true -> in_chars d s = true -> in_chars c s = true.
Proof. intros H. apply Ascii.eqb_eq in H. now subst. Qed.

Lemma lstrip_chars (P : ascii -> bool) (s : string) :
  (forall c, is_space c = true -> P c = true) ->
  forall_chars P (lstrip s) = true -> forall_chars P s = true.
Proof.
  intros HP. induction s as [|c s IH]; [reflexivity|].
  cbn [lstrip forall_chars]. destruct (is_space c) eqn:Ec.
  - intros H. rewrite (HP _ Ec), (IH H). reflexivity.
  - cbn [forall_chars]. auto.
Qed.

Lemma rstrip_chars (P : ascii -> bool) (s : string) :
  (forall c, is_space c = true -> P c = true) ->
  forall_chars P (rstrip s) = true -> forall_chars P s = true.
Proof.
  intros HP. induction s as [|c s IH]; [reflexivity|].
  cbn [rstrip forall_chars]. destruct (rstrip s) as [|d r] eqn:Er.
  - destruct (is_space c) eqn:Ec.
    + intros _. rewrite (HP _ Ec), IH; reflexivity.
    + cbn [chr forall_chars]. intros H. apply andb_prop in H as [H _].
      rewrite H, IH; reflexivity.
  - intros H. change (forall_chars P (String c (String d r)))
      with (P c && forall_chars P (String d r)) in H.
    apply andb_prop in H as [H1 H2]. rewrite H1, (IH H2). reflexivity.
Qed.

Lemma eqb_nocase_chars (u word : string) :
  PyFloat.eqb_nocase u word = true ->
  forall_chars (fun d => in_chars d "+-._einfaty") word = true ->
  forall_chars float_char u = true.
Proof.
  revert word. induction u as [|c u IH]; intros [|d word]; cbn [PyFloat.eqb_nocase];
    try discriminate; [reflexivity|].
  intros H Hw. apply andb_prop in H as [H1 H2].
  cbn [forall_chars] in *. apply andb_prop in Hw as [Hd Hw].
  rewrite (IH _ H2 Hw), andb_true_r.
  unfold float_char. rewrite (in_chars_eqb _ _ _ H1 Hd). now rewrite !orb_true_r.
Qed.

Lemma fstep_char (a a' : PyFloat.fscan) (c : ascii) :
  PyFloat.fstep a c = Some a' -> float_char c = true.
Proof.
  unfold PyFloat.fstep, float_char. destruct a as [st m k en ex].
  destruct (PyFloat.is_digit c); [intros _; now rewrite orb_true_r|].
  destruct (Ascii.eqb c "_") eqn:E1.
  { apply Ascii.eqb_eq in E1. subst c. reflexivity. }
  destruct (Ascii.eqb c ".") eqn:E2.
  { apply Ascii.eqb_eq in E2. subst c. reflexivity. }
  destruct (Ascii.eqb (PyFloat.lower c) "e") eqn:E3.
  { intros _. apply Ascii.eqb_eq in E3. rewrite E3. now rewrite orb_true_r. }
  destruct (Ascii.eqb c "+") eqn:E4.
  { apply Ascii.eqb_eq in E4. subst c. reflexivity. }
  destruct (Ascii.eqb c "-") eqn:E5.
  { apply Ascii.eqb_eq in E5. subst c. reflexivity. }
  discriminate.
Qed.

Lemma frun_chars (u : string) :
  forall a a', PyFloat.frun a u = Some a' -> forall_chars float_char u = true.
Proof.
  induction u as [|c u IH]; intros a a'; cbn [PyFloat.frun forall_chars]; [reflexivity|].
  destruct (PyFloat.fstep a c) as [a1|] eqn:Es; [|discriminate].
  intros H. rewrite (fstep_char _ _ _ Es), (IH _ _ H). reflexivity.
Qed.

(** A string that [float] accepts is made of blanks, digits, signs, the
    point, underscores and the letters of the exponent marker, [inf],
    [infinity] and [nan]. *)
Lemma float_of_string_chars (s : string) (v : float) :
  PyFloat.float_of_string s = Some v -> forall_chars float_char s = true.
Proof.
  unfold PyFloat.float_of_string, strip. intros H.
  assert (Hsp : forall c, is_space c = true -> float_char c = true).
  { intros c Hc. unfold float_char. now rewrite Hc. }
  apply lstrip_chars; [assumption|]. apply rstrip_chars; [assumption|].
  set (t := rstrip (lstrip s)) in *.
  assert (Hu : forall (neg : bool) (u : string),
             (if PyFloat.eqb_nocase u "inf" || PyFloat.eqb_nocase u "infinity"
              then Some (if neg then neg_infinity else infinity)
              else if PyFloat.eqb_nocase u "nan" then Some nan
              else match PyFloat.frun PyFloat.fscan0 u with
                   | Some a => if PyFloat.faccepts (PyFloat.f_st a)
                               then Some (PyFloat.float_of_scan neg a) else None
                   | None => None
                   end) = Some v ->
             forall_chars float_char u = true).
  { intros neg u Hv.
    destruct (PyFloat.eqb_nocase u "inf") eqn:E1.
    { apply (eqb_nocase_chars _ _ E1). reflexivity. }
    destruct (PyFloat.eqb_nocase u "infinity") eqn:E2.
    { apply (eqb_nocase_chars _ _ E2). reflexivity. }
    destruct (PyFloat.eqb_nocase u "nan") eqn:E3.
    { apply (eqb_nocase_chars _ _ E3). reflexivity. }
    cbn [orb] in Hv.
    destruct (PyFloat.frun PyFloat.fscan0 u) as [a|] eqn:Er; [|discriminate].
    apply (frun_chars _ _ _ Er). }
  destruct t as [|c r]; [reflexivity|].
  destruct (Ascii.eqb c "-") eqn:Em.
  { apply Ascii.eqb_eq in Em. subst c. cbn [forall_chars].
    rewrite (Hu _ _ H). reflexivity. }
  destruct (Ascii.eqb c "+") eqn:Ep.
  { apply Ascii.eqb_eq in Ep. subst c. cbn [forall_chars].
    rewrite (Hu _ _ H). reflexivity. }
  exact (Hu _ _ H).
Qed.

Lemma float_char_not (a c : ascii) :
  float_char a = false -> float_char c = true -> negb (Ascii.eqb a c) = true.
Proof.
  intros Ha Hc. apply negb_true_iff.
  destruct (Ascii.eqb a c) eqn:E; [|reflexivity].
  apply Ascii.eqb_eq in E. subst. congruence.
Qed.

End StrFacts.

(** ** [run_fio_test] *)

Section UnitFacts.
Import PyStr StrFacts.

Variables (num : string) (v : float).
Hypothesis Hfloat : PyFloat.float_of_string num = Some v.
Hypothesis Hns : no_space num = true.

Lemma num_nonempty : num <> EmptyString.
Proof. intros ->. discriminate Hfloat. Qed.

Lemma num_differs (a : ascii) (sep' : string) :
  float_char a = false ->
  forall_chars (first_char_differs (String a sep')) num = true.
Proof.
  intros Ha. apply (forall_chars_impl float_char).
  - intros c Hc. cbn [first_char_differs]. exact (float_char_not a c Ha Hc).
  - exact (float_of_string_chars num v Hfloat).
Qed.

Lemma num_no_start (a : ascii) (sep' post : string) :
  float_char a = false -> no_start (String a sep') num post = true.
Proof. intros Ha. apply no_start_chars, num_differs, Ha. Qed.

Lemma float_of_str_num : PyFloat.float_of_str (strip num) = Ok v.
Proof.
  rewrite strip_no_space by exact Hns.
  unfold PyFloat.float_of_str. rewrite Hfloat. reflexivity.
Qed.

(** What the program makes of the token [num unit], with or without "/s". *)
Lemma unit_value (unit : string) (per_s : bool) :
  no_space unit = true ->
  forall_chars (first_char_differs "/s") unit = true ->
  strip (replace "/s" "" (num +:+ unit +:+ rate_suffix per_s)) = num +:+ unit.
Proof.
  intros Hu Hslash.
  rewrite <- append_assoc. unfold replace.
  rewrite replace_go_no_start.
  - replace (replace_go "/s" "" 0 (rate_suffix per_s)) with EmptyString
      by (destruct per_s; reflexivity).
    rewrite append_nil_r. apply strip_no_space.
    unfold no_space in *. rewrite forall_chars_app, Hns, Hu. reflexivity.
  - apply no_start_chars. rewrite forall_chars_app, Hslash, andb_true_r.
    apply num_differs. reflexivity.
Qed.

Lemma contains_unit (sep' unit : string) (a : ascii) :
  float_char a = false ->
  contains (String a sep') (num +:+ unit) = contains (String a sep') unit.
Proof. intros Ha. apply contains_no_start, num_no_start, Ha. Qed.

Lemma replace_unit (sep' unit : string) (a : ascii) :
  float_char a = false ->
  replace (String a sep') "" (num +:+ unit) = num +:+ replace (String a sep') "" unit.
Proof. intros Ha. apply replace_go_no_start, num_no_start, Ha. Qed.

Variables (pre sp post : string).
Hypothesis Hpre : contains "BW=" pre = false.
Hypothesis Hsp : all_space sp = true.
Hypothesis Hpost : ends_token post = true.

(** A blank or the end of the line does not continue a marker. *)
Lemma post_no_prefix (a : ascii) (sep' : string) :
  is_space a = false -> starts_with (String a sep') post = false.
Proof.
  intros Ha. destruct post as [|c post']; [reflexivity|].
  cbn [starts_with]. cbn [ends_token] in Hpost.
  destruct (Ascii.eqb a c) eqn:Hac; [|reflexivity].
  apply Ascii.eqb_eq in Hac. subst c. congruence.
Qed.

Lemma unit_no_start (unit : string) (per_s : bool) :
  unit = "MiB"%string \/ unit = "MB"%string ->
  no_space (unit +:+ rate_suffix per_s) = true /\
  no_start "BW=" (unit +:+ rate_suffix per_s) post = true.
Proof.
  intros Hunit. split; [destruct Hunit as [-> | ->]; destruct per_s; reflexivity|].
  assert (HW : starts_with "BW=" ("B" +:+ post) = false).
  { change (Ascii.eqb "B" "B" && starts_with "W=" post = false).
    rewrite (post_no_prefix "W" "=") by reflexivity. reflexivity. }
  destruct Hunit as [-> | ->]; destruct per_s; try reflexivity;
    cbn [rate_suffix String.append no_start]; cbn [String.append] in HW;
    rewrite HW; reflexivity.
Qed.

Lemma bw_value_of_unit (unit : string) (per_s : bool) :
  no_space (unit +:+ rate_suffix per_s) = true ->
  no_start "BW=" (unit +:+ rate_suffix per_s) post = true ->
  bw_value_of (pre +:+ "BW=" +:+ sp +:+ num +:+ unit +:+ rate_suffix per_s +:+ post) =
    Ok (strip (replace "/s" "" (num +:+ unit +:+ rate_suffix per_s))).
Proof.
  intros Hu Hnost.
  replace (num +:+ unit +:+ rate_suffix per_s +:+ post)
    with ((num +:+ unit +:+ rate_suffix per_s) +:+ post)
    by (rewrite !append_assoc; reflexivity).
  apply bw_value_of_shape; try assumption.
  - pose proof num_nonempty. destruct num; [contradiction | discriminate].
  - unfold no_space in *. rewrite forall_chars_app, Hns, Hu. reflexivity.
  - rewrite no_start_app, Hnost, andb_true_r. apply num_no_start. reflexivity.
Qed.

Lemma bw_of_line_MiB (per_s : bool) :
  bw_of_line (pre +:+ "BW=" +:+ sp +:+ num +:+ "MiB" +:+ rate_suffix per_s +:+ post) =
    Ok (PrimFloat.mul v mib_to_mb).
Proof.
  unfold bw_of_line.
  rewrite bw_value_of_unit by (apply unit_no_start; left; reflexivity). cbn [rbind].
  rewrite unit_value by reflexivity.
  rewrite (contains_unit "iB" "MiB" "M") by reflexivity.
  change (contains "MiB" "MiB") with true. cbn match.
  rewrite (replace_unit "iB" "MiB" "M") by reflexivity.
  change (replace "MiB" "" "MiB") with EmptyString. rewrite append_nil_r.
  rewrite float_of_str_num. reflexivity.
Qed.

Lemma bw_of_line_MB (per_s : bool) :
  bw_of_line (pre +:+ "BW=" +:+ sp +:+ num +:+ "MB" +:+ rate_suffix per_s +:+ post) = Ok v.
Proof.
  unfold bw_of_line.
  rewrite bw_value_of_unit by (apply unit_no_start; right; reflexivity). cbn [rbind].
  rewrite unit_value by reflexivity.
  rewrite (contains_unit "iB" "MB" "M") by reflexivity.
  change (contains "MiB" "MB") with false. cbn match.
  rewrite (contains_unit "B" "MB" "M") by reflexivity.
  change (contains "MB" "MB") with true. cbn match.
  rewrite (replace_unit "B" "MB" "M") by reflexivity.
  change (replace "MB" "" "MB") with EmptyString. rewrite append_nil_r.
  rewrite float_of_str_num. reflexivity.
Qed.

Lemma marker_in_line (rest : string) : contains "BW=" (pre +:+ "BW=" +:+ rest) = true.
Proof.
  rewrite contains_no_start by (apply marker_first; exact Hpre). reflexivity.
Qed.

End UnitFacts.

Section FioFacts.

Variable E : Env.
Variables (name : string) (filename : Path) (block_size : string)
          (io_depth : Z) (rw_mode : string) (size num_jobs : Z).

Let argv : list string :=
  fio_argv name filename block_size io_depth rw_mode size num_jobs.

Lemma run_fio_test_result (w : World) :
  (run_fio_test E name filename block_size io_depth rw_mode size num_jobs w).1 =
    parse_bandwidth (fio_stdout E argv w).
Proof.
  unfold run_fio_test, bind, subprocess_run, lift, fio_stdout, argv.
  destruct (fio E (runs w) _ (fs w)) as [out files]. reflexivity.
Qed.

Lemma scan_lines_no_marker (lines : list string) :
  no_marker lines -> scan_lines lines = Ok zero.
Proof.
  induction 1 as [|line lines Hline _ IH]; simpl; [reflexivity|].
  rewrite Hline. exact IH.
Qed.

(** The first line that holds the marker decides. *)
Lemma scan_lines_first (before after : list string) (line : string) :
  no_marker before -> PyStr.contains "BW=" line = true ->
  scan_lines (before ++ line :: after) = bw_of_line line.
Proof.
  induction 1 as [|l before Hl _ IH]; simpl; intros Hline.
  - rewrite Hline. reflexivity.
  - rewrite Hl. exact (IH Hline).
Qed.

End FioFacts.

#[local] Set Warnings "-inexact-float".

(** C5. When no line of the output of [fio] holds the marker "BW=",
    [run_fio_test] returns 0.0 and raises nothing. *)
Theorem run_fio_test_no_marker (E : Env) (name : string) (filename : Path)
    (block_size : string) (io_depth : Z) (rw_mode : string) (size num_jobs : Z)
    (w : World) :
  no_marker (PyStr.splitlines
               (fio_stdout E (fio_argv name filename block_size io_depth rw_mode size num_jobs) w)) ->
  (run_fio_test E name filename block_size io_depth rw_mode size num_jobs w).1 = Ok zero.
Proof.
  intros H. rewrite run_fio_test_result. unfold parse_bandwidth.
  apply scan_lines_no_marker. exact H.
Qed.

Lemma run_fio_test_no_marker_witness :
  (run_fio_test (sample_env ("fio: failed to open the job file" +:+ nl +:+ "bw=12.3MiB/s"))
     "sequential_write" "d/seq_write_test" "1M" 64 "write" 1048576 4 world0).1 = Ok zero.
Proof.
  apply run_fio_test_no_marker. repeat constructor.
Defined.

(** C6. When the first line that holds the marker carries a value (the first
    token after the marker, "/s" removed) with neither "MiB" nor "MB" in it,
    [run_fio_test] returns no number: reading the unbound local [bandwidth]
    raises [UnboundLocalError]. *)
Theorem run_fio_test_bare_unit (E : Env) (name : string) (filename : Path)
    (block_size : string) (io_depth : Z) (rw_mode : string) (size num_jobs : Z)
    (w : World) (before after : list string) (line bw_value : string) :
  PyStr.splitlines
    (fio_stdout E (fio_argv name filename block_size io_depth rw_mode size num_jobs) w) =
    before ++ line :: after ->
  no_marker before ->
  PyStr.contains "BW=" line = true ->
  bw_value_of line = Ok bw_value ->
  PyStr.contains "MiB" bw_value = false ->
  PyStr.contains "MB" bw_value = false ->
  (run_fio_test E name filename block_size io_depth rw_mode size num_jobs w).1 =
    Raise UnboundLocalError.
Proof.
  intros Hlines Hbefore Hline Hval HMiB HMB.
  rewrite run_fio_test_result. unfold parse_bandwidth. rewrite Hlines.
  rewrite scan_lines_first by assumption.
  unfold bw_of_line. rewrite Hval. cbn [rbind]. rewrite HMiB, HMB. reflexivity.
Qed.

Lemma run_fio_test_bare_unit_witness :
  (run_fio_test (sample_env ("Starting 4 processes" +:+ nl +:+
                             "  write: IOPS=125, BW=500KiB/s (512kB/s)(29.3MiB/60001msec)"))
     "random_write" "d/rand_write_test" "4K" 64 "randwrite" 1048576 4 world0).1 =
    Raise UnboundLocalError.
Proof.
  apply (run_fio_test_bare_unit _ _ _ _ _ _ _ _ _
           ["Starting 4 processes"%string] []
           "  write: IOPS=125, BW=500KiB/s (512kB/s)(29.3MiB/60001msec)" "500KiB");
    try reflexivity.
  repeat constructor.
Defined.

(** C1. When the first line that holds the marker reads
    [... BW= <number> <unit> ...], the unit with or without "/s" after it,
    [run_fio_test] returns the number times [1024/1000] for the unit "MiB"
    and the number itself for the unit "MB"; the lines before it (without a
    marker) and after it do not count. The number is any string without
    blanks that [float] accepts; blanks may separate it from the marker, and
    a blank or the end of the line follows the unit. *)
Theorem run_fio_test_bandwidth (E : Env) (name : string) (filename : Path)
    (block_size : string) (io_depth : Z) (rw_mode : string) (size num_jobs : Z)
    (w : World) (before after : list string) (pre sp num unit post : string)
    (per_s : bool) (v : float) :
  PyStr.splitlines
    (fio_stdout E (fio_argv name filename block_size io_depth rw_mode size num_jobs) w) =
    before ++ (pre +:+ "BW=" +:+ sp +:+ num +:+ unit +:+ rate_suffix per_s +:+ post) :: after ->
  no_marker before ->
  PyStr.contains "BW=" pre = false ->
  all_space sp = true ->
  no_space num = true ->
  PyFloat.float_of_string num = Some v ->
  ends_token post = true ->
  (unit = "MiB"%string ->
   (run_fio_test E name filename block_size io_depth rw_mode size num_jobs w).1 =
     Ok (PrimFloat.mul v mib_to_mb)) /\
  (unit = "MB"%string ->
   (run_fio_test E name filename block_size io_depth rw_mode size num_jobs w).1 = Ok v) /\
  mib_to_mb = PrimFloat.div 1024 1000.
Proof.
  intros Hlines Hbefore Hpre Hsp Hns Hfloat Hpost.
  assert (Hres : (run_fio_test E name filename block_size io_depth rw_mode size num_jobs w).1 =
                 bw_of_line (pre +:+ "BW=" +:+ sp +:+ num +:+ unit +:+
                             rate_suffix per_s +:+ post)).
  { rewrite run_fio_test_result. unfold parse_bandwidth. rewrite Hlines.
    apply scan_lines_first; [assumption|]. apply marker_in_line. assumption. }
  rewrite Hres. split; [|split].
  - intros ->. apply (bw_of_line_MiB num v); assumption.
  - intros ->. apply (bw_of_line_MB num v); assumption.
  - reflexivity.
Qed.

Lemma run_fio_test_bandwidth_witness :
  (run_fio_test (sample_env ("BW=12.3MiB/s"))
     "sequential_write" "d/seq_write_test" "1M" 64 "write" 1048576 4 world0).1 =
    Ok 12.5952%float /\
  (run_fio_test (sample_env ("BW=12.3MB/s"))
     "sequential_write" "d/seq_write_test" "1M" 64 "write" 1048576 4 world0).1 =
    Ok 12.3%float.
Proof.
  split.
  - apply (proj1 (run_fio_test_bandwidth (sample_env "BW=12.3MiB/s") _ _ _ _ _ _ _ world0
                    [] [] "" "" "12.3" "MiB" "" true 12.3%float
                    eq_refl (List.Forall_nil _) eq_refl eq_refl eq_refl eq_refl eq_refl)).
    reflexivity.
  - apply (proj1 (proj2 (run_fio_test_bandwidth (sample_env "BW=12.3MB/s") _ _ _ _ _ _ _ world0
                    [] [] "" "" "12.3" "MB" "" true 12.3%float
                    eq_refl (List.Forall_nil _) eq_refl eq_refl eq_refl eq_refl eq_refl))).
    reflexivity.
Defined.

(** ** The synthetic file and the loop that writes it *)

Section RecordFacts.
Import PyStr StrFacts.

Lemma len_append (a b : string) : len (a +:+ b) = len a + len b.
Proof. unfold len. rewrite length_append. lia. Qed.

Lemma digits_go_length (fuel : nat) :
  forall (n : Z) (acc : string),
    (String.length acc <= String.length (digits_go fuel n acc) <= fuel + String.length acc)%nat.
Proof.
  induction fuel as [|fuel IH]; intros n acc; cbn [digits_go]; [lia|].
  destruct (n <? 10).
  - cbn [String.length]. lia.
  - specialize (IH (n / 10) (String (digit_char (n mod 10)) acc)).
    cbn [String.length] in IH. lia.
Qed.

Lemma digits_go_nonempty (fuel : nat) (n : Z) :
  (1 <= String.length (digits_go (S fuel) n EmptyString))%nat.
Proof.
  cbn [digits_go]. destruct (n <? 10); [cbn; lia|].
  pose proof (digits_go_length fuel (n / 10) (String (digit_char (n mod 10)) EmptyString)) as H.
  cbn [String.length] in H. lia.
Qed.

Lemma str_of_int_len (i : Z) : 1 <= len (str_of_int i).
Proof.
  unfold len, str_of_int, str_of_nonneg.
  destruct (i <? 0).
  - cbn [String.length]. lia.
  - pose proof (digits_go_nonempty (Z.to_nat (Z.log2 i)) i). lia.
Qed.

Lemma str_of_int_len_le (i : Z) : 0 <= i -> len (str_of_int i) <= i + 1.
Proof.
  intros Hi. unfold len, str_of_int, str_of_nonneg.
  destruct (Z.ltb_spec i 0) as [|_]; [lia|].
  pose proof (digits_go_length (S (Z.to_nat (Z.log2 i))) i EmptyString) as [_ H].
  cbn [String.length] in H.
  pose proof (Z.log2_nonneg i). 
  assert (Z.log2 i <= i).
  { destruct (Z.eq_dec i 0) as [->|]; [reflexivity|]. apply Z.lt_le_incl, Z.log2_lt_lin. lia. }
  lia.
Qed.

Lemma record_len (i : Z) : len (record i) = 2 * len (str_of_int i) + 9.
Proof.
  unfold record. rewrite !len_append. unfold nl. cbn [len String.length]. 
  change (len ",sample_") with 8. unfold len. cbn [String.length]. lia.
Qed.

(** Every record is at least eleven characters long. *)
Lemma record_len_ge (i : Z) : 11 <= len (record i).
Proof. rewrite record_len. pose proof (str_of_int_len i). lia. Qed.

Lemma record_len_le (i : Z) : 0 <= i -> len (record i) <= 2 * i + 11.
Proof. intros Hi. rewrite record_len. pose proof (str_of_int_len_le i Hi). lia. Qed.

Lemma records_from_succ (i : Z) (k : nat) :
  records_from i (S k) = records_from i k +:+ record (i + Z.of_nat k).
Proof.
  revert i. induction k as [|k IH]; intros i.
  - cbn [records_from]. rewrite append_nil_r. replace (i + Z.of_nat 0) with i by lia. reflexivity.
  - change (records_from i (S (S k))) with (record i +:+ records_from (i + 1) (S k)).
    rewrite IH. cbn [records_from]. rewrite append_assoc.
    replace (i + 1 + Z.of_nat k) with (i + Z.of_nat (S k)) by lia. reflexivity.
Qed.

Lemma records_from_len_ge (i : Z) (k : nat) : 11 * Z.of_nat k <= len (records_from i k).
Proof.
  revert i. induction k as [|k IH]; intros i; cbn [records_from].
  - unfold len. cbn [String.length]. lia.
  - rewrite len_append. pose proof (record_len_ge i). specialize (IH (i + 1)). lia.
Qed.

End RecordFacts.

Section LoopFacts.
Import PyStr StrFacts.

Lemma write_loop_step (p : Path) (size bw i : Z) (w : World) :
  write_loop p size (bw, i) w =
    if Z_lt_dec bw size
    then write_loop p size (bw + len (record i), i + 1) (do_write p (record i) w)
    else ((bw, i), w).
Proof.
  rewrite write_loop_equation_1.
  destruct (Z_lt_dec bw size) as [Hlt | Hge].
  - rewrite write_loop_clause_1_equation_1. reflexivity.
  - rewrite write_loop_clause_1_equation_2. reflexivity.
Qed.

Lemma do_write_after_writes (p : Path) (i : Z) (k : nat) (w : World) :
  after_writes p (i + 1) k (do_write p (record i) w) = after_writes p i (S k) w.
Proof.
  unfold after_writes, do_write, log, set_fs. cbn [fs ticks runs trace].
  f_equal.
  - rewrite alter_alter_eq. apply alter_ext. intros f _.
    unfold append_content, compose. cbn [content readable writable records_from].
    now rewrite append_assoc.
  - rewrite <- app_assoc. reflexivity.
Qed.

(** The loop stops, after finitely many records: it has written the first
    [k] of them, where [k] is the least number that brings the counter to
    the target. *)
Lemma write_loop_spec (p : Path) (size : Z) :
  forall (n : nat) (bw i : Z) (w : World),
    Z.to_nat (size - bw) = n ->
    exists k : nat,
      write_loop p size (bw, i) w =
        ((bw + len (records_from i k), i + Z.of_nat k), after_writes p i k w) /\
      size <= bw + len (records_from i k) /\
      (forall j : nat, (j < k)%nat -> bw + len (records_from i j) < size).
Proof.
  induction n as [n IH] using lt_wf_ind. intros bw i w Hn.
  rewrite write_loop_step.
  destruct (Z_lt_dec bw size) as [Hlt | Hge].
  - pose proof (record_len_ge i) as Hrec.
    destruct (IH (Z.to_nat (size - (bw + len (record i)))) ltac:(lia)
                (bw + len (record i)) (i + 1) (do_write p (record i) w) eq_refl)
      as (k & Heq & Hfin & Hmin).
    exists (S k). rewrite Heq. cbn [records_from]. rewrite len_append.
    rewrite do_write_after_writes. repeat split.
    + f_equal. f_equal; lia.
    + lia.
    + intros [|j] Hj.
      * cbn [records_from]. unfold len at 1. cbn [String.length]. lia.
      * cbn [records_from]. rewrite len_append.
        specialize (Hmin j ltac:(lia)). lia.
  - exists O. cbn [records_from]. unfold len. cbn [String.length]. repeat split.
    + f_equal; [f_equal; lia|].
      unfold after_writes. destruct w as [files t r tr]. cbn.
      rewrite app_nil_r. f_equal.
      symmetry. etransitivity; [|apply alter_id]. 
      * reflexivity.
      * intros f _. unfold append_content. rewrite append_nil_r. destruct f; reflexivity.
    + lia.
    + intros j Hj. lia.
Qed.

Lemma open_w_ok (p : Path) (w : World) :
  can_create (fs w) p ->
  open_w p w = (Ok tt, log (EvOpen p "w") (set_fs (<[p := opened_file (fs w) p]> (fs w)) w)).
Proof.
  intros Hc. unfold open_w, opened_file. destruct (fs w !! p) as [f|] eqn:Ef; [|reflexivity].
  rewrite (Hc f Ef). reflexivity.
Qed.

Lemma open_w_denied (p : Path) (w : World) (f : File) :
  fs w !! p = Some f -> writable f = false ->
  open_w p w = (Raise PermissionError, log (EvOpen p "w") w).
Proof. intros Ef Hw. unfold open_w. rewrite Ef, Hw. reflexivity. Qed.

(** How many records the loop can write before the counter reaches the
    target, and how long the text is then. *)
Lemma records_bound (size : Z) (k : nat) :
  (forall j : nat, (j < k)%nat -> len header + len (records_from 0 j) < size) ->
  11 * Z.of_nat k <= Z.max 0 (size - len header) + 10 /\
  len (header +:+ records_from 0 k) <= Z.max 8 (3 * size + 11).
Proof.
  intros Hmin. rewrite len_append. change (len header) with 8 in *.
  destruct k as [|k].
  - cbn [records_from]. change (len "") with 0. lia.
  - specialize (Hmin k ltac:(lia)).
    rewrite records_from_succ, len_append.
    pose proof (records_from_len_ge 0 k).
    pose proof (record_len_le (0 + Z.of_nat k) ltac:(lia)).
    lia.
Qed.

End LoopFacts.

(** C10. The loop of [write_csv_test] stops, whatever the target: every
    record is at least 11 characters long (the first one, "0,sample_0" and
    its line end, exactly 11), so each pass adds at least 11 to the counter,
    and after [k] passes, [k] at most [(target - 8 + 10) / 11], the counter
    has reached the target. *)
Theorem write_loop_terminates (p : Path) (size_in_bytes : Z) (w : World) :
  (forall i : Z, 11 <= PyStr.len (record i)) /\
  PyStr.len (record 0) = 11 /\
  (forall j : nat,
     PyStr.len (records_from 0 j) + 11 <= PyStr.len (records_from 0 (S j))) /\
  exists k : nat,
    write_loop p size_in_bytes (PyStr.len header, 0) w =
      ((PyStr.len header + PyStr.len (records_from 0 k), Z.of_nat k),
       after_writes p 0 k w) /\
    size_in_bytes <= PyStr.len header + PyStr.len (records_from 0 k) /\
    (forall j : nat, (j < k)%nat ->
       PyStr.len header + PyStr.len (records_from 0 j) < size_in_bytes) /\
    11 * Z.of_nat k <= Z.max 0 (size_in_bytes - PyStr.len header) + 10.
Proof.
  split; [exact record_len_ge|]. split; [reflexivity|]. split.
  - intros j. rewrite records_from_succ, len_append.
    pose proof (record_len_ge (0 + Z.of_nat j)). lia.
  - destruct (write_loop_spec p size_in_bytes _ (PyStr.len header) 0 w eq_refl)
      as (k & Heq & Hfin & Hmin).
    exists k. repeat split; try assumption.
    apply records_bound. assumption.
Qed.

Section WriteFacts.
Import PyStr StrFacts.

Variable E : Env.

Lemma write_csv_test_run (filepath : Path) (size_in_bytes : Z) (w : World) :
  can_create (fs w) filepath ->
  exists k : nat,
    write_csv_test E filepath size_in_bytes w =
      (throughput (len (header +:+ records_from 0 k)) (next_elapsed E w),
       written_world filepath k w) /\
    size_in_bytes <= len (header +:+ records_from 0 k) /\
    (forall j : nat, (j < k)%nat -> len (header +:+ records_from 0 j) < size_in_bytes).
Proof.
  intros Hc.
  set (w2 := do_write filepath header (log (EvOpen filepath "w")
               (set_fs (<[filepath := opened_file (fs w) filepath]> (fs w))
                  (mk_World (fs w) (S (ticks w)) (runs w) (trace w ++ [EvClock]))))).
  destruct (write_loop_spec filepath size_in_bytes _ (0 + len header) 0 w2 eq_refl)
    as (k & Hloop & Hge & Hmin).
  change (0 + len header) with (len header) in *.
  assert (Hfs : fs (after_writes filepath 0 k w2) =
                <[filepath := mk_File (header +:+ records_from 0 k)
                                (readable (opened_file (fs w) filepath)) true]> (fs w)).
  { unfold after_writes, w2, do_write, log, set_fs. cbn [fs].
    rewrite alter_alter_eq, alter_insert_eq.
    unfold compose, append_content, opened_file.
    destruct (fs w !! filepath); reflexivity. }
  exists k. split; [|split].
  - unfold write_csv_test, bind. unfold monotonic at 1.
    rewrite open_w_ok by exact Hc. cbn [fs ticks runs trace].
    unfold finally, file_write. change (0 + len header) with (len header).
    fold w2. rewrite Hloop.
    unfold monotonic, stat_size, close, log. cbn [fs ticks runs trace].
    rewrite Hfs, lookup_insert_eq. cbn [content]. unfold lift.
    change (ticks (after_writes filepath 0 k w2)) with (S (ticks w)).
    change (runs (after_writes filepath 0 k w2)) with (runs w).
    assert (Htr : ((trace (after_writes filepath 0 k w2) ++ [EvClose filepath]) ++ [EvClock]) ++
                  [EvStat filepath] =
                  trace w ++ [EvClock; EvOpen filepath "w"; EvWrite filepath header] ++
                  write_events filepath 0 k ++ [EvClose filepath; EvClock; EvStat filepath]).
    { unfold after_writes, w2, do_write, log, set_fs. cbn [trace].
      rewrite <- !app_assoc. reflexivity. }
    rewrite Htr. unfold throughput, next_elapsed, written_world.
    destruct (PyFloat.int_truediv (len (header +:+ records_from 0 k)) (1024 * 1024))
      as [mb|e]; reflexivity.
  - rewrite len_append. lia.
  - intros j Hj. rewrite len_append. apply Hmin. exact Hj.
Qed.

Lemma write_csv_test_denied (filepath : Path) (size_in_bytes : Z) (w : World) (f : File) :
  fs w !! filepath = Some f -> writable f = false ->
  write_csv_test E filepath size_in_bytes w =
    (Raise PermissionError,
     mk_World (fs w) (S (ticks w)) (runs w) (trace w ++ [EvClock; EvOpen filepath "w"])).
Proof.
  intros Hf Hw. unfold write_csv_test, bind. unfold monotonic at 1.
  rewrite (open_w_denied _ _ f) by assumption.
  unfold log. cbn [fs ticks runs trace]. rewrite <- app_assoc. reflexivity.
Qed.

Lemma can_create_dec (files : gmap string File) (p : Path) :
  can_create files p \/ exists f, files !! p = Some f /\ writable f = false.
Proof.
  unfold can_create. destruct (files !! p) as [f|] eqn:Hf.
  - destruct (writable f) eqn:Hw.
    + left. intros f' Hf'. injection Hf' as <-. exact Hw.
    + right. exists f. auto.
  - left. intros f' Hf'. discriminate.
Qed.

(** C2. [write_csv_test] on a path it can open, for every target: the file
    holds the header "id,name" and then the records numbered 0 to [k-1], each
    written whole and in order; [k] is the least number of records that
    brings the counter (the length written so far) to the target, so the
    size is at least the target; the value returned is the size in MB (of
    the file as it is on disk) over the elapsed seconds; and for a target
    below [2^63] and a positive finite time between the two clock readings
    that value is a positive float. *)
Theorem write_csv_test_spec (filepath : Path) (size_in_bytes : Z) (w : World) :
  let elapsed_time := next_elapsed E w in
  can_create (fs w) filepath ->
  exists k : nat,
    let text := header +:+ records_from 0 k in
    fs (write_csv_test E filepath size_in_bytes w).2 =
      <[filepath := mk_File text (readable (opened_file (fs w) filepath)) true]> (fs w) /\
    trace (write_csv_test E filepath size_in_bytes w).2 =
      trace w ++ [EvClock; EvOpen filepath "w"; EvWrite filepath header] ++
      write_events filepath 0 k ++ [EvClose filepath; EvClock; EvStat filepath] /\
    size_in_bytes <= len text /\
    (forall j : nat, (j < k)%nat -> len (header +:+ records_from 0 j) < size_in_bytes) /\
    (write_csv_test E filepath size_in_bytes w).1 = throughput (len text) elapsed_time /\
    (size_in_bytes < 2 ^ 63 ->
     PyFloat.positive elapsed_time = true ->
     PyFloat.finite elapsed_time = true ->
     exists throughput : float,
       (write_csv_test E filepath size_in_bytes w).1 = Ok throughput /\
       PyFloat.positive throughput = true).
Proof.
  intros elapsed_time Hc.
  destruct (write_csv_test_run filepath size_in_bytes w Hc) as (k & Hrun & Hge & Hmin).
  exists k. cbn zeta. rewrite Hrun. cbn [fst snd written_world fs trace].
  split; [reflexivity|]. split; [reflexivity|]. split; [exact Hge|].
  split; [exact Hmin|]. split; [reflexivity|].
  intros Hsize Hpos Hfin.
  assert (Hmin' : forall j : nat, (j < k)%nat -> len header + len (records_from 0 j) < size_in_bytes).
  { intros j Hj. rewrite <- len_append. apply Hmin. exact Hj. }
  destruct (records_bound size_in_bytes k Hmin') as [_ Hlen].
  assert (Hlen1 : 1 <= len (header +:+ records_from 0 k) < 2 ^ 1000).
  { rewrite len_append in *. change (len header) with 8 in *.
    pose proof (records_from_len_ge 0 k).
    assert (2 ^ 63 * 8 < 2 ^ 1000) by (vm_compute; reflexivity).
    lia. }
  destruct (FloatFacts.throughput_positive _ elapsed_time Hlen1 Hpos Hfin)
    as (mb & v & Hmb & Hv & Hvpos).
  exists v. unfold throughput. rewrite Hmb. cbn [rbind]. split; assumption.
Qed.

End WriteFacts.

Lemma write_csv_test_spec_witness :
  exists k : nat,
    let text := header +:+ records_from 0 k in
    let run := write_csv_test (sample_env "") "d/custom_write_40.csv" 40 world0 in
    fs run.2 = <[("d/custom_write_40.csv")%string := mk_File text true true]> ∅ /\
    40 <= PyStr.len text /\
    (forall j : nat, (j < k)%nat -> PyStr.len (header +:+ records_from 0 j) < 40) /\
    exists throughput : float, run.1 = Ok throughput /\ PyFloat.positive throughput = true.
Proof.
  assert (Hc : can_create (fs world0) "d/custom_write_40.csv").
  { intros f Hf. unfold world0 in Hf. cbn [fs] in Hf. rewrite lookup_empty in Hf. discriminate. }
  destruct (write_csv_test_spec (sample_env "") "d/custom_write_40.csv" 40 world0 Hc)
    as (k & Hfs & _ & Hge & Hmin & _ & Hpos).
  exists k. cbn zeta. split; [exact Hfs|]. split; [exact Hge|]. split; [exact Hmin|].
  apply Hpos.
  - reflexivity.
  - reflexivity.
  - reflexivity.
Defined.

(** ** [read_csv_test] *)

Section ReadFacts.
Import PyStr StrFacts.

Variable E : Env.

Lemma concat_cons_head (c : ascii) (l : list string) :
  concat_str (cons_head c l) = String c (concat_str l).
Proof. destruct l as [|h t]; reflexivity. Qed.

(** The lines of a text, put together again, are the text. *)
Lemma text_lines_concat (s : string) : concat_str (text_lines s) = s.
Proof.
  assert (H : forall (n : nat) (s : string),
             (String.length s <= n)%nat -> concat_str (text_lines s) = s).
  { clear s. induction n as [|n IH]; intros [|c s] Hlen; try reflexivity;
      cbn [String.length] in Hlen; [lia|].
    cbn [text_lines].
    destruct (is_lf c).
    - cbn [concat_str fold_right chr String.append]. fold (concat_str (text_lines s)).
      rewrite IH by lia. reflexivity.
    - destruct (is_cr c).
      + destruct s as [|c2 s]; [reflexivity|].
        cbn [String.length] in Hlen.
        destruct (is_lf c2).
        * cbn [concat_str fold_right chr String.append]. fold (concat_str (text_lines s)).
          rewrite IH by lia. reflexivity.
        * cbn [concat_str fold_right chr String.append].
          fold (concat_str (text_lines (String c2 s))).
          rewrite IH by (cbn [String.length]; lia). reflexivity.
      + rewrite concat_cons_head, IH by lia. reflexivity. }
  apply (H (String.length s)). lia.
Qed.

Lemma read_lines_run (p : Path) (lines : list string) (w : World) :
  for_each lines (fun line (_ : unit) => emit (EvReadLine p line)) tt w =
    (Ok tt, mk_World (fs w) (ticks w) (runs w) (trace w ++ map (EvReadLine p) lines)).
Proof.
  revert w. induction lines as [|line lines IH]; intros w; cbn [for_each map].
  - unfold ret. rewrite app_nil_r. destruct w; reflexivity.
  - unfold bind, emit. rewrite IH. unfold log. cbn [fs ticks runs trace].
    rewrite <- app_assoc. reflexivity.
Qed.

(** The four ways [read_csv_test] runs. *)
Lemma read_missing (p : Path) (w : World) :
  fs w !! p = None ->
  read_csv_test E p w = (Raise FileNotFoundError, log (EvStat p) w).
Proof.
  intros Hp. unfold read_csv_test, bind, stat_size. rewrite Hp. reflexivity.
Qed.

Lemma read_denied (p : Path) (w : World) (f : File) :
  fs w !! p = Some f -> readable f = false ->
  read_csv_test E p w =
    (Raise PermissionError,
     mk_World (fs w) (S (ticks w)) (runs w) (trace w ++ [EvStat p; EvClock; EvOpen p "r"])).
Proof.
  intros Hp Hr. unfold read_csv_test, bind, stat_size, monotonic, open_r, log.
  rewrite Hp. cbn [fs ticks runs trace]. rewrite Hp, Hr.
  rewrite <- !app_assoc. reflexivity.
Qed.

Lemma read_undecodable (p : Path) (w : World) (f : File) :
  fs w !! p = Some f -> readable f = true -> decodes E (content f) = false ->
  read_csv_test E p w =
    (Raise UnicodeDecodeError,
     mk_World (fs w) (S (ticks w)) (runs w)
       (trace w ++ [EvStat p; EvClock; EvOpen p "r"; EvClose p])).
Proof.
  intros Hp Hr Hd.
  unfold read_csv_test, bind, stat_size, monotonic, open_r, finally, read_all_lines, log.
  rewrite Hp. cbn [fs ticks runs trace]. rewrite Hp, Hr, Hd.
  unfold raise, close, log. cbn [fs ticks runs trace].
  rewrite <- !app_assoc. reflexivity.
Qed.

Lemma read_scanned (p : Path) (w : World) (f : File) :
  fs w !! p = Some f -> readable f = true -> decodes E (content f) = true ->
  read_csv_test E p w =
    (throughput (len (content f)) (next_elapsed E w),
     mk_World (fs w) (S (S (ticks w))) (runs w)
       (trace w ++ read_events p (text_lines (content f)))).
Proof.
  intros Hp Hr Hd.
  unfold read_csv_test, bind, stat_size, monotonic, open_r, finally, read_all_lines, log.
  rewrite Hp. cbn [fs ticks runs trace]. rewrite Hp, Hr, Hd.
  rewrite read_lines_run. unfold close, log, lift. cbn [fs ticks runs trace].
  unfold throughput, next_elapsed, read_events.
  destruct (PyFloat.int_truediv (len (content f)) (1024 * 1024)) as [mb|e]; cbn [rbind].
  - f_equal. f_equal. rewrite <- !app_assoc. reflexivity.
  - f_equal. f_equal. rewrite <- !app_assoc. reflexivity.
Qed.

Lemma read_only_events (p : Path) (lines : list string) :
  forallb (read_only p) (read_events p lines) = true.
Proof.
  unfold read_events. rewrite !forallb_app. cbn [forallb read_only].
  rewrite String.eqb_refl. cbn [andb String.eqb Ascii.eqb Bool.eqb].
  rewrite andb_true_r.
  induction lines as [|l lines IH]; [reflexivity|].
  cbn [map forallb read_only]. rewrite String.eqb_refl, IH. reflexivity.
Qed.

(** *** The throughput *)

Lemma int_truediv_mb_ok (n : Z) :
  0 <= n < 2 ^ 1000 -> exists mb : float, PyFloat.int_truediv n (1024 * 1024) = Ok mb.
Proof.
  intros Hn. destruct (Z.eq_dec n 0) as [->|Hne].
  - exists zero. reflexivity.
  - destruct (FloatFacts.int_truediv_mb n ltac:(lia)) as (mb & _ & _ & Hmb & _).
    exists mb. exact Hmb.
Qed.

(** Below [2^1000] bytes, the throughput is a number unless no time
    elapsed. *)
Lemma throughput_is_ok (n : Z) (elapsed : float) :
  0 <= n < 2 ^ 1000 ->
  is_ok (throughput n elapsed) = negb (PrimFloat.eqb elapsed zero).
Proof.
  intros Hn. destruct (int_truediv_mb_ok n Hn) as (mb & Hmb).
  unfold throughput. rewrite Hmb. cbn [rbind]. unfold PyFloat.float_div.
  destruct (PrimFloat.eqb elapsed zero); reflexivity.
Qed.

Lemma throughput_zero_elapsed (n : Z) (elapsed : float) :
  0 <= n < 2 ^ 1000 -> PrimFloat.eqb elapsed zero = true ->
  throughput n elapsed = Raise ZeroDivisionError.
Proof.
  intros Hn He. destruct (int_truediv_mb_ok n Hn) as (mb & Hmb).
  unfold throughput. rewrite Hmb. cbn [rbind]. unfold PyFloat.float_div.
  rewrite He. reflexivity.
Qed.

Lemma throughput_pos (n : Z) (elapsed : float) :
  1 <= n < 2 ^ 1000 ->
  PyFloat.positive elapsed = true -> PyFloat.finite elapsed = true ->
  exists v : float, throughput n elapsed = Ok v /\ PyFloat.positive v = true.
Proof.
  intros Hn Hp Hf.
  destruct (FloatFacts.throughput_positive n elapsed Hn Hp Hf) as (mb & v & Hmb & Hv & Hpos).
  exists v. unfold throughput. rewrite Hmb. cbn [rbind]. split; assumption.
Qed.

Lemma len_nonneg (s : string) : 0 <= len s.
Proof. unfold len. lia. Qed.

Lemma len_pos (s : string) : s <> EmptyString -> 1 <= len s.
Proof. destruct s; [contradiction|]. intros _. unfold len. cbn [String.length]. lia. Qed.

Lemma pow_63_1000 : 2 ^ 63 < 2 ^ 1000.
Proof. apply Z.pow_lt_mono_r; lia. Qed.

End ReadFacts.

(** However it ends, [read_csv_test] leaves the files as they are and only
    reads. *)
Lemma read_csv_test_events (E : Env) (filepath : Path) (w : World) :
  fs (read_csv_test E filepath w).2 = fs w /\
  exists evs : list event,
    trace (read_csv_test E filepath w).2 = trace w ++ evs /\
    forallb (read_only filepath) evs = true.
Proof.
  assert (Hrefl : String.eqb filepath filepath = true) by apply String.eqb_refl.
  destruct (fs w !! filepath) as [f|] eqn:Hp.
  - destruct (readable f) eqn:Hr.
    + destruct (decodes E (content f)) eqn:Hd.
      * rewrite (read_scanned E _ _ _ Hp Hr Hd). split; [reflexivity|].
        eexists. split; [reflexivity|]. apply read_only_events.
      * rewrite (read_undecodable E _ _ _ Hp Hr Hd). split; [reflexivity|].
        eexists. split; [reflexivity|]. cbn [forallb read_only].
        rewrite Hrefl. reflexivity.
    + rewrite (read_denied E _ _ _ Hp Hr). split; [reflexivity|].
      eexists. split; [reflexivity|]. cbn [forallb read_only].
      rewrite Hrefl. reflexivity.
  - rewrite (read_missing E _ _ Hp). split; [reflexivity|].
    exists [EvStat filepath]. split; [reflexivity|]. cbn [forallb read_only].
    rewrite Hrefl. reflexivity.
Qed.

(** C9. [read_csv_test] changes no file, whatever it is given and however it
    ends: the file system after it is the one before it, so an existing file
    keeps its contents and its size; and every event of the run is a reading
    of the clock or a [stat], an opening for reading, the reading of a line
    or the closing of that file. *)
Theorem read_csv_test_frame (E : Env) (filepath : Path) (w : World) :
  fs (read_csv_test E filepath w).2 = fs w /\
  (forall f : File, fs w !! filepath = Some f ->
     fs (read_csv_test E filepath w).2 !! filepath = Some f) /\
  exists evs : list event,
    trace (read_csv_test E filepath w).2 = trace w ++ evs /\
    forallb (read_only filepath) evs = true.
Proof.
  destruct (read_csv_test_events E filepath w) as [Hfs Hev].
  split; [exact Hfs|]. split; [|exact Hev].
  intros f Hf. rewrite Hfs. exact Hf.
Qed.

(** C8, as the program has it. For a file below [2^63] bytes,
    [read_csv_test] raises exactly when the file is missing
    ([FileNotFoundError]), cannot be opened for reading ([PermissionError]),
    does not decode as text ([UnicodeDecodeError]), or when the two readings
    of the clock are equal ([ZeroDivisionError]). On a file it can read it
    reads every line from the first to the last, and returns the size in MB
    (taken by [stat] before the reading) over the elapsed seconds: a positive
    float when the file is not empty and the elapsed time is positive and
    finite. *)
Theorem read_csv_test_spec (E : Env) (filepath : Path) (w : World) :
  let r := (read_csv_test E filepath w).1 in
  let elapsed_time := next_elapsed E w in
  (forall f : File, fs w !! filepath = Some f -> PyStr.len (content f) < 2 ^ 63) ->
  (is_ok r = false <->
     fs w !! filepath = None \/
     (exists f : File, fs w !! filepath = Some f /\
        (readable f = false \/ decodes E (content f) = false)) \/
     PrimFloat.eqb elapsed_time zero = true) /\
  (fs w !! filepath = None -> r = Raise FileNotFoundError) /\
  (forall f : File, fs w !! filepath = Some f ->
     (readable f = false -> r = Raise PermissionError) /\
     (readable f = true -> decodes E (content f) = false -> r = Raise UnicodeDecodeError) /\
     (readable f = true -> decodes E (content f) = true ->
        trace (read_csv_test E filepath w).2 =
          trace w ++ read_events filepath (text_lines (content f)) /\
        concat_str (text_lines (content f)) = content f /\
        r = throughput (PyStr.len (content f)) elapsed_time /\
        (PrimFloat.eqb elapsed_time zero = true -> r = Raise ZeroDivisionError) /\
        (content f <> EmptyString ->
         PyFloat.positive elapsed_time = true -> PyFloat.finite elapsed_time = true ->
         exists v : float, r = Ok v /\ PyFloat.positive v = true))).
Proof.
  intros r elapsed_time Hsize. subst r.
  pose proof pow_63_1000 as Hpow.
  destruct (fs w !! filepath) as [f|] eqn:Hp.
  - specialize (Hsize f eq_refl).
    pose proof (len_nonneg (content f)) as Hlen.
    split; [|split; [discriminate|]].
    + destruct (readable f) eqn:Hr; [destruct (decodes E (content f)) eqn:Hd|].
      * rewrite (read_scanned E _ _ _ Hp Hr Hd). cbn [fst].
        rewrite throughput_is_ok by lia. fold elapsed_time.
        destruct (PrimFloat.eqb elapsed_time zero); cbn [negb]; split; auto.
        intros [H | [(f' & Hf' & [H | H]) | H]]; try discriminate;
          injection Hf' as <-; congruence.
      * rewrite (read_undecodable E _ _ _ Hp Hr Hd). cbn [fst is_ok].
        split; [|reflexivity]. intros _. right. left. exists f. auto.
      * rewrite (read_denied E _ _ _ Hp Hr). cbn [fst is_ok].
        split; [|reflexivity]. intros _. right. left. exists f. auto.
    + intros f' Hf'. injection Hf' as <-. split; [|split].
      * intros Hr. rewrite (read_denied E _ _ _ Hp Hr). reflexivity.
      * intros Hr Hd. rewrite (read_undecodable E _ _ _ Hp Hr Hd). reflexivity.
      * intros Hr Hd. rewrite (read_scanned E _ _ _ Hp Hr Hd). cbn [fst snd trace].
        fold elapsed_time.
        split; [reflexivity|]. split; [apply text_lines_concat|].
        split; [reflexivity|]. split.
        -- intros Hz. apply throughput_zero_elapsed; [lia | exact Hz].
        -- intros Hne Hpos Hfin. apply throughput_pos; try assumption.
           pose proof (len_pos _ Hne). lia.
  - rewrite (read_missing E _ _ Hp). cbn [fst is_ok].
    split; [|split; [reflexivity | discriminate]].
    split; auto.
Qed.


Lemma read_csv_test_spec_witness :
  exists v : float,
    (read_csv_test (sample_env "") "d/custom_write_8.csv"
       (world_with "d/custom_write_8.csv" header)).1 = Ok v /\
    PyFloat.positive v = true.
Proof.
  assert (Hsize : forall f : File,
             fs (world_with "d/custom_write_8.csv" header) !! ("d/custom_write_8.csv")%string =
               Some f -> PyStr.len (content f) < 2 ^ 63).
  { intros f Hf. vm_compute in Hf. injection Hf as <-. reflexivity. }
  destruct (read_csv_test_spec (sample_env "") "d/custom_write_8.csv"
              (world_with "d/custom_write_8.csv" header) Hsize) as (_ & _ & Hfile).
  destruct (Hfile (mk_File header true true)) as (_ & _ & Hread).
  { vm_compute. reflexivity. }
  destruct (Hread eq_refl eq_refl) as (_ & _ & _ & _ & Hpos).
  apply Hpos.
  - discriminate.
  - vm_compute. reflexivity.
  - vm_compute. reflexivity.
Defined.

(** C8, as the specification has it, fails: the file is there and can be
    read, the clock gives the same reading twice, and [read_csv_test] raises
    [ZeroDivisionError]. *)
Lemma read_csv_test_raises_on_readable_file :
  let w := world_with "d/custom_write_8.csv" header in
  let r := (read_csv_test frozen_env "d/custom_write_8.csv" w).1 in
  r = Raise ZeroDivisionError /\
  ~ (is_ok r = false <->
       fs w !! ("d/custom_write_8.csv")%string = None \/
       (exists f : File, fs w !! ("d/custom_write_8.csv")%string = Some f /\
          (readable f = false \/ decodes frozen_env (content f) = false))).
Proof.
  cbn zeta. split; [vm_compute; reflexivity|].
  intros [H _].
  assert (Hr : is_ok (read_csv_test frozen_env "d/custom_write_8.csv"
                        (world_with "d/custom_write_8.csv" header)).1 = false)
    by (vm_compute; reflexivity).
  destruct (H Hr) as [Hnone | (f & Hf & [Hread | Hdec])].
  - vm_compute in Hnone. discriminate.
  - vm_compute in Hf. injection Hf as <-. discriminate.
  - vm_compute in Hf. injection Hf as <-. discriminate.
Qed.

(** ** The driver *)

Section DriverFacts.
Import PyStr StrFacts.

Variable E : Env.

Lemma bind_ok_inv {A B : Type} (m : M A) (k : A -> M B) (w w' : World) (b : B) :
  bind m k w = (Ok b, w') ->
  exists (a : A) (w1 : World), m w = (Ok a, w1) /\ k a w1 = (Ok b, w').
Proof.
  unfold bind. destruct (m w) as [[a|e] w1]; [|discriminate].
  intros H. exists a, w1. auto.
Qed.

Lemma run_fio_test_inv (name : string) (filename : Path) (block_size : string)
    (io_depth : Z) (rw_mode : string) (size num_jobs : Z) (w w1 : World) (v : float) :
  run_fio_test E name filename block_size io_depth rw_mode size num_jobs w = (Ok v, w1) ->
  (exists out : string, parse_bandwidth out = Ok v) /\
  ticks w1 = ticks w /\ runs w1 = S (runs w) /\
  trace w1 = trace w ++
    [EvRun (fio_argv name filename block_size io_depth rw_mode size num_jobs)].
Proof.
  unfold run_fio_test, bind, subprocess_run, lift.
  destruct (fio E (runs w) _ (fs w)) as [out files].
  destruct (parse_bandwidth out) as [v'|e] eqn:Hp; [|discriminate].
  intros H. injection H as <- <-. split; [exists out; exact Hp|]. auto.
Qed.

Lemma write_csv_test_inv (p : Path) (size : Z) (w w1 : World) (v : float) :
  write_csv_test E p size w = (Ok v, w1) ->
  exists k : nat,
    w1 = written_world p k w /\
    throughput (len (header +:+ records_from 0 k)) (next_elapsed E w) = Ok v /\
    size <= len (header +:+ records_from 0 k).
Proof.
  intros H. destruct (can_create_dec (fs w) p) as [Hc | (f & Hf & Hw)].
  - destruct (write_csv_test_run E p size w Hc) as (k & Hrun & Hge & _).
    rewrite Hrun in H. injection H as H1 H2. exists k. auto.
  - rewrite (write_csv_test_denied E p size w f Hf Hw) in H. discriminate.
Qed.

Lemma read_csv_test_inv (p : Path) (w w1 : World) (v : float) :
  read_csv_test E p w = (Ok v, w1) ->
  exists f : File,
    fs w !! p = Some f /\
    w1 = mk_World (fs w) (S (S (ticks w))) (runs w)
           (trace w ++ read_events p (text_lines (content f))) /\
    throughput (len (content f)) (next_elapsed E w) = Ok v.
Proof.
  intros H. destruct (fs w !! p) as [f|] eqn:Hp.
  - destruct (readable f) eqn:Hr; [destruct (decodes E (content f)) eqn:Hd|].
    + rewrite (read_scanned E _ _ _ Hp Hr Hd) in H. injection H as H1 H2.
      exists f. auto.
    + rewrite (read_undecodable E _ _ _ Hp Hr Hd) in H. discriminate.
    + rewrite (read_denied E _ _ _ Hp Hr) in H. discriminate.
  - rewrite (read_missing E _ _ Hp) in H. discriminate.
Qed.

Lemma print_run (s : string) (w : World) : print s w = (Ok tt, log (EvPrint s) w).
Proof. reflexivity. Qed.

(** One pass of the inner loop that ends well. *)
Lemma run_once_inv (test_dir : Path) (size : Z) (size_mb : float) (num_runs run : Z)
    (all_results results' : list row) (w w' : World) :
  run_once E test_dir size size_mb num_runs run all_results w = (Ok results', w') ->
  exists (v1 v2 v3 v4 v5 v6 : float) (k : nat),
    results' = all_results ++ six_rows size_mb run v1 v2 v3 v4 v5 v6 /\
    trace w' = trace w ++ once_events E test_dir size num_runs run v1 v2 v3 v4 v5 v6 k /\
    ticks w' = S (S (S (S (ticks w)))) /\
    (exists out, parse_bandwidth out = Ok v1) /\
    (exists out, parse_bandwidth out = Ok v2) /\
    (exists out, parse_bandwidth out = Ok v3) /\
    (exists out, parse_bandwidth out = Ok v4) /\
    size <= len (header +:+ records_from 0 k) /\
    throughput (len (header +:+ records_from 0 k))
      (PrimFloat.sub (clock E (S (ticks w))) (clock E (ticks w))) = Ok v5 /\
    throughput (len (header +:+ records_from 0 k))
      (PrimFloat.sub (clock E (S (S (S (ticks w))))) (clock E (S (S (ticks w))))) = Ok v6.
Proof.
  unfold run_once. intros H.
  apply bind_ok_inv in H as ([] & w0 & Hp0 & H). rewrite print_run in Hp0. injection Hp0 as <-.
  apply bind_ok_inv in H as (v1 & w1 & H1 & H).
  apply run_fio_test_inv in H1 as (Ho1 & Ht1 & Hr1 & Htr1).
  apply bind_ok_inv in H as ([] & w1' & Hp1 & H). rewrite print_run in Hp1. injection Hp1 as <-.
  apply bind_ok_inv in H as (v2 & w2 & H2 & H).
  apply run_fio_test_inv in H2 as (Ho2 & Ht2 & Hr2 & Htr2).
  apply bind_ok_inv in H as ([] & w2' & Hp2 & H). rewrite print_run in Hp2. injection Hp2 as <-.
  apply bind_ok_inv in H as (v3 & w3 & H3 & H).
  apply run_fio_test_inv in H3 as (Ho3 & Ht3 & Hr3 & Htr3).
  apply bind_ok_inv in H as ([] & w3' & Hp3 & H). rewrite print_run in Hp3. injection Hp3 as <-.
  apply bind_ok_inv in H as (v4 & w4 & H4 & H).
  apply run_fio_test_inv in H4 as (Ho4 & Ht4 & Hr4 & Htr4).
  apply bind_ok_inv in H as ([] & w4' & Hp4 & H). rewrite print_run in Hp4. injection Hp4 as <-.
  apply bind_ok_inv in H as (v5 & w5 & H5 & H).
  apply write_csv_test_inv in H5 as (k & Hw5 & Hv5 & Hge).
  apply bind_ok_inv in H as ([] & w5' & Hp5 & H). rewrite print_run in Hp5. injection Hp5 as <-.
  apply bind_ok_inv in H as (v6 & w6 & H6 & H).
  apply read_csv_test_inv in H6 as (f & Hf & Hw6 & Hv6).
  apply bind_ok_inv in H as ([] & w6' & Hp6 & H). rewrite print_run in Hp6. injection Hp6 as <-.
  unfold ret in H. injection H as <- <-.
  fold (custom_path test_dir size) in *.
  subst w6 w5. unfold next_elapsed, written_world, log in *.
  cbn [fs ticks runs trace] in *.
  (* the file read is the file written *)
  assert (Hcontent : content f = header +:+ records_from 0 k).
  { rewrite lookup_insert_eq in Hf. injection Hf as <-. reflexivity. }
  rewrite Hcontent in *.
  rewrite Ht4, Ht3, Ht2, Ht1 in *.
  exists v1, v2, v3, v4, v5, v6, k.
  split; [|split; [|split; [|split; [|split; [|split; [|split; [|split; [|split]]]]]]]];
    try assumption.
  - rewrite <- !app_assoc. reflexivity.
  - rewrite Htr4, Htr3, Htr2, Htr1. unfold once_events.
    rewrite <- !app_assoc. reflexivity.
  - reflexivity.
Qed.

Lemma for_each_cons_inv {A S : Type} (x : A) (xs : list A) (body : A -> S -> M S)
    (s s' : S) (w w' : World) :
  for_each (x :: xs) body s w = (Ok s', w') ->
  exists (s1 : S) (w1 : World),
    body x s w = (Ok s1, w1) /\ for_each xs body s1 w1 = (Ok s', w').
Proof. cbn [for_each]. apply bind_ok_inv. Qed.

Lemma inner_loop_inv (test_dir : Path) (size : Z) (size_mb : float) (num_runs : Z)
    (runs : list Z) :
  forall (rs rs' : list row) (w w' : World),
    for_each runs (run_once E test_dir size size_mb num_runs) rs w = (Ok rs', w') ->
    exists (rows : list row) (evs : list event),
      inner_loop E test_dir size size_mb num_runs runs rows evs /\
      rs' = rs ++ rows /\ trace w' = trace w ++ evs.
Proof.
  induction runs as [|run runs IH]; intros rs rs' w w' H.
  - cbn [for_each] in H. unfold ret in H. injection H as <- <-.
    exists [], []. rewrite !app_nil_r. split; [constructor | auto].
  - apply for_each_cons_inv in H as (rs1 & w1 & H1 & H).
    apply run_once_inv in H1
      as (v1 & v2 & v3 & v4 & v5 & v6 & k & Hrs & Htr & _).
    destruct (IH _ _ _ _ H) as (rows & evs & Hin & Hrs' & Htr').
    exists (six_rows size_mb run v1 v2 v3 v4 v5 v6 ++ rows),
           (once_events E test_dir size num_runs run v1 v2 v3 v4 v5 v6 k ++ evs).
    split; [constructor; exact Hin|]. subst rs1. rewrite Hrs', Htr', Htr.
    rewrite <- !app_assoc. auto.
Qed.

Lemma outer_loop_inv (test_dir : Path) (num_runs : Z) (sizes : list Z) :
  forall (rs rs' : list row) (w w' : World),
    for_each sizes (run_size E test_dir num_runs) rs w = (Ok rs', w') ->
    exists (rows : list row) (evs : list event),
      outer_loop E test_dir num_runs sizes rows evs /\
      rs' = rs ++ rows /\ trace w' = trace w ++ evs.
Proof.
  induction sizes as [|size sizes IH]; intros rs rs' w w' H.
  - cbn [for_each] in H. unfold ret in H. injection H as <- <-.
    exists [], []. rewrite !app_nil_r. split; [constructor | auto].
  - apply for_each_cons_inv in H as (rs1 & w1 & H1 & H).
    unfold run_size in H1.
    apply bind_ok_inv in H1 as (size_mb & w0 & Hmb & H1).
    unfold lift in Hmb. injection Hmb as Hmb <-.
    apply bind_ok_inv in H1 as ([] & w0' & Hp & H1).
    rewrite print_run in Hp. injection Hp as <-.
    apply inner_loop_inv in H1 as (rows1 & evs1 & Hin & Hrs1 & Htr1).
    destruct (IH _ _ _ _ H) as (rows & evs & Hout & Hrs' & Htr').
    exists (rows1 ++ rows), (EvPrint (nl +:+ "Testing with size: " +:+ float_fixed2 E size_mb +:+ " MB" +:+ nl) :: evs1 ++ evs).
    split; [econstructor; eassumption|].
    subst rs1. rewrite Hrs', Htr', Htr1. unfold log. cbn [trace].
    rewrite <- !app_assoc. auto.
Qed.

Lemma run_all_inv (test_dir : Path) (sizes : list Z) (num_runs : Z)
    (results : list row) (w w' : World) :
  run_all E test_dir sizes num_runs w = (Ok results, w') ->
  exists evs : list event,
    outer_loop E test_dir num_runs sizes results evs /\
    trace w' = trace w ++ EvMkdir test_dir :: evs.
Proof.
  unfold run_all. intros H.
  apply bind_ok_inv in H as ([] & w0 & Hm & H).
  unfold mkdir, emit in Hm. injection Hm as <-.
  apply outer_loop_inv in H as (rows & evs & Hout & Hrs & Htr).
  cbn [app] in Hrs. subst rows. exists evs. split; [exact Hout|].
  rewrite Htr. unfold log. cbn [trace]. rewrite <- app_assoc. reflexivity.
Qed.

(** The keys of the rows: the six tests for each pass, the passes for each
    size. *)
Lemma inner_loop_keys (test_dir : Path) (size : Z) (size_mb : float) (num_runs : Z)
    (runs : list Z) (rows : list row) (evs : list event) :
  inner_loop E test_dir size size_mb num_runs runs rows evs ->
  map row_key rows = flat_map (keys_of size_mb) runs /\
  length rows = (6 * length runs)%nat.
Proof.
  induction 1 as [|run runs v1 v2 v3 v4 v5 v6 k rows evs _ [IH1 IH2]].
  - split; reflexivity.
  - cbn [flat_map]. rewrite map_app, IH1, length_app, IH2.
    split; [reflexivity|]. cbn [six_rows length]. lia.
Qed.

Lemma range_length (n : Z) : length (range n) = Z.to_nat n.
Proof. unfold range. rewrite length_map, length_seq. reflexivity. Qed.

Lemma outer_loop_keys (test_dir : Path) (num_runs : Z)
    (sizes : list Z) (rows : list row) (evs : list event) :
  outer_loop E test_dir num_runs sizes rows evs ->
  map row_key rows = expected_keys sizes num_runs /\
  length rows = (6 * Z.to_nat num_runs * length sizes)%nat.
Proof.
  induction 1 as [|size sizes size_mb rows1 rows evs1 evs Hmb Hin _ [IH1 IH2]].
  - split; [reflexivity | cbn; lia].
  - destruct (inner_loop_keys _ _ _ _ _ _ _ Hin) as [Hk Hl].
    rewrite range_length in Hl.
    unfold expected_keys in *. cbn [flat_map].
    rewrite map_app, IH1, Hk, length_app, IH2, Hl.
    unfold size_mb_of. rewrite Hmb.
    split; [reflexivity|]. cbn [length]. lia.
Qed.




(** *** What writes no row of the results file *)

Lemma wnr_intro {A : Type} (m : M A) (evs : World -> list event) :
  (forall w, trace (m w).2 = trace w ++ evs w) ->
  (forall w, forallb quiet (evs w) = true) ->
  writes_no_row m.
Proof. intros H1 H2 w. exists (evs w). split; [apply H1 | apply H2]. Qed.

Lemma wnr_ret {A : Type} (a : A) : writes_no_row (ret a).
Proof. intros w. exists []. rewrite app_nil_r. split; reflexivity. Qed.

Lemma wnr_lift {A : Type} (r : result A) : writes_no_row (lift r).
Proof. intros w. exists []. rewrite app_nil_r. split; reflexivity. Qed.

Lemma wnr_emit (e : event) : is_row_event e = false -> writes_no_row (emit e).
Proof.
  intros He w. exists [e]. split; [reflexivity|].
  cbn [forallb]. unfold quiet. rewrite He. reflexivity.
Qed.

Lemma wnr_bind {A B : Type} (m : M A) (k : A -> M B) :
  writes_no_row m -> (forall a, writes_no_row (k a)) -> writes_no_row (bind m k).
Proof.
  intros Hm Hk w. destruct (Hm w) as (evs1 & Ht1 & Hq1).
  unfold bind. destruct (m w) as [[a|e] w1]; cbn [snd] in *.
  - destruct (Hk a w1) as (evs2 & Ht2 & Hq2).
    exists (evs1 ++ evs2). rewrite Ht2, Ht1, <- app_assoc, forallb_app, Hq1, Hq2.
    split; reflexivity.
  - exists evs1. auto.
Qed.

Lemma wnr_for_each {A S : Type} (xs : list A) (body : A -> S -> M S) :
  (forall x s, writes_no_row (body x s)) -> forall s, writes_no_row (for_each xs body s).
Proof.
  intros Hb. induction xs as [|x xs IH]; intros s; cbn [for_each].
  - apply wnr_ret.
  - apply wnr_bind; [apply Hb | exact IH].
Qed.

Lemma wnr_run_fio_test (name : string) (filename : Path) (block_size : string)
    (io_depth : Z) (rw_mode : string) (size num_jobs : Z) :
  writes_no_row (run_fio_test E name filename block_size io_depth rw_mode size num_jobs).
Proof.
  intros w. eexists.
  unfold run_fio_test, bind, subprocess_run, lift.
  destruct (fio E (runs w) _ (fs w)) as [out files]. cbn [snd trace].
  split; [reflexivity | reflexivity].
Qed.

Lemma quiet_write_events (p : Path) (i : Z) (k : nat) :
  forallb quiet (write_events p i k) = true.
Proof. revert i. induction k as [|k IH]; intros i; cbn; auto. Qed.

Lemma wnr_write_csv_test (p : Path) (size : Z) : writes_no_row (write_csv_test E p size).
Proof.
  intros w. destruct (can_create_dec (fs w) p) as [Hc | (f & Hf & Hw)].
  - destruct (write_csv_test_run E p size w Hc) as (k & Hrun & _).
    rewrite Hrun. eexists. split; [reflexivity|].
    rewrite !forallb_app, quiet_write_events. reflexivity.
  - rewrite (write_csv_test_denied E p size w f Hf Hw).
    eexists. split; reflexivity.
Qed.

Lemma read_only_quiet (p : Path) (e : event) : read_only p e = true -> quiet e = true.
Proof. destruct e; cbn; auto; discriminate. Qed.

Lemma wnr_read_csv_test (p : Path) : writes_no_row (read_csv_test E p).
Proof.
  intros w. destruct (read_csv_test_events E p w) as (_ & evs & Htr & Hro).
  exists evs. split; [exact Htr|].
  rewrite forallb_forall in *. intros e He. apply (read_only_quiet p), Hro, He.
Qed.

Lemma wnr_print (s : string) : writes_no_row (print s).
Proof. apply wnr_emit. reflexivity. Qed.

Lemma wnr_run_once (test_dir : Path) (size : Z) (size_mb : float) (num_runs run : Z)
    (rs : list row) :
  writes_no_row (run_once E test_dir size size_mb num_runs run rs).
Proof.
  unfold run_once.
  repeat first
    [ progress cbv zeta
    | apply wnr_print
    | apply wnr_run_fio_test
    | apply wnr_write_csv_test
    | apply wnr_read_csv_test
    | apply wnr_ret
    | apply wnr_bind; [|intros ?] ].
Qed.

Lemma wnr_run_all (test_dir : Path) (sizes : list Z) (num_runs : Z) :
  writes_no_row (run_all E test_dir sizes num_runs).
Proof.
  unfold run_all. apply wnr_bind; [apply wnr_emit; reflexivity | intros _].
  apply wnr_for_each. intros size rs. unfold run_size.
  apply wnr_bind; [apply wnr_lift | intros size_mb].
  apply wnr_bind; [apply wnr_print | intros _].
  apply wnr_for_each. intros run rs'. apply wnr_run_once.
Qed.

(** *** [save_results_to_csv] *)

Lemma writerows_run (p : Path) (rows : list row) :
  forall w : World,
    for_each rows (fun r (_ : unit) => writerow p (row_fields E r)) tt w =
      (Ok tt,
       mk_World
         (alter (append_content (concat_str (map csv_line (map (row_fields E) rows)))) p (fs w))
         (ticks w) (runs w)
         (trace w ++ map (EvWriteRow p) (map (row_fields E) rows))).
Proof.
  induction rows as [|r rows IH]; intros w; cbn [for_each map concat_str fold_right].
  - unfold ret. rewrite app_nil_r. destruct w as [files t n tr]. cbn [fs ticks runs trace].
    f_equal. f_equal. symmetry. apply alter_id. intros f _.
    unfold append_content. rewrite append_nil_r. destruct f; reflexivity.
  - unfold bind. unfold writerow at 1. rewrite IH.
    unfold log, set_fs. cbn [fs ticks runs trace].
    f_equal. f_equal.
    + rewrite alter_alter_eq. apply alter_ext. intros f _.
      unfold append_content, compose. cbn [content readable writable].
      rewrite append_assoc. reflexivity.
    + rewrite <- app_assoc. reflexivity.
Qed.

Lemma save_results_run (results : list row) (p : Path) (w : World) :
  can_create (fs w) p ->
  save_results_to_csv E results p w =
    (Ok tt,
     mk_World
       (<[p := mk_File (concat_str (map csv_line (results_table E results)))
                 (readable (opened_file (fs w) p)) true]> (fs w))
       (ticks w) (runs w) (trace w ++ save_events E p results)).
Proof.
  intros Hc. unfold save_results_to_csv, bind. rewrite open_w_ok by exact Hc.
  unfold finally. unfold writerow at 1. rewrite writerows_run.
  unfold close, log, set_fs. cbn [fs ticks runs trace].
  f_equal. f_equal.
  - rewrite alter_alter_eq, alter_insert_eq.
    unfold compose, append_content, opened_file, results_table.
    cbn [map concat_str fold_right content readable writable].
    destruct (fs w !! p); reflexivity.
  - unfold save_events, results_table. cbn [map]. rewrite <- !app_assoc. reflexivity.
Qed.

End DriverFacts.

(** ** The values of a pass *)

Section PassFacts.
Import PyStr StrFacts.

Variable E : Env.

(** One [fio] test: its value is parsed from what this child process
    printed, and the world moves on by this one process. *)
Lemma run_fio_test_run (name : string) (filename : Path) (block_size : string)
    (io_depth : Z) (rw_mode : string) (size num_jobs : Z) (w : World) :
  let argv := fio_argv name filename block_size io_depth rw_mode size num_jobs in
  run_fio_test E name filename block_size io_depth rw_mode size num_jobs w =
    (parse_bandwidth (fio_text E argv (runs w, fs w)),
     mk_World (next_fio E argv (runs w, fs w)).2 (ticks w) (S (runs w))
       (trace w ++ [EvRun argv])).
Proof.
  cbn zeta. unfold run_fio_test, bind, subprocess_run, lift, fio_text, next_fio. cbn [fst snd].
  destruct (fio E (runs w) _ (fs w)) as [out files]. reflexivity.
Qed.

Lemma run_fio_test_ok (name : string) (filename : Path) (block_size : string)
    (io_depth : Z) (rw_mode : string) (size num_jobs : Z) (w w1 : World) (v : float) :
  let argv := fio_argv name filename block_size io_depth rw_mode size num_jobs in
  run_fio_test E name filename block_size io_depth rw_mode size num_jobs w = (Ok v, w1) ->
  parse_bandwidth (fio_text E argv (runs w, fs w)) = Ok v /\
  (runs w1, fs w1) = next_fio E argv (runs w, fs w) /\
  ticks w1 = ticks w.
Proof.
  cbn zeta. rewrite run_fio_test_run. intros H. injection H as Hv <-.
  cbn [fs ticks runs]. split; [exact Hv|]. split; reflexivity.
Qed.

Lemma write_csv_test_ok (p : Path) (size : Z) (w w1 : World) (v : float) :
  write_csv_test E p size w = (Ok v, w1) ->
  exists k : nat,
    w1 = written_world p k w /\
    throughput (len (header +:+ records_from 0 k)) (next_elapsed E w) = Ok v /\
    size <= len (header +:+ records_from 0 k) /\
    (forall j : nat, (j < k)%nat -> len (header +:+ records_from 0 j) < size).
Proof.
  intros H. destruct (can_create_dec (fs w) p) as [Hc | (f & Hf & Hw)].
  - destruct (write_csv_test_run E p size w Hc) as (k & Hrun & Hge & Hbelow).
    rewrite Hrun in H. injection H as H1 H2. exists k. auto.
  - rewrite (write_csv_test_denied E p size w f Hf Hw) in H. discriminate.
Qed.

(** One pass of the inner loop that ends well, value by value. *)
Lemma run_once_detail (test_dir : Path) (size : Z) (size_mb : float) (num_runs run : Z)
    (all_results results' : list row) (w w' : World) :
  run_once E test_dir size size_mb num_runs run all_results w = (Ok results', w') ->
  let argv := pass_argv test_dir size in
  let s0 := (runs w, fs w) in
  let s1 := next_fio E (argv 0%nat) s0 in
  let s2 := next_fio E (argv 1%nat) s1 in
  let s3 := next_fio E (argv 2%nat) s2 in
  let s4 := next_fio E (argv 3%nat) s3 in
  let p := custom_path test_dir size in
  exists (v1 v2 v3 v4 v5 v6 : float) (k : nat),
    results' = all_results ++ six_rows size_mb run v1 v2 v3 v4 v5 v6 /\
    parse_bandwidth (fio_text E (argv 0%nat) s0) = Ok v1 /\
    parse_bandwidth (fio_text E (argv 1%nat) s1) = Ok v2 /\
    parse_bandwidth (fio_text E (argv 2%nat) s2) = Ok v3 /\
    parse_bandwidth (fio_text E (argv 3%nat) s3) = Ok v4 /\
    size <= len (header +:+ records_from 0 k) /\
    (forall j : nat, (j < k)%nat -> len (header +:+ records_from 0 j) < size) /\
    fs w' = <[p := mk_File (header +:+ records_from 0 k)
                     (readable (opened_file s4.2 p)) true]> s4.2 /\
    runs w' = s4.1 /\
    throughput (len (header +:+ records_from 0 k))
      (PrimFloat.sub (clock E (S (ticks w))) (clock E (ticks w))) = Ok v5 /\
    throughput (len (header +:+ records_from 0 k))
      (PrimFloat.sub (clock E (S (S (S (ticks w))))) (clock E (S (S (ticks w))))) = Ok v6.
Proof.
  unfold run_once. intros H. cbn zeta.
  apply bind_ok_inv in H as ([] & w0 & Hp0 & H). rewrite print_run in Hp0. injection Hp0 as <-.
  apply bind_ok_inv in H as (v1 & w1 & H1 & H).
  apply run_fio_test_ok in H1 as (Ho1 & Hs1 & Ht1).
  apply bind_ok_inv in H as ([] & w1' & Hp1 & H). rewrite print_run in Hp1. injection Hp1 as <-.
  apply bind_ok_inv in H as (v2 & w2 & H2 & H).
  apply run_fio_test_ok in H2 as (Ho2 & Hs2 & Ht2).
  apply bind_ok_inv in H as ([] & w2' & Hp2 & H). rewrite print_run in Hp2. injection Hp2 as <-.
  apply bind_ok_inv in H as (v3 & w3 & H3 & H).
  apply run_fio_test_ok in H3 as (Ho3 & Hs3 & Ht3).
  apply bind_ok_inv in H as ([] & w3' & Hp3 & H). rewrite print_run in Hp3. injection Hp3 as <-.
  apply bind_ok_inv in H as (v4 & w4 & H4 & H).
  apply run_fio_test_ok in H4 as (Ho4 & Hs4 & Ht4).
  apply bind_ok_inv in H as ([] & w4' & Hp4 & H). rewrite print_run in Hp4. injection Hp4 as <-.
  apply bind_ok_inv in H as (v5 & w5 & H5 & H).
  apply write_csv_test_ok in H5 as (k & Hw5 & Hv5 & Hge & Hbelow).
  apply bind_ok_inv in H as ([] & w5' & Hp5 & H). rewrite print_run in Hp5. injection Hp5 as <-.
  apply bind_ok_inv in H as (v6 & w6 & H6 & H).
  apply read_csv_test_inv in H6 as (f & Hf & Hw6 & Hv6).
  apply bind_ok_inv in H as ([] & w6' & Hp6 & H). rewrite print_run in Hp6. injection Hp6 as <-.
  unfold ret in H. injection H as <- <-.
  fold (custom_path test_dir size) in *.
  subst w6 w5. unfold next_elapsed, written_world, log in *.
  cbn [fs ticks runs trace] in *.
  assert (Hcontent : content f = header +:+ records_from 0 k).
  { rewrite lookup_insert_eq in Hf. injection Hf as <-. reflexivity. }
  rewrite Hcontent in *.
  rewrite Ht4, Ht3, Ht2, Ht1 in *.
  change (fio_argv "sequential_write" (joinpath test_dir "seq_write_test") "1M" 64 "write" size 4)
    with (pass_argv test_dir size 0) in *.
  change (fio_argv "sequential_read" (joinpath test_dir "seq_read_test") "1M" 64 "read" size 4)
    with (pass_argv test_dir size 1) in *.
  change (fio_argv "random_write" (joinpath test_dir "rand_write_test") "4K" 64 "randwrite" size 4)
    with (pass_argv test_dir size 2) in *.
  change (fio_argv "random_read" (joinpath test_dir "rand_read_test") "4K" 64 "randread" size 4)
    with (pass_argv test_dir size 3) in *.
  rewrite Hs1 in Ho2, Hs2. rewrite Hs2 in Ho3, Hs3. rewrite Hs3 in Ho4, Hs4.
  assert (Hr4 : runs w4 = (next_fio E (pass_argv test_dir size 3)
                             (next_fio E (pass_argv test_dir size 2)
                                (next_fio E (pass_argv test_dir size 1)
                                   (next_fio E (pass_argv test_dir size 0) (runs w, fs w))))).1)
    by (rewrite <- Hs4; reflexivity).
  assert (Hf4 : fs w4 = (next_fio E (pass_argv test_dir size 3)
                           (next_fio E (pass_argv test_dir size 2)
                              (next_fio E (pass_argv test_dir size 1)
                                 (next_fio E (pass_argv test_dir size 0) (runs w, fs w))))).2)
    by (rewrite <- Hs4; reflexivity).
  rewrite Hf4, Hr4.
  exists v1, v2, v3, v4, v5, v6, k.
  split; [rewrite <- !app_assoc; reflexivity|].
  repeat (split; [assumption|]).
  split; [reflexivity|]. split; [reflexivity|]. split; assumption.
Qed.

End PassFacts.

#[local] Set Warnings "-inexact-float".



(** C7, as the program has it. In every pass that ends well the six values
    are rates in MB/s. The four [fio] values are what [parse_bandwidth] reads
    in the output of the four child processes of this pass, each started
    with the command line of its test on the files the one before left. The
    values of the two custom tests are the size in MB of the custom file of
    this pass, which is on disk when the pass ends and holds the header and
    the fewest records that reach the target, over the seconds elapsed
    between the two clock readings of the test, not those seconds. *)
Theorem run_once_values (E : Env) (test_dir : Path) (size : Z) (size_mb : float)
    (num_runs run : Z) (all_results results' : list row) (w w' : World) :
  run_once E test_dir size size_mb num_runs run all_results w = (Ok results', w') ->
  let argv := pass_argv test_dir size in
  let s0 := (runs w, fs w) in
  let s1 := next_fio E (argv 0%nat) s0 in
  let s2 := next_fio E (argv 1%nat) s1 in
  let s3 := next_fio E (argv 2%nat) s2 in
  let s4 := next_fio E (argv 3%nat) s3 in
  let p := custom_path test_dir size in
  exists (v1 v2 v3 v4 v5 v6 : float) (k : nat),
    results' = all_results ++ six_rows size_mb run v1 v2 v3 v4 v5 v6 /\
    parse_bandwidth (fio_text E (argv 0%nat) s0) = Ok v1 /\
    parse_bandwidth (fio_text E (argv 1%nat) s1) = Ok v2 /\
    parse_bandwidth (fio_text E (argv 2%nat) s2) = Ok v3 /\
    parse_bandwidth (fio_text E (argv 3%nat) s3) = Ok v4 /\
    size <= PyStr.len (header +:+ records_from 0 k) /\
    (forall j : nat, (j < k)%nat -> PyStr.len (header +:+ records_from 0 j) < size) /\
    fs w' = <[p := mk_File (header +:+ records_from 0 k)
                     (readable (opened_file s4.2 p)) true]> s4.2 /\
    runs w' = s4.1 /\
    throughput (PyStr.len (header +:+ records_from 0 k))
      (PrimFloat.sub (clock E (S (ticks w))) (clock E (ticks w))) = Ok v5 /\
    throughput (PyStr.len (header +:+ records_from 0 k))
      (PrimFloat.sub (clock E (S (S (S (ticks w))))) (clock E (S (S (ticks w))))) = Ok v6.
Proof.
  intros H. exact (run_once_detail E _ _ _ _ _ _ _ _ _ H).
Qed.

Lemma run_once_values_witness :
  let E := sample_env "BW=12.3MiB/s" in
  exists (rows : list row) (v1 v5 v6 : float) (k : nat),
    (run_once E "d" 40 (size_mb_of 40) 1 0 [] world0).1 = Ok rows /\
    map row_value (firstn 1 rows) = [v1] /\
    map row_value (skipn 4 rows) = [v5; v6] /\
    parse_bandwidth (fio_text E (pass_argv "d" 40 0) (runs world0, fs world0)) = Ok v1 /\
    40 <= PyStr.len (header +:+ records_from 0 k) /\
    throughput (PyStr.len (header +:+ records_from 0 k)) 2 = Ok v5 /\
    throughput (PyStr.len (header +:+ records_from 0 k)) 2 = Ok v6.
Proof.
  cbn zeta.
  destruct (run_once (sample_env "BW=12.3MiB/s") "d" 40 (size_mb_of 40) 1 0 [] world0)
    as [[rows|e] w'] eqn:H.
  - destruct (run_once_values _ _ _ _ _ _ _ _ _ _ H)
      as (v1 & v2 & v3 & v4 & v5 & v6 & k & Hrs & H1 & _ & _ & _ & Hge & _ & _ & _ & H5 & H6).
    exists rows, v1, v5, v6, k. split; [reflexivity|].
    split; [rewrite Hrs; reflexivity|]. split; [rewrite Hrs; reflexivity|].
    split; [exact H1|]. split; [exact Hge|]. split; [exact H5 | exact H6].
  - vm_compute in H. discriminate.
Defined.

(** C7, as the specification has it, fails: in this pass each custom test
    took two seconds by the clock, and the values recorded for "Custom CSV
    Write" and "Custom CSV Read" are not 2.0 but the rate of 41 bytes in two
    seconds. *)
Lemma custom_values_are_not_seconds :
  let E := sample_env "BW=12.3MiB/s" in
  exists (rows : list row) (r5 r6 : row),
    (run_once E "d" 40 (size_mb_of 40) 1 0 [] world0).1 = Ok rows /\
    nth_error rows 4 = Some r5 /\ nth_error rows 5 = Some r6 /\
    (row_key r5).1.1 = "Custom CSV Write"%string /\
    (row_key r6).1.1 = "Custom CSV Read"%string /\
    PrimFloat.sub (clock E 1) (clock E 0) = 2%float /\
    PrimFloat.sub (clock E 3) (clock E 2) = 2%float /\
    PrimFloat.eqb (row_value r5) 2 = false /\
    PrimFloat.eqb (row_value r6) 2 = false /\
    throughput 41 2 = Ok (row_value r5) /\
    throughput 41 2 = Ok (row_value r6).
Proof.
  cbn zeta.
  destruct (run_once (sample_env "BW=12.3MiB/s") "d" 40 (size_mb_of 40) 1 0 [] world0).1
    as [rows|e] eqn:H; vm_compute in H; [|discriminate].
  injection H as <-.
  eexists _, _, _. split; [reflexivity|].
  split; [reflexivity|]. split; [reflexivity|].
  repeat split; vm_compute; reflexivity.
Qed.

(** C4. [save_results_to_csv] on [N] results and a path it can open writes
    a table of [N+1] rows: the header "Test Type", "Data Size (MB)", "Run",
    "Result (MB/s)", then one row of four fields for each result, in the
    order of the results; the file holds these rows as the [csv] writer
    formats them and nothing else. [run_benchmarks] calls it once, after the
    loops, with all the results: until then no row is written, however the
    loops end, and when they raise nothing is saved. *)
Theorem save_results_table (E : Env) (test_dir : Path) (sizes : list Z) (num_runs : Z)
    (results_file : Path) (results : list row) (w : World) :
  can_create (fs w) results_file ->
  let table := results_table E results in
  let saved := save_results_to_csv E results results_file w in
  saved.1 = Ok tt /\
  fs saved.2 =
    <[results_file := mk_File (concat_str (map csv_line table))
                        (readable (opened_file (fs w) results_file)) true]> (fs w) /\
  trace saved.2 =
    trace w ++ [EvOpen results_file "w"] ++ map (EvWriteRow results_file) table ++
    [EvClose results_file] /\
  length table = S (length results) /\
  nth_error table 0 =
    Some ["Test Type"; "Data Size (MB)"; "Run"; "Result (MB/s)"]%string /\
  (forall (i : nat) (r : row), nth_error results i = Some r ->
     nth_error table (S i) = Some (row_fields E r) /\ length (row_fields E r) = 4%nat) /\
  (forall w0 : World,
     (exists evs : list event,
        trace (run_all E test_dir sizes num_runs w0).2 = trace w0 ++ evs /\
        forallb quiet evs = true) /\
     run_benchmarks E test_dir sizes num_runs results_file w0 =
       match run_all E test_dir sizes num_runs w0 with
       | (Ok all_results, w1) => save_results_to_csv E all_results results_file w1
       | (Raise e, w1) => (Raise e, w1)
       end).
Proof.
  intros Hc table saved. subst saved.
  rewrite (save_results_run E results results_file w Hc). cbn [fst snd fs trace].
  split; [reflexivity|]. split; [reflexivity|]. split; [reflexivity|].
  split; [unfold table, results_table; cbn [length]; now rewrite length_map|].
  split; [reflexivity|]. split.
  - intros i r Hr. unfold table, results_table. cbn [nth_error].
    split; [|destruct r as [[[name mb] run] v]; reflexivity].
    rewrite nth_error_map, Hr. reflexivity.
  - intros w0. split; [apply wnr_run_all|].
    unfold run_benchmarks, bind.
    destruct (run_all E test_dir sizes num_runs w0) as [[rs|e] w1]; reflexivity.
Qed.

Lemma save_results_table_witness :
  let rows := [("Sequential Write"%string, 1%float, 1, 12.5952%float);
               ("Sequential Read"%string, 1%float, 1, 0%float)] in
  let saved := save_results_to_csv (sample_env "") rows "d/benchmark_results.csv" world0 in
  saved.1 = Ok tt /\
  length (results_table (sample_env "") rows) = 3%nat /\
  trace saved.2 =
    [EvOpen "d/benchmark_results.csv" "w";
     EvWriteRow "d/benchmark_results.csv" ["Test Type"; "Data Size (MB)"; "Run"; "Result (MB/s)"]%string;
     EvWriteRow "d/benchmark_results.csv" ["Sequential Write"; "<float>"; "1"; "<float>"]%string;
     EvWriteRow "d/benchmark_results.csv" ["Sequential Read"; "<float>"; "1"; "<float>"]%string;
     EvClose "d/benchmark_results.csv"].
Proof.
  cbn zeta.
  assert (Hc : can_create (fs world0) "d/benchmark_results.csv").
  { intros f Hf. unfold world0 in Hf. cbn [fs] in Hf. rewrite lookup_empty in Hf. discriminate. }
  destruct (save_results_table (sample_env "") "d" [40] 1 "d/benchmark_results.csv"
              [("Sequential Write"%string, 1%float, 1, 12.5952%float);
               ("Sequential Read"%string, 1%float, 1, 0%float)] world0 Hc)
    as (Hok & _ & Htr & Hlen & _).
  split; [exact Hok|]. split; [exact Hlen|]. exact Htr.
Defined.

(** ** Edge cases of the custom benchmarks *)

Section CustomFacts.
Import PyStr StrFacts.

Variable E : Env.

Lemma written_len_bound (size : Z) (k : nat) :
  size < 2 ^ 63 ->
  (forall j : nat, (j < k)%nat -> len (header +:+ records_from 0 j) < size) ->
  0 <= len (header +:+ records_from 0 k) < 2 ^ 1000.
Proof.
  intros Hsize Hbelow. split; [apply len_nonneg|].
  assert (Hb : forall j : nat, (j < k)%nat -> len header + len (records_from 0 j) < size).
  { intros j Hj. rewrite <- len_append. apply Hbelow, Hj. }
  destruct (records_bound size k Hb) as [_ Hle].
  pose proof pow_63_1000.
  assert (2 ^ 63 = 9223372036854775808) by reflexivity. lia.
Qed.

(** The number of records is decided by the target. *)
Lemma records_count_unique (size : Z) (k1 k2 : nat) :
  size <= len (header +:+ records_from 0 k1) ->
  (forall j : nat, (j < k1)%nat -> len (header +:+ records_from 0 j) < size) ->
  size <= len (header +:+ records_from 0 k2) ->
  (forall j : nat, (j < k2)%nat -> len (header +:+ records_from 0 j) < size) ->
  k1 = k2.
Proof.
  intros H1 B1 H2 B2.
  destruct (Nat.lt_trichotomy k1 k2) as [Hlt | [Heq | Hgt]]; [|exact Heq|].
  - specialize (B2 k1 Hlt). lia.
  - specialize (B1 k2 Hgt). lia.
Qed.

Lemma written_file (p : Path) (k : nat) (w : World) :
  fs (written_world p k w) !! p =
    Some (mk_File (header +:+ records_from 0 k) (readable (opened_file (fs w) p)) true).
Proof. unfold written_world. cbn [fs]. apply lookup_insert_eq. Qed.

Lemma can_create_written (p : Path) (k : nat) (w : World) :
  can_create (fs (written_world p k w)) p.
Proof. intros f Hf. rewrite written_file in Hf. injection Hf as <-. reflexivity. Qed.

Lemma opened_written (p : Path) (k : nat) (w : World) :
  readable (opened_file (fs (written_world p k w)) p) = readable (opened_file (fs w) p).
Proof. unfold opened_file at 1. rewrite written_file. reflexivity. Qed.

End CustomFacts.

(** X1. [write_csv_test] on a file that is there and may not be written
    raises [PermissionError] at the opening: the file system is left as it
    was, the file keeping its content, and all that happened is one reading
    of the clock and the failed opening. *)
Theorem write_csv_test_permission_denied (E : Env) (filepath : Path)
    (size_in_bytes : Z) (w : World) (f : File) :
  fs w !! filepath = Some f -> writable f = false ->
  (write_csv_test E filepath size_in_bytes w).1 = Raise PermissionError /\
  fs (write_csv_test E filepath size_in_bytes w).2 = fs w /\
  trace (write_csv_test E filepath size_in_bytes w).2 =
    trace w ++ [EvClock; EvOpen filepath "w"].
Proof.
  intros Hf Hw. rewrite (write_csv_test_denied E filepath size_in_bytes w f Hf Hw).
  repeat split.
Qed.

Lemma write_csv_test_permission_denied_witness :
  (write_csv_test (sample_env "") "d/custom_write_40.csv" 40
     (locked_world "d/custom_write_40.csv" "kept")).1 = Raise PermissionError /\
  fs (write_csv_test (sample_env "") "d/custom_write_40.csv" 40
        (locked_world "d/custom_write_40.csv" "kept")).2 =
    fs (locked_world "d/custom_write_40.csv" "kept").
Proof.
  pose proof (write_csv_test_permission_denied (sample_env "") "d/custom_write_40.csv" 40
                (locked_world "d/custom_write_40.csv" "kept")
                (mk_File "kept" true false) eq_refl eq_refl) as (H1 & H2 & _).
  split; assumption.
Defined.

Section RaiseFacts.
Import PyStr StrFacts.

(** The division by the elapsed time is the one place a benchmark divides
    by what may be zero. *)
Lemma throughput_zero_division (n : Z) (elapsed : float) :
  throughput n elapsed = Raise ZeroDivisionError -> PrimFloat.eqb elapsed zero = true.
Proof.
  unfold throughput, PyFloat.int_truediv.
  change (1024 * 1024 =? 0) with false. cbv iota.
  destruct (n =? 0); [|destruct (SFdiv _ _ _ _)]; cbn [rbind]; try discriminate;
    unfold PyFloat.float_div; destruct (PrimFloat.eqb elapsed zero);
    (reflexivity || discriminate).
Qed.

End RaiseFacts.

(** X2. [write_csv_test] raises [ZeroDivisionError] only when the elapsed
    time, the difference of its two readings of the clock, is zero. When it
    is, the file can be opened for writing and the target is below [2^63],
    it does raise it, and only after the writing: the file is on the disk,
    whole, with at least the target's bytes. *)
Theorem write_csv_test_raises (E : Env) (filepath : Path) (size_in_bytes : Z) (w : World) :
  let run := write_csv_test E filepath size_in_bytes w in
  (run.1 = Raise ZeroDivisionError -> PrimFloat.eqb (next_elapsed E w) zero = true) /\
  (can_create (fs w) filepath -> size_in_bytes < 2 ^ 63 ->
   PrimFloat.eqb (next_elapsed E w) zero = true ->
   run.1 = Raise ZeroDivisionError /\
   exists k : nat,
     fs run.2 !! filepath =
       Some (mk_File (header +:+ records_from 0 k)
               (readable (opened_file (fs w) filepath)) true) /\
     size_in_bytes <= PyStr.len (header +:+ records_from 0 k)).
Proof.
  cbn zeta.
  destruct (can_create_dec (fs w) filepath) as [Hc | (f & Hf & Hw)].
  - destruct (write_csv_test_run E filepath size_in_bytes w Hc) as (k & Hrun & Hge & Hbelow).
    rewrite Hrun. cbn [fst snd]. split.
    + apply throughput_zero_division.
    + intros _ Hsize Hzero.
      pose proof (written_len_bound size_in_bytes k Hsize Hbelow) as Hlen. split.
      * apply throughput_zero_elapsed; assumption.
      * exists k. split; [apply written_file | exact Hge].
  - rewrite (write_csv_test_denied E filepath size_in_bytes w f Hf Hw). cbn [fst snd].
    split; [discriminate|].
    intros Hc. rewrite (Hc f Hf) in Hw. discriminate.
Qed.

Lemma write_csv_test_raises_witness :
  (write_csv_test frozen_env "d/custom_write_40.csv" 40 world0).1 = Raise ZeroDivisionError /\
  exists k : nat,
    fs (write_csv_test frozen_env "d/custom_write_40.csv" 40 world0).2
      !! ("d/custom_write_40.csv")%string =
      Some (mk_File (header +:+ records_from 0 k) true true) /\
    40 <= PyStr.len (header +:+ records_from 0 k).
Proof.
  assert (Hsize : 40 < 2 ^ 63) by reflexivity.
  assert (Hc : can_create (fs world0) "d/custom_write_40.csv").
  { intros f Hf. vm_compute in Hf. discriminate. }
  exact (proj2 (write_csv_test_raises frozen_env "d/custom_write_40.csv" 40 world0)
           Hc Hsize eq_refl).
Defined.

Section CustomFacts2.
Import PyStr StrFacts.

Lemma records_from_zero_inv (size : Z) (k : nat) :
  size <= len header ->
  (forall j : nat, (j < k)%nat -> len (header +:+ records_from 0 j) < size) ->
  k = O.
Proof.
  intros Hsmall Hbelow. destruct k as [|k]; [reflexivity|].
  specialize (Hbelow O (Nat.lt_0_succ k)). cbn [records_from] in Hbelow.
  rewrite append_nil_r in Hbelow. lia.
Qed.

End CustomFacts2.

(** X3. With a target of at most 8 bytes (zero and negative targets
    included) [write_csv_test] writes the header and no record: the file is
    the 8 bytes of "id,name" and its line end, and the value is 8 bytes' worth
    of MB over the elapsed time. *)
Theorem write_csv_test_header_only (E : Env) (filepath : Path) (size_in_bytes : Z) (w : World) :
  can_create (fs w) filepath -> size_in_bytes <= 8 ->
  let run := write_csv_test E filepath size_in_bytes w in
  fs run.2 = <[filepath := mk_File header (readable (opened_file (fs w) filepath)) true]> (fs w) /\
  trace run.2 =
    trace w ++ [EvClock; EvOpen filepath "w"; EvWrite filepath header;
                EvClose filepath; EvClock; EvStat filepath] /\
  PyStr.len header = 8 /\
  run.1 = throughput 8 (next_elapsed E w).
Proof.
  intros Hc Hsmall run. subst run.
  destruct (write_csv_test_run E filepath size_in_bytes w Hc) as (k & Hrun & Hge & Hbelow).
  assert (Hk : k = O) by (apply (records_from_zero_inv size_in_bytes); [exact Hsmall | exact Hbelow]).
  subst k. rewrite Hrun. cbn [fst snd records_from written_world write_events fs trace].
  rewrite StrFacts.append_nil_r. repeat split.
Qed.

Lemma write_csv_test_header_only_witness :
  fs (write_csv_test (sample_env "") "d/custom_write_0.csv" 0 world0).2 =
    <[("d/custom_write_0.csv")%string := mk_File header true true]> ∅.
Proof.
  assert (Hc : can_create (fs world0) "d/custom_write_0.csv").
  { intros f Hf. vm_compute in Hf. discriminate. }
  assert (Hsmall : 0 <= 8) by lia.
  exact (proj1 (write_csv_test_header_only (sample_env "") "d/custom_write_0.csv" 0 world0
                  Hc Hsmall)).
Defined.

(** X4. With a target above 8 bytes [write_csv_test] writes at least one
    record, and the file overshoots the target by less than its last record:
    without that record it would still be below the target. *)
Theorem write_csv_test_overshoot (E : Env) (filepath : Path) (size_in_bytes : Z) (w : World) :
  can_create (fs w) filepath -> 8 < size_in_bytes ->
  exists k : nat,
    fs (write_csv_test E filepath size_in_bytes w).2 !! filepath =
      Some (mk_File (header +:+ records_from 0 (S k))
              (readable (opened_file (fs w) filepath)) true) /\
    size_in_bytes <= PyStr.len (header +:+ records_from 0 (S k)) /\
    PyStr.len (header +:+ records_from 0 (S k)) <
      size_in_bytes + PyStr.len (record (Z.of_nat k)).
Proof.
  intros Hc Hbig.
  destruct (write_csv_test_run E filepath size_in_bytes w Hc) as (k & Hrun & Hge & Hbelow).
  destruct k as [|k].
  - cbn [records_from] in Hge. rewrite StrFacts.append_nil_r in Hge.
    change (PyStr.len header) with 8 in Hge. lia.
  - exists k. rewrite Hrun. cbn [snd]. split; [apply written_file|]. split; [exact Hge|].
    specialize (Hbelow k (Nat.lt_succ_diag_r k)).
    rewrite records_from_succ, <- StrFacts.append_assoc, len_append, Z.add_0_l. lia.
Qed.

Lemma write_csv_test_overshoot_witness :
  exists k : nat,
    fs (write_csv_test (sample_env "") "d/custom_write_40.csv" 40 world0).2
      !! ("d/custom_write_40.csv")%string =
      Some (mk_File (header +:+ records_from 0 (S k)) true true) /\
    40 <= PyStr.len (header +:+ records_from 0 (S k)) /\
    PyStr.len (header +:+ records_from 0 (S k)) < 40 + PyStr.len (record (Z.of_nat k)).
Proof.
  assert (Hc : can_create (fs world0) "d/custom_write_40.csv").
  { intros f Hf. vm_compute in Hf. discriminate. }
  assert (Hbig : 8 < 40) by lia.
  exact (write_csv_test_overshoot (sample_env "") "d/custom_write_40.csv" 40 world0 Hc Hbig).
Defined.

(** X5. Writing the same target to the same path a second time leaves the
    files as the first writing left them: the file is emptied and written
    anew with the same text. *)
Theorem write_csv_test_twice (E : Env) (filepath : Path) (size_in_bytes : Z) (w : World) :
  can_create (fs w) filepath ->
  let w1 := (write_csv_test E filepath size_in_bytes w).2 in
  can_create (fs w1) filepath /\
  fs (write_csv_test E filepath size_in_bytes w1).2 = fs w1.
Proof.
  intros Hc w1. subst w1.
  destruct (write_csv_test_run E filepath size_in_bytes w Hc) as (k & Hrun & Hge & Hbelow).
  rewrite Hrun. cbn [snd].
  pose proof (can_create_written filepath k w) as Hc1. split; [exact Hc1|].
  destruct (write_csv_test_run E filepath size_in_bytes (written_world filepath k w) Hc1)
    as (k' & Hrun' & Hge' & Hbelow').
  rewrite Hrun'. cbn [snd].
  assert (k' = k) by (eapply records_count_unique; eassumption). subst k'.
  unfold written_world at 1. cbn [fs]. rewrite opened_written.
  unfold written_world. cbn [fs]. apply insert_insert_eq.
Qed.

Lemma write_csv_test_twice_witness :
  let w1 := (write_csv_test (sample_env "") "d/custom_write_40.csv" 40 world0).2 in
  fs (write_csv_test (sample_env "") "d/custom_write_40.csv" 40 w1).2 = fs w1.
Proof.
  assert (Hc : can_create (fs world0) "d/custom_write_40.csv").
  { intros f Hf. vm_compute in Hf. discriminate. }
  exact (proj2 (write_csv_test_twice (sample_env "") "d/custom_write_40.csv" 40 world0 Hc)).
Defined.

Section LineFacts.
Import PyStr StrFacts.

Lemma text_lines_line (s rest : string) :
  forall_chars inline_char s = true ->
  text_lines (s +:+ nl +:+ rest) = (s +:+ nl) :: text_lines rest.
Proof.
  induction s as [|c s IH]; intros H.
  - reflexivity.
  - cbn [forall_chars] in H. apply andb_prop in H as [Hc Hs].
    unfold inline_char in Hc. apply andb_prop in Hc as [Hcr Hlf].
    apply negb_true_iff in Hcr, Hlf.
    cbn [String.append text_lines]. rewrite Hlf, Hcr, (IH Hs). reflexivity.
Qed.

Lemma digit_char_inline (n : Z) : inline_char (digit_char (n mod 10)) = true.
Proof.
  pose proof (Z.mod_pos_bound n 10 ltac:(lia)) as Hd.
  assert (Hcases : n mod 10 = 0 \/ n mod 10 = 1 \/ n mod 10 = 2 \/ n mod 10 = 3 \/
                   n mod 10 = 4 \/ n mod 10 = 5 \/ n mod 10 = 6 \/ n mod 10 = 7 \/
                   n mod 10 = 8 \/ n mod 10 = 9) by lia.
  repeat (destruct Hcases as [-> | Hcases]; [reflexivity|]).
  rewrite Hcases. reflexivity.
Qed.

Lemma digits_go_inline (fuel : nat) :
  forall (n : Z) (acc : string),
    forall_chars inline_char acc = true ->
    forall_chars inline_char (digits_go fuel n acc) = true.
Proof.
  induction fuel as [|fuel IH]; intros n acc Hacc; cbn [digits_go]; [exact Hacc|].
  assert (Hacc' : forall_chars inline_char (String (digit_char (n mod 10)) acc) = true).
  { cbn [forall_chars]. rewrite digit_char_inline, Hacc. reflexivity. }
  destruct (n <? 10); [exact Hacc' | apply IH, Hacc'].
Qed.

Lemma str_of_int_inline (i : Z) : forall_chars inline_char (str_of_int i) = true.
Proof.
  unfold str_of_int, str_of_nonneg.
  destruct (i <? 0); [cbn [forall_chars]; rewrite digits_go_inline by reflexivity|
                      apply digits_go_inline]; reflexivity.
Qed.

Lemma text_lines_record (i : Z) (rest : string) :
  text_lines (record i +:+ rest) = record i :: text_lines rest.
Proof.
  unfold record.
  replace ((str_of_int i +:+ ",sample_" +:+ str_of_int i +:+ nl) +:+ rest)
    with ((str_of_int i +:+ ",sample_" +:+ str_of_int i) +:+ nl +:+ rest)
    by (rewrite !append_assoc; reflexivity).
  rewrite text_lines_line.
  - rewrite !append_assoc. reflexivity.
  - rewrite !forall_chars_app, str_of_int_inline. reflexivity.
Qed.

Lemma text_lines_records (i : Z) (k : nat) :
  text_lines (records_from i k) = record_lines i k.
Proof.
  revert i. induction k as [|k IH]; intros i; cbn [records_from record_lines]; [reflexivity|].
  rewrite text_lines_record, IH. reflexivity.
Qed.

Lemma text_lines_written (k : nat) :
  text_lines (header +:+ records_from 0 k) = header :: record_lines 0 k.
Proof.
  unfold header. rewrite append_assoc, text_lines_line by reflexivity.
  rewrite text_lines_records. reflexivity.
Qed.

Lemma record_lines_length (i : Z) (k : nat) : length (record_lines i k) = k.
Proof.
  revert i. induction k as [|k IH]; intros i; cbn [record_lines length]; [reflexivity|].
  now rewrite IH.
Qed.

Lemma throughput_not_missing (n : Z) (elapsed : float) :
  throughput n elapsed <> Raise FileNotFoundError.
Proof.
  unfold throughput, PyFloat.int_truediv, PyFloat.float_div, rbind.
  destruct (1024 * 1024 =? 0); [discriminate|].
  destruct (n =? 0).
  - destruct (PrimFloat.eqb elapsed zero); discriminate.
  - destruct (SFdiv prec emax (PyFloat.SF_exact n) (PyFloat.SF_exact (1024 * 1024)));
      try discriminate; destruct (PrimFloat.eqb elapsed zero); discriminate.
Qed.

End LineFacts.

(** X6. The custom read after the custom write. Once [write_csv_test] has
    written its file, [read_csv_test] on the same path finds it: it never
    raises [FileNotFoundError]; and when the file can be read it reads, line
    by line, the header and then the [k] records in the order they were
    written, nothing else, and returns the size of that text in MB over its
    own elapsed time. *)
Theorem read_after_write (E : Env) (filepath : Path) (size_in_bytes : Z) (w : World) :
  can_create (fs w) filepath ->
  let w1 := (write_csv_test E filepath size_in_bytes w).2 in
  exists k : nat,
    let text := header +:+ records_from 0 k in
    fs w1 !! filepath = Some (mk_File text (readable (opened_file (fs w) filepath)) true) /\
    text_lines text = header :: record_lines 0 k /\
    length (record_lines 0 k) = k /\
    (read_csv_test E filepath w1).1 <> Raise FileNotFoundError /\
    (readable (opened_file (fs w) filepath) = true -> decodes E text = true ->
     (read_csv_test E filepath w1).1 = throughput (PyStr.len text) (next_elapsed E w1) /\
     trace (read_csv_test E filepath w1).2 =
       trace w1 ++ read_events filepath (header :: record_lines 0 k) /\
     fs (read_csv_test E filepath w1).2 = fs w1).
Proof.
  intros Hc w1. subst w1.
  destruct (write_csv_test_run E filepath size_in_bytes w Hc) as (k & Hrun & _ & _).
  rewrite Hrun. cbn [snd]. exists k. cbn zeta.
  pose proof (written_file filepath k w) as Hfile.
  split; [exact Hfile|]. split; [apply text_lines_written|].
  split; [apply record_lines_length|]. split.
  - destruct (readable (opened_file (fs w) filepath)) eqn:Hr.
    + destruct (decodes E (header +:+ records_from 0 k)) eqn:Hd.
      * rewrite (read_scanned E filepath _ _ Hfile eq_refl Hd). apply throughput_not_missing.
      * rewrite (read_undecodable E filepath _ _ Hfile eq_refl Hd). discriminate.
    + rewrite (read_denied E filepath _ _ Hfile eq_refl). discriminate.
  - intros Hr Hd. rewrite Hr in Hfile.
    rewrite (read_scanned E filepath _ _ Hfile eq_refl Hd). cbn [fst snd content trace fs].
    rewrite text_lines_written. repeat split.
Qed.

Lemma read_after_write_witness :
  let w1 := (write_csv_test (sample_env "") "d/custom_write_40.csv" 40 world0).2 in
  exists k : nat,
    trace (read_csv_test (sample_env "") "d/custom_write_40.csv" w1).2 =
      trace w1 ++ read_events "d/custom_write_40.csv" (header :: record_lines 0 k).
Proof.
  assert (Hc : can_create (fs world0) "d/custom_write_40.csv").
  { intros f Hf. vm_compute in Hf. discriminate. }
  destruct (read_after_write (sample_env "") "d/custom_write_40.csv" 40 world0 Hc)
    as (k & _ & _ & _ & _ & H).
  exists k. exact (proj1 (proj2 (H eq_refl eq_refl))).
Defined.

Section EmptyFacts.
Import PyStr StrFacts FloatFacts.

Lemma float_div_zero (y : float) :
  PyFloat.positive y = true -> PyFloat.float_div zero y = Ok zero.
Proof.
  unfold PyFloat.positive, PyFloat.float_div. intros Hp.
  rewrite FloatAxioms.ltb_spec, Prim2SF_zero in Hp.
  rewrite FloatAxioms.eqb_spec, Prim2SF_zero.
  assert (Hdiv : Prim2SF (PrimFloat.div zero y) = S754_zero false).
  { rewrite FloatAxioms.div_spec, Prim2SF_zero.
    destruct (Prim2SF y) as [s | s | | s m e]; try discriminate;
      destruct s; try discriminate; reflexivity. }
  assert (Hne : SFeqb (Prim2SF y) (S754_zero false) = false).
  { destruct (Prim2SF y) as [s | s | | s m e]; try discriminate;
      destruct s; try discriminate; reflexivity. }
  rewrite Hne. f_equal.
  rewrite <- (SF2Prim_Prim2SF (PrimFloat.div zero y)), Hdiv. reflexivity.
Qed.

End EmptyFacts.

(** X7. On an empty file that can be read [read_csv_test] reads no line and
    returns exactly 0.0, whatever positive time the scan took. *)
Theorem read_csv_test_empty_file (E : Env) (filepath : Path) (w : World) (f : File) :
  fs w !! filepath = Some f -> content f = EmptyString ->
  readable f = true -> decodes E EmptyString = true ->
  PyFloat.positive (next_elapsed E w) = true ->
  (read_csv_test E filepath w).1 = Ok zero /\
  trace (read_csv_test E filepath w).2 =
    trace w ++ [EvStat filepath; EvClock; EvOpen filepath "r"; EvClose filepath; EvClock].
Proof.
  intros Hf Hempty Hr Hd Hp. rewrite <- Hempty in Hd.
  rewrite (read_scanned E filepath w f Hf Hr Hd), Hempty. cbn [fst snd trace].
  split; [|reflexivity].
  unfold throughput. change (PyFloat.int_truediv (PyStr.len "") (1024 * 1024)) with (Ok zero).
  cbn [rbind]. apply float_div_zero, Hp.
Qed.

Lemma read_csv_test_empty_file_witness :
  (read_csv_test (sample_env "") "d/empty.csv" (world_with "d/empty.csv" "")).1 = Ok zero.
Proof.
  exact (proj1 (read_csv_test_empty_file (sample_env "") "d/empty.csv"
                  (world_with "d/empty.csv" "") (mk_File "" true true)
                  eq_refl eq_refl eq_refl eq_refl eq_refl)).
Defined.

(** ** What [run_fio_test] raises *)

Section ParseFacts.
Import PyStr StrFacts.

(** Only blanks after the marker: there is no token to take. *)
Lemma bw_value_of_blank (pre sp : string) :
  contains "BW=" pre = false -> all_space sp = true ->
  bw_value_of (pre +:+ "BW=" +:+ sp) = Raise IndexError.
Proof.
  intros Hpre Hsp. unfold bw_value_of.
  rewrite (split_on_first "B" "W=" pre sp) by (apply marker_first; assumption).
  unfold index at 1. cbn [nth_error rbind].
  assert (Hsplit : split_on "BW=" sp = [sp]).
  { unfold split_on. rewrite <- (append_nil_r sp) at 1.
    rewrite split_go_no_start.
    - cbn [split_go prepend_head]. rewrite append_nil_r. reflexivity.
    - apply no_start_chars. revert Hsp. apply forall_chars_impl, space_not_marker. }
  rewrite Hsplit. cbn [nth_error rbind].
  rewrite <- (append_nil_r sp), split_ws_blank by assumption. reflexivity.
Qed.

Lemma index_raises {A : Type} (l : list A) (i : nat) (e : exn) :
  index l i = Raise e -> e = IndexError.
Proof. unfold index. destruct (nth_error l i); [discriminate | congruence]. Qed.

Lemma float_of_str_raises (s : string) (e : exn) :
  PyFloat.float_of_str s = Raise e -> e = ValueError.
Proof.
  unfold PyFloat.float_of_str. destruct (PyFloat.float_of_string s); [discriminate | congruence].
Qed.

Lemma bw_of_line_raises (line : string) (e : exn) :
  bw_of_line line = Raise e -> e = IndexError \/ e = ValueError \/ e = UnboundLocalError.
Proof.
  unfold bw_of_line, bw_value_of.
  destruct (index (split_on "BW=" line) 1) as [after|e1] eqn:H1; cbn [rbind].
  2:{ intros H. injection H as <-. left. eapply index_raises, H1. }
  destruct (index (split_ws after) 0) as [first|e2] eqn:H2; cbn [rbind].
  2:{ intros H. injection H as <-. left. eapply index_raises, H2. }
  destruct (contains "MiB" _).
  - destruct (PyFloat.float_of_str _) as [v|e3] eqn:H3; cbn [rbind]; [discriminate|].
    intros H. injection H as <-. right. left. eapply float_of_str_raises, H3.
  - destruct (contains "MB" _); cbn [rbind].
    + destruct (PyFloat.float_of_str _) as [v|e3] eqn:H3; cbn [rbind]; [discriminate|].
      intros H. injection H as <-. right. left. eapply float_of_str_raises, H3.
    + intros H. injection H as <-. right. right. reflexivity.
Qed.

Lemma scan_lines_raises (lines : list string) (e : exn) :
  scan_lines lines = Raise e -> e = IndexError \/ e = ValueError \/ e = UnboundLocalError.
Proof.
  induction lines as [|line lines IH]; cbn [scan_lines]; [discriminate|].
  destruct (contains "BW=" line); [apply bw_of_line_raises | exact IH].
Qed.

Lemma scan_lines_raises_marker (lines : list string) (e : exn) :
  scan_lines lines = Raise e ->
  exists (before after : list string) (line : string),
    lines = before ++ line :: after /\ no_marker before /\
    contains "BW=" line = true /\ bw_of_line line = Raise e.
Proof.
  induction lines as [|l lines IH]; cbn [scan_lines]; [discriminate|].
  destruct (contains "BW=" l) eqn:Hl.
  - intros H. exists [], lines, l. split; [reflexivity|].
    split; [constructor|]. split; assumption.
  - intros H. destruct (IH H) as (before & after & line & -> & Hb & Hm & Hr).
    exists (l :: before), after, line. split; [reflexivity|].
    split; [constructor; assumption|]. split; assumption.
Qed.

End ParseFacts.

#[local] Set Warnings "-inexact-float".

(** X8. When, in the first line that holds the marker, only blanks follow
    the marker up to the end of the line, there is no value to take and
    [run_fio_test] raises [IndexError]: it does not fall back to 0.0. *)
Theorem run_fio_test_no_value (E : Env) (name : string) (filename : Path)
    (block_size : string) (io_depth : Z) (rw_mode : string) (size num_jobs : Z)
    (w : World) (before after : list string) (pre sp : string) :
  PyStr.splitlines
    (fio_stdout E (fio_argv name filename block_size io_depth rw_mode size num_jobs) w) =
    before ++ (pre +:+ "BW=" +:+ sp) :: after ->
  no_marker before ->
  PyStr.contains "BW=" pre = false ->
  all_space sp = true ->
  (run_fio_test E name filename block_size io_depth rw_mode size num_jobs w).1 =
    Raise IndexError.
Proof.
  intros Hlines Hbefore Hpre Hsp.
  rewrite run_fio_test_result. unfold parse_bandwidth. rewrite Hlines.
  rewrite scan_lines_first; [|assumption|apply marker_in_line; assumption].
  unfold bw_of_line. rewrite bw_value_of_blank by assumption. reflexivity.
Qed.

Lemma run_fio_test_no_value_witness :
  (run_fio_test (sample_env ("Starting 4 processes" +:+ nl +:+ "  write: IOPS=0, BW= "))
     "random_write" "d/rand_write_test" "4K" 64 "randwrite" 1048576 4 world0).1 =
    Raise IndexError.
Proof.
  apply (run_fio_test_no_value _ _ _ _ _ _ _ _ _
           ["Starting 4 processes"%string] [] "  write: IOPS=0, " " ");
    try reflexivity.
  repeat constructor.
Defined.

(** X9. When the value of the first line that holds the marker names one of
    the two units but what is left of it, the unit removed, is not a number
    that [float] accepts, [run_fio_test] raises [ValueError]. *)
Theorem run_fio_test_bad_number (E : Env) (name : string) (filename : Path)
    (block_size : string) (io_depth : Z) (rw_mode : string) (size num_jobs : Z)
    (w : World) (before after : list string) (line bw_value unit : string) :
  PyStr.splitlines
    (fio_stdout E (fio_argv name filename block_size io_depth rw_mode size num_jobs) w) =
    before ++ line :: after ->
  no_marker before ->
  PyStr.contains "BW=" line = true ->
  bw_value_of line = Ok bw_value ->
  (unit = "MiB"%string /\ PyStr.contains "MiB" bw_value = true \/
   unit = "MB"%string /\ PyStr.contains "MiB" bw_value = false /\
     PyStr.contains "MB" bw_value = true) ->
  PyFloat.float_of_string (PyStr.strip (PyStr.replace unit "" bw_value)) = None ->
  (run_fio_test E name filename block_size io_depth rw_mode size num_jobs w).1 =
    Raise ValueError.
Proof.
  intros Hlines Hbefore Hline Hval Hunit Hnum.
  rewrite run_fio_test_result. unfold parse_bandwidth. rewrite Hlines.
  rewrite scan_lines_first by assumption.
  unfold bw_of_line. rewrite Hval. cbn [rbind].
  destruct Hunit as [[-> HMiB] | (-> & HMiB & HMB)].
  - rewrite HMiB. unfold PyFloat.float_of_str. rewrite Hnum. reflexivity.
  - rewrite HMiB, HMB. unfold PyFloat.float_of_str. rewrite Hnum. reflexivity.
Qed.

Lemma run_fio_test_bad_number_witness :
  (run_fio_test (sample_env ("Starting 4 processes" +:+ nl +:+
                             "  write: IOPS=3, BW=1,5MiB/s (1573kB/s)"))
     "random_write" "d/rand_write_test" "4K" 64 "randwrite" 1048576 4 world0).1 =
    Raise ValueError.
Proof.
  apply (run_fio_test_bad_number _ _ _ _ _ _ _ _ _
           ["Starting 4 processes"%string] []
           "  write: IOPS=3, BW=1,5MiB/s (1573kB/s)" "1,5MiB" "MiB");
    try reflexivity.
  - repeat constructor.
  - left. split; reflexivity.
Defined.

(** X10. The parsing loop of [run_fio_test], on whatever text
    [subprocess.run] has handed it: it returns a float or raises one of
    [IndexError], [ValueError] and [UnboundLocalError], and when it raises,
    the exception comes from the first line that holds the marker; the lines
    before it hold none and the lines after it are not looked at. *)
Theorem parse_bandwidth_exceptions (output : string) :
  (exists v : float, parse_bandwidth output = Ok v) \/
  (exists (e : exn) (before after : list string) (line : string),
     parse_bandwidth output = Raise e /\
     (e = IndexError \/ e = ValueError \/ e = UnboundLocalError) /\
     PyStr.splitlines output = before ++ line :: after /\
     no_marker before /\
     PyStr.contains "BW=" line = true /\
     bw_of_line line = Raise e).
Proof.
  destruct (parse_bandwidth output) as [v|e] eqn:H; [left; exists v; reflexivity | right].
  unfold parse_bandwidth in H.
  destruct (scan_lines_raises_marker _ _ H) as (before & after & line & Hl & Hb & Hm & Hr).
  exists e, before, after, line. split; [reflexivity|].
  split; [eapply scan_lines_raises, H|]. auto.
Qed.

(** ** Edge cases of the driver *)

Section IdleFacts.
Import PyStr StrFacts.

Variable E : Env.

Lemma range_nonpositive (n : Z) : n <= 0 -> range n = [].
Proof. intros H. unfold range. replace (Z.to_nat n) with O by lia. reflexivity. Qed.

(** An outer loop of no pass that ends well leaves the results, the files
    and the two counters as they were. *)
Lemma idle_sizes_inv (test_dir : Path) (num_runs : Z) (sizes : list Z) :
  num_runs <= 0 ->
  forall (rs rs' : list row) (w w' : World),
    for_each sizes (run_size E test_dir num_runs) rs w = (Ok rs', w') ->
    rs' = rs /\ fs w' = fs w /\ ticks w' = ticks w /\ runs w' = runs w.
Proof.
  intros Hn. induction sizes as [|size sizes IH]; intros rs rs' w w' H.
  - cbn [for_each] in H. unfold ret in H. injection H as <- <-. auto.
  - apply for_each_cons_inv in H as (rs1 & w1 & Hbody & Hrest).
    unfold run_size in Hbody.
    apply bind_ok_inv in Hbody as (mb & w0 & Hmb & Hbody).
    unfold lift in Hmb. injection Hmb as Hmb <-.
    apply bind_ok_inv in Hbody as ([] & w0' & Hp & Hbody).
    rewrite print_run in Hp. injection Hp as <-.
    rewrite (range_nonpositive num_runs Hn) in Hbody. cbn [for_each] in Hbody.
    unfold ret in Hbody. injection Hbody as <- <-.
    destruct (IH _ _ _ _ Hrest) as (-> & Hfs & Ht & Hr).
    split; [reflexivity|]. auto.
Qed.

Lemma idle_run_all_inv (test_dir : Path) (sizes : list Z) (num_runs : Z) (w w' : World)
    (results : list row) :
  sizes = [] \/ num_runs <= 0 ->
  run_all E test_dir sizes num_runs w = (Ok results, w') ->
  results = [] /\ fs w' = fs w /\ ticks w' = ticks w /\ runs w' = runs w.
Proof.
  intros Hidle H. unfold run_all in H.
  apply bind_ok_inv in H as ([] & w0 & Hm & H).
  unfold mkdir, emit in Hm. injection Hm as <-.
  destruct Hidle as [-> | Hn].
  - cbn [for_each] in H. unfold ret in H. injection H as <- <-. auto.
  - apply (idle_sizes_inv test_dir num_runs sizes Hn) in H as (-> & Hfs & Ht & Hr). auto.
Qed.

End IdleFacts.

(** X11. With nothing to run, an empty list of sizes or a number of runs of
    zero or less, whenever the loops end well and the results file can be
    opened for writing, [run_benchmarks] ends well: no result was collected,
    the results file is written and holds the header line and no row, no
    child process was launched and the clock was not read. *)
Theorem run_benchmarks_nothing_to_run (E : Env) (test_dir : Path) (sizes : list Z)
    (num_runs : Z) (results_file : Path) (w : World) (results : list row) :
  sizes = [] \/ num_runs <= 0 ->
  (run_all E test_dir sizes num_runs w).1 = Ok results ->
  can_create (fs w) results_file ->
  let run := run_benchmarks E test_dir sizes num_runs results_file w in
  results = [] /\
  run.1 = Ok tt /\
  fs run.2 =
    <[results_file := mk_File header_line
                        (readable (opened_file (fs w) results_file)) true]> (fs w) /\
  runs run.2 = runs w /\
  ticks run.2 = ticks w.
Proof.
  intros Hidle Hok Hc. cbn zeta. unfold run_benchmarks, bind.
  destruct (run_all E test_dir sizes num_runs w) as [r w'] eqn:Hrun.
  cbn [fst] in Hok. subst r.
  destruct (idle_run_all_inv E test_dir sizes num_runs w w' results Hidle Hrun)
    as (-> & Hfs & Ht & Hr).
  assert (Hc' : can_create (fs w') results_file) by (rewrite Hfs; exact Hc).
  rewrite (save_results_run E [] results_file w' Hc'). cbn [fst snd fs runs ticks].
  rewrite Hfs, Ht, Hr. repeat split.
Qed.

Lemma run_benchmarks_nothing_to_run_witness :
  (run_benchmarks (sample_env "") "d" [1048576; -5] 0 "d/benchmark_results.csv" world0).1 =
    Ok tt /\
  fs (run_benchmarks (sample_env "") "d" [1048576; -5] 0 "d/benchmark_results.csv" world0).2 =
    <[("d/benchmark_results.csv")%string := mk_File header_line true true]> ∅.
Proof.
  assert (Hidle : [1048576; -5] = [] \/ 0 <= 0) by (right; lia).
  assert (Hok : (run_all (sample_env "") "d" [1048576; -5] 0 world0).1 = Ok [])
    by (vm_compute; reflexivity).
  assert (Hc : can_create (fs world0) "d/benchmark_results.csv").
  { intros f Hf. vm_compute in Hf. discriminate. }
  destruct (run_benchmarks_nothing_to_run (sample_env "") "d" [1048576; -5] 0
              "d/benchmark_results.csv" world0 [] Hidle Hok Hc) as (_ & H1 & H2 & _).
  split; [exact H1 | exact H2].
Defined.

Section CountFacts.

Variable E : Env.

Lemma count_app (P : event -> bool) (a b : list event) :
  count_events P (a ++ b) = (count_events P a + count_events P b)%nat.
Proof. unfold count_events. rewrite List.filter_app, length_app. reflexivity. Qed.

Lemma count_write_events (P : event -> bool) (p : Path) (i : Z) (k : nat) :
  (forall s, P (EvWrite p s) = false) -> count_events P (write_events p i k) = O.
Proof.
  intros HP. revert i. induction k as [|k IH]; intros i; [reflexivity|].
  cbn [write_events]. unfold count_events in *. cbn [List.filter]. rewrite HP. apply IH.
Qed.

Lemma count_read_lines (P : event -> bool) (p : Path) (lines : list string) :
  (forall s, P (EvReadLine p s) = false) -> count_events P (map (EvReadLine p) lines) = O.
Proof.
  intros HP. induction lines as [|l lines IH]; [reflexivity|].
  cbn [map]. unfold count_events in *. cbn [List.filter]. rewrite HP. apply IH.
Qed.

Lemma count_once (test_dir : Path) (size num_runs run : Z) (v1 v2 v3 v4 v5 v6 : float)
    (k : nat) :
  count_events is_run_event (once_events E test_dir size num_runs run v1 v2 v3 v4 v5 v6 k) = 4%nat /\
  count_events is_clock_event (once_events E test_dir size num_runs run v1 v2 v3 v4 v5 v6 k) = 4%nat.
Proof.
  unfold once_events, read_events.
  rewrite !count_app, !count_write_events, !count_read_lines by reflexivity.
  split; reflexivity.
Qed.

Lemma count_inner (test_dir : Path) (size : Z) (size_mb : float) (num_runs : Z)
    (passes : list Z) (rows : list row) (evs : list event) :
  inner_loop E test_dir size size_mb num_runs passes rows evs ->
  count_events is_run_event evs = (4 * length passes)%nat /\
  count_events is_clock_event evs = (4 * length passes)%nat.
Proof.
  induction 1 as [|run passes v1 v2 v3 v4 v5 v6 k rows evs _ [IH1 IH2]].
  - split; reflexivity.
  - rewrite !count_app, IH1, IH2.
    destruct (count_once test_dir size num_runs run v1 v2 v3 v4 v5 v6 k) as [-> ->].
    cbn [length]. lia.
Qed.

Lemma count_outer (test_dir : Path) (num_runs : Z) (sizes : list Z)
    (rows : list row) (evs : list event) :
  outer_loop E test_dir num_runs sizes rows evs ->
  count_events is_run_event evs = (4 * Z.to_nat num_runs * length sizes)%nat /\
  count_events is_clock_event evs = (4 * Z.to_nat num_runs * length sizes)%nat.
Proof.
  induction 1 as [|size sizes size_mb rows1 rows evs1 evs Hmb Hin _ [IH1 IH2]].
  - split; cbn; lia.
  - destruct (count_inner _ _ _ _ _ _ _ Hin) as [H1 H2]. rewrite range_length in H1, H2.
    change (EvPrint ?s :: evs1 ++ evs) with ([EvPrint s] ++ evs1 ++ evs).
    rewrite !count_app, IH1, IH2, H1, H2. cbn [length].
    change (count_events is_run_event [EvPrint _]) with O.
    change (count_events is_clock_event [EvPrint _]) with O. lia.
Qed.

End CountFacts.

(** X12. A run of the loops that ends well has launched exactly four child
    processes and read the clock exactly four times for every pass, that is
    [4 * num_runs * len(sizes)] of each in all. *)
Theorem run_all_launches (E : Env) (test_dir : Path) (sizes : list Z) (num_runs : Z)
    (w : World) (results : list row) :
  (run_all E test_dir sizes num_runs w).1 = Ok results ->
  exists evs : list event,
    trace (run_all E test_dir sizes num_runs w).2 = trace w ++ evs /\
    count_events is_run_event evs = (4 * Z.to_nat num_runs * length sizes)%nat /\
    count_events is_clock_event evs = (4 * Z.to_nat num_runs * length sizes)%nat.
Proof.
  intros H.
  destruct (run_all E test_dir sizes num_runs w) as [r w'] eqn:Hrun. cbn [fst snd] in *.
  subst r. apply run_all_inv in Hrun as (evs & Hout & Htr).
  exists (EvMkdir test_dir :: evs). split; [exact Htr|].
  destruct (count_outer E _ _ _ _ _ Hout) as [H1 H2].
  change (EvMkdir test_dir :: evs) with ([EvMkdir test_dir] ++ evs).
  rewrite !count_app, H1, H2. split; reflexivity.
Qed.

Lemma run_all_launches_witness :
  exists evs : list event,
    trace (run_all (sample_env "BW=12.3MiB/s") "d" [40; 80] 2 world0).2 = evs /\
    count_events is_run_event evs = 16%nat /\
    count_events is_clock_event evs = 16%nat.
Proof.
  destruct (run_all (sample_env "BW=12.3MiB/s") "d" [40; 80] 2 world0).1 as [results|e] eqn:H.
  - destruct (run_all_launches (sample_env "BW=12.3MiB/s") "d" [40; 80] 2 world0 results H)
      as (evs & Htr & Hruns & Hclock).
    exists evs. split; [exact Htr|]. split; [exact Hruns | exact Hclock].
  - vm_compute in H. discriminate.
Defined.

(** X13. When the results file is there and may not be written,
    [save_results_to_csv] raises [PermissionError] at the opening and writes
    no row. [run_benchmarks] only opens the file after the loops: the tests
    have all run by then, and their results are lost. *)
Theorem save_results_permission_denied (E : Env) (test_dir : Path) (sizes : list Z)
    (num_runs : Z) (results_file : Path) (results : list row) (w : World) (f : File) :
  fs w !! results_file = Some f -> writable f = false ->
  save_results_to_csv E results results_file w =
    (Raise PermissionError, log (EvOpen results_file "w") w) /\
  (forall w0 : World,
     run_all E test_dir sizes num_runs w0 = (Ok results, w) ->
     run_benchmarks E test_dir sizes num_runs results_file w0 =
       (Raise PermissionError, log (EvOpen results_file "w") w)).
Proof.
  intros Hf Hw.
  assert (Hsave : save_results_to_csv E results results_file w =
                  (Raise PermissionError, log (EvOpen results_file "w") w)).
  { unfold save_results_to_csv, bind. rewrite (open_w_denied _ _ f Hf Hw). reflexivity. }
  split; [exact Hsave|].
  intros w0 Hrun. unfold run_benchmarks, bind. rewrite Hrun. exact Hsave.
Qed.

Lemma save_results_permission_denied_witness :
  save_results_to_csv (sample_env "") [("Sequential Write"%string, 1%float, 1, 0%float)]
    "d/benchmark_results.csv" (locked_world "d/benchmark_results.csv" "old") =
    (Raise PermissionError,
     log (EvOpen "d/benchmark_results.csv" "w") (locked_world "d/benchmark_results.csv" "old")).
Proof.
  exact (proj1 (save_results_permission_denied (sample_env "") "d" [40] 1
                  "d/benchmark_results.csv" [("Sequential Write"%string, 1%float, 1, 0%float)]
                  (locked_world "d/benchmark_results.csv" "old")
                  (mk_File "old" true false) eq_refl eq_refl)).
Defined.

(** ** The rows of the results file *)

Section CsvFacts.
Import PyStr StrFacts.

Lemma has_special_chars (s : string) :
  has_special s = false -> forall_chars (fun c => negb (csv_special c)) s = true.
Proof.
  induction s as [|c s IH]; cbn [has_special forall_chars]; [reflexivity|].
  intros H. apply orb_false_iff in H as [Hc Hs]. rewrite Hc, (IH Hs). reflexivity.
Qed.

Lemma plain_no_comma (s : string) :
  has_special s = false -> forall_chars (first_char_differs ",") s = true.
Proof.
  intros H. apply has_special_chars in H. revert H. apply forall_chars_impl.
  intros c Hc. cbn [first_char_differs]. unfold csv_special in Hc.
  rewrite !negb_orb in Hc. apply andb_prop in Hc as [Hc _]. apply andb_prop in Hc as [Hc _].
  apply andb_prop in Hc as [Hc _]. rewrite Ascii.eqb_sym. exact Hc.
Qed.

Lemma csv_field_plain (s : string) : has_special s = false -> csv_field s = s.
Proof. intros H. unfold csv_field. rewrite H. reflexivity. Qed.

Lemma split_comma_last (t : string) :
  has_special t = false -> split_on "," t = [t].
Proof.
  intros H. unfold split_on. rewrite <- (append_nil_r t) at 1.
  rewrite split_go_no_start by (apply no_start_chars, plain_no_comma, H).
  cbn [split_go prepend_head]. rewrite append_nil_r. reflexivity.
Qed.

Lemma split_comma_first (t rest : string) :
  has_special t = false -> split_on "," (t +:+ "," +:+ rest) = t :: split_on "," rest.
Proof.
  intros H. apply (split_on_first "," EmptyString).
  apply no_start_chars, plain_no_comma, H.
Qed.

Lemma digit_char_plain (n : Z) : csv_special (digit_char (n mod 10)) = false.
Proof.
  pose proof (Z.mod_pos_bound n 10 ltac:(lia)) as Hd.
  assert (Hcases : n mod 10 = 0 \/ n mod 10 = 1 \/ n mod 10 = 2 \/ n mod 10 = 3 \/
                   n mod 10 = 4 \/ n mod 10 = 5 \/ n mod 10 = 6 \/ n mod 10 = 7 \/
                   n mod 10 = 8 \/ n mod 10 = 9) by lia.
  repeat (destruct Hcases as [-> | Hcases]; [reflexivity|]).
  rewrite Hcases. reflexivity.
Qed.

Lemma digits_go_plain (fuel : nat) :
  forall (n : Z) (acc : string),
    has_special acc = false -> has_special (digits_go fuel n acc) = false.
Proof.
  induction fuel as [|fuel IH]; intros n acc Hacc; cbn [digits_go]; [exact Hacc|].
  assert (Hacc' : has_special (String (digit_char (n mod 10)) acc) = false).
  { cbn [has_special]. rewrite digit_char_plain, Hacc. reflexivity. }
  destruct (n <? 10); [exact Hacc' | apply IH, Hacc'].
Qed.

Lemma str_of_int_plain (i : Z) : has_special (str_of_int i) = false.
Proof.
  unfold str_of_int, str_of_nonneg.
  destruct (i <? 0); [cbn [has_special]; rewrite digits_go_plain by reflexivity|
                      apply digits_go_plain]; reflexivity.
Qed.

End CsvFacts.

(** X14. A row of the results file can be read back by cutting its line at
    the commas. When the name of the test is one of the six and the two
    floats are formatted without a comma, a quote or a line end, the writer
    quotes nothing: the line is the four fields joined by commas, closed by
    CR LF, and splitting it at the commas gives the four fields back. *)
Theorem csv_row_round_trip (E : Env) (name : string) (size_mb : float) (run : Z)
    (value : float) :
  In name test_names ->
  has_special (float_repr E size_mb) = false ->
  has_special (float_repr E value) = false ->
  let fields := row_fields E (name, size_mb, run, value) in
  csv_line fields =
    name +:+ "," +:+ float_repr E size_mb +:+ "," +:+ PyStr.str_of_int run +:+ "," +:+
    float_repr E value +:+ crlf /\
  PyStr.split_on "," (join "," fields) = fields.
Proof.
  intros Hname Hsize Hvalue. cbn zeta.
  assert (Hn : has_special name = false).
  { cbn [In test_names] in Hname.
    repeat (destruct Hname as [<- | Hname]; [reflexivity|]). contradiction. }
  pose proof (str_of_int_plain run) as Hrun.
  unfold csv_line, row_fields. cbn [map join].
  rewrite !csv_field_plain by assumption. split.
  - rewrite !StrFacts.append_assoc. reflexivity.
  - rewrite split_comma_first by assumption.
    rewrite split_comma_first by assumption.
    rewrite split_comma_first by assumption.
    rewrite split_comma_last by assumption. reflexivity.
Qed.

Lemma csv_row_round_trip_witness :
  PyStr.split_on ","
    (join "," (row_fields (sample_env "") ("Random Read"%string, 1%float, 2, 0%float))) =
    row_fields (sample_env "") ("Random Read"%string, 1%float, 2, 0%float).
Proof.
  assert (Hname : In "Random Read"%string test_names).
  { cbn [In test_names]. do 3 right. left. reflexivity. }
  exact (proj2 (csv_row_round_trip (sample_env "") "Random Read" 1%float 2 0%float
                  Hname eq_refl eq_refl)).
Defined.

(** ** The check for [fio] *)

#[local] Set Warnings "-clear-no-such-hyp".

Section CheckFacts.

Variable H : Host.

(** The world after the version check, and after the installation. *)
Lemma version_check_run (w : World) :
  subprocess_run_check H fio_version_argv w =
    (version_check H w,
     mk_World (spawn H (runs w) fio_version_argv (fs w)).2 (ticks w) (S (runs w))
       (trace w ++ [EvRun fio_version_argv])).
Proof.
  unfold subprocess_run_check, version_check.
  destruct (spawn H (runs w) fio_version_argv (fs w)) as [r files]. reflexivity.
Qed.

Lemma install_fio_run (w : World) :
  let r := (spawn H (runs w) apt_install_argv (fs w)).1 in
  let w' := mk_World (spawn H (runs w) apt_install_argv (fs w)).2 (ticks w) (S (runs w))
              (trace w ++ [EvPrint msg_attempt; EvRun apt_install_argv]) in
  install_fio H w =
    match r with
    | Exited returncode =>
        if returncode =? 0 then (Return true, log (EvPrint msg_installed) w')
        else (Return false, log (EvPrint msg_failed) w')
    | NotStarted e => (Uncaught (Builtin e), w')
    end.
Proof.
  cbn zeta. unfold install_fio, sbind, of_M, print, emit, subprocess_run_check, log, sret.
  cbn [fs ticks runs trace].
  destruct (spawn H (runs w) apt_install_argv (fs w)) as [r files]. cbn [fst snd].
  rewrite <- app_assoc. cbn [app].
  destruct r as [c|e]; [destruct (c =? 0)|]; reflexivity.
Qed.

Lemma install_fio_no_exit (w : World) (code : Z) : (install_fio H w).1 <> SysExit code.
Proof.
  rewrite install_fio_run.
  destruct (spawn H (runs w) apt_install_argv (fs w)).1 as [c | e];
    [destruct (c =? 0)|]; discriminate.
Qed.

Lemma check_fio_installed_no_exit (w : World) (code : Z) :
  (check_fio_installed H w).1 <> SysExit code.
Proof.
  unfold check_fio_installed. rewrite version_check_run.
  destruct (version_check H w) as [c | e].
  - destruct (c =? 0); [discriminate | apply install_fio_no_exit].
  - destruct e; try discriminate. apply install_fio_no_exit.
Qed.

End CheckFacts.

(** X15. What [check_fio_installed] answers. It returns [True] exactly when
    the version check exits with status 0, or fails in a way the function
    catches (a non-zero status, or no such program) and the installation then
    exits with status 0; it returns [False] exactly when the installation
    exits with another status. It never exits the process, and the only
    exceptions that escape it are those of a command that could not be
    started: any but [FileNotFoundError] for the version check, any at all
    for the installation. *)
Theorem check_fio_installed_result (H : Host) (w : World) :
  let r := (check_fio_installed H w).1 in
  let first := version_check H w in
  let second := installation H w in
  (r = Return true <->
     first = Exited 0 \/ (install_needed first = true /\ second = Exited 0)) /\
  (r = Return false <->
     install_needed first = true /\
     exists returncode : Z, second = Exited returncode /\ returncode <> 0) /\
  (forall e : py_exn,
     r = Uncaught e <->
     exists e' : exn,
       e = Builtin e' /\
       (first = NotStarted e' /\ e' <> FileNotFoundError \/
        install_needed first = true /\ second = NotStarted e')) /\
  (forall code : Z, r <> SysExit code).
Proof.
  cbn zeta. unfold check_fio_installed. rewrite version_check_run.
  unfold installation.
  set (w1 := mk_World (spawn H (runs w) fio_version_argv (fs w)).2 (ticks w) (S (runs w))
               (trace w ++ [EvRun fio_version_argv])).
  pose proof (install_fio_run H w1) as Hi. cbn zeta in Hi.
  change (fs w1) with (spawn H (runs w) fio_version_argv (fs w)).2 in Hi.
  change (runs w1) with (S (runs w)) in Hi.
  destruct (version_check H w) as [c | e1] eqn:Hfirst.
  - (* the version check ran *)
    cbn [install_needed]. destruct (c =? 0) eqn:Hc.
    + apply Z.eqb_eq in Hc. subst c. cbn [fst negb]. naive_solver.
    + cbn [negb]. rewrite Hi. apply Z.eqb_neq in Hc.
      destruct (spawn H (S (runs w)) apt_install_argv _).1 as [c2 | e2].
      * destruct (c2 =? 0) eqn:Hc2; cbn [fst].
        -- apply Z.eqb_eq in Hc2. subst c2. naive_solver.
        -- apply Z.eqb_neq in Hc2. naive_solver.
      * cbn [fst]. naive_solver.
  - (* the version check could not be started *)
    assert (Hcases : e1 = FileNotFoundError \/ e1 <> FileNotFoundError).
    { destruct e1; (left; reflexivity) || (right; discriminate). }
    destruct Hcases as [-> | Hne].
    + cbn [install_needed]. rewrite Hi.
      destruct (spawn H (S (runs w)) apt_install_argv _).1 as [c2 | e2].
      * destruct (c2 =? 0) eqn:Hc2; cbn [fst].
        -- apply Z.eqb_eq in Hc2. subst c2. naive_solver.
        -- apply Z.eqb_neq in Hc2. naive_solver.
      * cbn [fst]. naive_solver.
    + assert (Hr : (match e1 with
                    | FileNotFoundError => install_fio H w1
                    | _ => (Uncaught (Builtin e1), w1)
                    end).1 = Uncaught (Builtin e1)).
      { destruct e1; try reflexivity. contradiction. }
      assert (Hn : install_needed (NotStarted e1) = false).
      { destruct e1; try reflexivity. contradiction. }
      rewrite Hr, Hn. naive_solver.
Qed.

(** X16. What [check_fio_installed] does. It starts one command when the
    version check needs no installation and two when it does: the version
    check is not run again after the installation, and the installation is
    tried once. It prints nothing in the first case, and in the second the
    line that announces the attempt and the line that tells how it ended.
    It never reads the clock. *)
Theorem check_fio_installed_effects (H : Host) (w : World) :
  let run := check_fio_installed H w in
  let first := version_check H w in
  let second := installation H w in
  ticks run.2 = ticks w /\
  (install_needed first = false ->
   runs run.2 = S (runs w) /\
   trace run.2 = trace w ++ [EvRun fio_version_argv]) /\
  (install_needed first = true ->
   runs run.2 = S (S (runs w)) /\
   trace run.2 =
     trace w ++ [EvRun fio_version_argv; EvPrint msg_attempt; EvRun apt_install_argv] ++
     match second with
     | Exited returncode => [EvPrint (if returncode =? 0 then msg_installed else msg_failed)]
     | NotStarted _ => []
     end).
Proof.
  cbn zeta. unfold check_fio_installed. rewrite version_check_run.
  unfold installation.
  set (w1 := mk_World (spawn H (runs w) fio_version_argv (fs w)).2 (ticks w) (S (runs w))
               (trace w ++ [EvRun fio_version_argv])).
  pose proof (install_fio_run H w1) as Hi. cbn zeta in Hi.
  change (fs w1) with (spawn H (runs w) fio_version_argv (fs w)).2 in Hi.
  change (runs w1) with (S (runs w)) in Hi.
  change (ticks w1) with (ticks w) in Hi.
  change (trace w1) with (trace w ++ [EvRun fio_version_argv]) in Hi.
  assert (Hinstall :
    ticks (install_fio H w1).2 = ticks w /\
    runs (install_fio H w1).2 = S (S (runs w)) /\
    trace (install_fio H w1).2 =
      trace w ++ [EvRun fio_version_argv; EvPrint msg_attempt; EvRun apt_install_argv] ++
      match (spawn H (S (runs w)) apt_install_argv
               (spawn H (runs w) fio_version_argv (fs w)).2).1 with
      | Exited returncode => [EvPrint (if returncode =? 0 then msg_installed else msg_failed)]
      | NotStarted _ => []
      end).
  { rewrite Hi.
    destruct (spawn H (S (runs w)) apt_install_argv _).1 as [c2 | e2];
      [destruct (c2 =? 0)|]; cbn [snd log ticks runs trace];
      rewrite <- ?app_assoc; cbn [app]; rewrite ?app_nil_r; auto. }
  destruct Hinstall as (Ht & Hr & Htr).
  destruct (version_check H w) as [c | e1]; cbn [install_needed].
  - destruct (c =? 0); cbn [negb snd].
    + split; [reflexivity|]. split; [intros _; split; reflexivity | discriminate].
    + split; [exact Ht|]. split; [discriminate | intros _; split; assumption].
  - destruct e1; cbn [snd];
      first [ split; [exact Ht|]; split; [discriminate | intros _; split; assumption]
            | split; [reflexivity|]; split; [intros _; split; reflexivity | discriminate] ].
Qed.

(** ** The main block *)

Section PathFacts.
Import PyStr StrFacts.

Lemma split_slash_plain (seg : string) : no_slash seg = true -> split_on "/" seg = [seg].
Proof.
  intros H. unfold split_on. rewrite <- (append_nil_r seg) at 1.
  rewrite split_go_no_start by (apply no_start_chars, H).
  cbn [split_go prepend_head]. rewrite append_nil_r. reflexivity.
Qed.

(** A segment without a slash that is neither empty nor "." is one
    component. *)
Lemma path_div_plain (d : Path) (seg : string) :
  no_slash seg = true -> kept_component seg = true -> path_div d seg = child d seg.
Proof.
  intros Hs Hk. unfold path_div. rewrite split_slash_plain by exact Hs.
  cbn [List.filter]. rewrite Hk. reflexivity.
Qed.

Lemma append_not_empty (a b : string) : b <> EmptyString -> a +:+ b <> EmptyString.
Proof. destruct a; [auto | discriminate]. Qed.

Lemma child_not_root (d : Path) (seg : string) :
  seg <> EmptyString -> String.eqb (child d seg) "/" = false.
Proof.
  intros Hseg. unfold child, joinpath. apply String.eqb_neq.
  destruct (String.eqb d "/").
  - destruct seg; [contradiction | discriminate].
  - destruct d as [|c d]; cbn [String.append].
    + destruct seg; [contradiction | discriminate].
    + intros Heq. injection Heq as _ Heq.
      revert Heq. apply append_not_empty. discriminate.
Qed.

Lemma results_file_path (d : Path) (seg : string) :
  seg <> EmptyString ->
  path_div (child d seg) "benchmark_results.csv" =
    joinpath (child d seg) "benchmark_results.csv".
Proof.
  intros Hseg. rewrite path_div_plain by reflexivity.
  unfold child at 1. rewrite child_not_root by exact Hseg. reflexivity.
Qed.

End PathFacts.

Section ConfigureFacts.

Variable H : Host.

Lemma comprehension_ints (l : list Z) :
  comprehension times_mb (map PyInt l) = Return (map (fun n => PyInt (n * 1024 ^ 2)) l).
Proof.
  induction l as [|n l IH]; cbn [map comprehension times_mb]; [reflexivity|].
  rewrite IH. reflexivity.
Qed.

Lemma ints_of_ints (l : list Z) : ints_of (map PyInt l) = Some l.
Proof.
  induction l as [|n l IH]; cbn [map ints_of int_of]; [reflexivity|].
  rewrite IH. reflexivity.
Qed.

Lemma times_mb_no_exit (v : pyval) (code : Z) : times_mb v <> SysExit code.
Proof. destruct v; discriminate. Qed.

Lemma comprehension_no_exit (items : list pyval) :
  forall code : Z, comprehension times_mb items <> SysExit code.
Proof.
  induction items as [|x items IH]; intros code; cbn [comprehension]; [discriminate|].
  pose proof (times_mb_no_exit x) as Hx.
  destruct (times_mb x) as [y | c | e]; [|exfalso; exact (Hx c eq_refl)|discriminate].
  destruct (comprehension times_mb items) as [ys | c | e];
    [discriminate | exfalso; exact (IH c eq_refl) | discriminate].
Qed.

Lemma iterate_no_exit (v : pyval) (code : Z) : iterate v <> SysExit code.
Proof. destruct v; discriminate. Qed.

Lemma subscript_no_exit (config : pyval) (k : string) (code : Z) :
  subscript config k <> SysExit code.
Proof.
  unfold subscript. destruct config; try discriminate.
  destruct (lookup_key k entries); discriminate.
Qed.

(** Without a usable "test_hw" the block prints its line and exits. *)
Lemma configure_no_hw (entries : list (pyval * pyval)) (w : World) :
  no_test_hw entries = true ->
  configure H (PyDict entries) w = (SysExit 1, log (EvPrint msg_no_hw) w).
Proof.
  unfold no_test_hw, configure, sbind, dict_get. intros Hno.
  destruct (lookup_key "test_hw" entries) as [v|].
  - rewrite Hno. reflexivity.
  - reflexivity.
Qed.

(** With one, it goes on to the two other keys, in that order. *)
Lemma configure_hw (entries : list (pyval * pyval)) (w : World) (hw : pyval) :
  lookup_key "test_hw" entries = Some hw -> truthy hw = true ->
  configure H (PyDict entries) w =
    (match subscript (PyDict entries) "test_data_sizes_mB" with
     | Return TEST_SIZES_MB =>
         match match iterate TEST_SIZES_MB with
               | Return items => comprehension times_mb items
               | SysExit code => SysExit code
               | Uncaught e => Uncaught e
               end with
         | Return TEST_SIZES =>
             match subscript (PyDict entries) "num_runs" with
             | Return NUM_RUNS =>
                 Return (mk_call
                           (path_div (script_dir H) ("hw_benchmark_results_" +:+ py_str H hw))
                           TEST_SIZES NUM_RUNS
                           (path_div
                              (path_div (script_dir H)
                                 ("hw_benchmark_results_" +:+ py_str H hw))
                              "benchmark_results.csv"))
             | SysExit code => SysExit code
             | Uncaught e => Uncaught e
             end
         | SysExit code => SysExit code
         | Uncaught e => Uncaught e
         end
     | SysExit code => SysExit code
     | Uncaught e => Uncaught e
     end, w).
Proof.
  intros Hhw Ht. unfold configure, sbind, dict_get. rewrite Hhw, Ht. cbn [negb when sret].
  destruct (subscript (PyDict entries) "test_data_sizes_mB") as [v | c | e]; try reflexivity.
  destruct (match iterate v with
            | Return items => comprehension times_mb items
            | SysExit code => SysExit code
            | Uncaught e => Uncaught e
            end) as [sizes | c | e]; try reflexivity.
  destruct (subscript (PyDict entries) "num_runs") as [n | c | e]; reflexivity.
Qed.

Lemma no_test_hw_false (entries : list (pyval * pyval)) :
  no_test_hw entries = false ->
  exists hw : pyval, lookup_key "test_hw" entries = Some hw /\ truthy hw = true.
Proof.
  unfold no_test_hw. destruct (lookup_key "test_hw" entries) as [v|]; [|discriminate].
  intros Hv. exists v. split; [reflexivity|]. now apply negb_false_iff.
Qed.

(** [configure] exits only for want of a "test_hw", and then with status 1. *)
Lemma configure_exit (config : pyval) (w : World) (code : Z) :
  (configure H config w).1 = SysExit code ->
  code = 1 /\ exists entries, config = PyDict entries /\ no_test_hw entries = true.
Proof.
  destruct config as [| b | n | x | s | items | entries];
    try (unfold configure, sbind, dict_get; discriminate).
  destruct (no_test_hw entries) eqn:Hno.
  - rewrite configure_no_hw by exact Hno. cbn [fst]. intros Heq. injection Heq as <-.
    split; [reflexivity|]. exists entries. auto.
  - destruct (no_test_hw_false entries Hno) as (hw & Hhw & Ht).
    rewrite (configure_hw entries w hw Hhw Ht). cbn [fst]. intros Heq. exfalso.
    pose proof (subscript_no_exit (PyDict entries) "test_data_sizes_mB") as H1.
    destruct (subscript (PyDict entries) "test_data_sizes_mB") as [v | c | e];
      [| exact (H1 c eq_refl) | discriminate].
    pose proof (iterate_no_exit v) as H2.
    destruct (iterate v) as [its | c | e]; [| exact (H2 c eq_refl) | discriminate].
    pose proof (comprehension_no_exit its) as H3.
    destruct (comprehension times_mb its) as [sizes | c | e];
      [| exact (H3 c eq_refl) | discriminate].
    pose proof (subscript_no_exit (PyDict entries) "num_runs") as H4.
    destruct (subscript (PyDict entries) "num_runs") as [n | c | e];
      [discriminate | exact (H4 c eq_refl) | discriminate].
Qed.

End ConfigureFacts.

Section MainFacts.

Variable H : Host.

Lemma main_not_linux (w : World) :
  String.eqb (platform_system H) "Linux" = false ->
  main H w = (SysExit 1, log (EvPrint msg_not_linux) w).
Proof. intros Hsys. unfold main, sbind. rewrite Hsys. reflexivity. Qed.

Lemma main_linux (w : World) :
  String.eqb (platform_system H) "Linux" = true ->
  main H w =
    match check_fio_installed H w with
    | (Return true, w1) => sbind (load_config H (config_path H)) (configure H) w1
    | (Return false, w1) => (SysExit 1, w1)
    | (SysExit code, w1) => (SysExit code, w1)
    | (Uncaught e, w1) => (Uncaught e, w1)
    end.
Proof.
  intros Hsys. unfold main. unfold sbind at 1. rewrite Hsys. cbn [negb when sret].
  unfold sbind at 1.
  destruct (check_fio_installed H w) as [[[|] | code | e] w1]; reflexivity.
Qed.

Lemma load_config_run (p : Path) (w : World) :
  load_config H p w =
    match fs w !! p with
    | Some f =>
        if readable f then
          match safe_load H (content f) with
          | Loaded config => (Return config, close p (log (EvOpen p "r") w))
          | LoadError e => (Uncaught e, close p (log (EvOpen p "r") w))
          end
        else (Uncaught (Builtin PermissionError), log (EvOpen p "r") w)
    | None => (Uncaught (Builtin FileNotFoundError), log (EvOpen p "r") w)
    end.
Proof.
  unfold load_config, open_r.
  destruct (fs w !! p) as [f|]; [destruct (readable f)|]; reflexivity.
Qed.

Lemma load_config_no_exit (p : Path) (w : World) (code : Z) :
  (load_config H p w).1 <> SysExit code.
Proof.
  rewrite load_config_run.
  destruct (fs w !! p) as [f|]; [destruct (readable f)|]; try discriminate.
  destruct (safe_load H (content f)); discriminate.
Qed.

End MainFacts.

(** X17. The two early exits of the main block. On a system that is not
    Linux it prints its error line and exits with status 1 before anything
    else: no command is started. On Linux, when [check_fio_installed] answers
    [False], it exits with status 1 at once, leaving the world as the check
    left it. In both cases the configuration file is not opened. *)
Theorem main_early_exit (H : Host) (w : World) :
  (String.eqb (platform_system H) "Linux" = false ->
   main H w = (SysExit 1, log (EvPrint msg_not_linux) w)) /\
  (String.eqb (platform_system H) "Linux" = true ->
   (check_fio_installed H w).1 = Return false ->
   main H w = (SysExit 1, (check_fio_installed H w).2)).
Proof.
  split; [apply main_not_linux|].
  intros Hsys Hcheck. rewrite main_linux by exact Hsys.
  destruct (check_fio_installed H w) as [r w1]. cbn [fst snd] in *. subst r. reflexivity.
Qed.

Lemma main_early_exit_witness :
  main (sample_host "Darwin" (Exited 0) (Exited 0) (Loaded sample_config)) world0 =
    (SysExit 1, log (EvPrint msg_not_linux) world0) /\
  (main (sample_host "Linux" (NotStarted FileNotFoundError) (Exited 100)
           (Loaded sample_config)) world0).1 = SysExit 1.
Proof.
  split.
  - exact (proj1 (main_early_exit
                    (sample_host "Darwin" (Exited 0) (Exited 0) (Loaded sample_config))
                    world0) eq_refl).
  - pose proof (proj2 (main_early_exit
                         (sample_host "Linux" (NotStarted FileNotFoundError) (Exited 100)
                            (Loaded sample_config)) world0) eq_refl eq_refl) as Hmain.
    rewrite Hmain. reflexivity.
Defined.

(** X18. The main block exits with no other status than 1, and in three
    situations only: the system is not Linux; [check_fio_installed] answered
    [False]; or the configuration was loaded as a mapping without a usable
    "test_hw". *)
Theorem main_exit_status (H : Host) (w : World) (code : Z) :
  (main H w).1 = SysExit code ->
  code = 1 /\
  (String.eqb (platform_system H) "Linux" = false \/
   (check_fio_installed H w).1 = Return false \/
   exists (entries : list (pyval * pyval)) (w1 w2 : World),
     check_fio_installed H w = (Return true, w1) /\
     load_config H (config_path H) w1 = (Return (PyDict entries), w2) /\
     no_test_hw entries = true).
Proof.
  destruct (String.eqb (platform_system H) "Linux") eqn:Hsys.
  2:{ rewrite main_not_linux by exact Hsys. cbn [fst]. intros Heq. injection Heq as <-. auto. }
  rewrite main_linux by exact Hsys.
  pose proof (check_fio_installed_no_exit H w) as Hc.
  destruct (check_fio_installed H w) as [[[|] | c | e] w1]; cbn [fst] in *.
  - unfold sbind. pose proof (load_config_no_exit H (config_path H) w1) as Hl.
    destruct (load_config H (config_path H) w1) as [[config | c | e] w2] eqn:Hload;
      cbn [fst] in *.
    + intros Hexit. apply configure_exit in Hexit as [-> (entries & -> & Hno)].
      split; [reflexivity|]. right. right. exists entries, w1, w2.
      split; [reflexivity|]. split; [exact Hload | exact Hno].
    + intros _. exfalso. exact (Hl c eq_refl).
    + discriminate.
  - intros Heq. injection Heq as <-. auto.
  - intros _. exfalso. exact (Hc c eq_refl).
  - discriminate.
Qed.

Lemma main_exit_status_witness :
  1 = 1 /\
  (String.eqb (platform_system (sample_host "Linux" (Exited 0) (Exited 0)
                                  (Loaded (PyDict [(PyStr "test_hw", PyStr "")]))))
     "Linux" = false \/
   (check_fio_installed (sample_host "Linux" (Exited 0) (Exited 0)
                           (Loaded (PyDict [(PyStr "test_hw", PyStr "")])))
      (world_with "/opt/bench/benchmark_config.yaml" "test_hw:")).1 = Return false \/
   exists (entries : list (pyval * pyval)) (w1 w2 : World),
     check_fio_installed (sample_host "Linux" (Exited 0) (Exited 0)
                            (Loaded (PyDict [(PyStr "test_hw", PyStr "")])))
       (world_with "/opt/bench/benchmark_config.yaml" "test_hw:") = (Return true, w1) /\
     load_config (sample_host "Linux" (Exited 0) (Exited 0)
                    (Loaded (PyDict [(PyStr "test_hw", PyStr "")])))
       (config_path (sample_host "Linux" (Exited 0) (Exited 0)
                       (Loaded (PyDict [(PyStr "test_hw", PyStr "")])))) w1 =
       (Return (PyDict entries), w2) /\
     no_test_hw entries = true).
Proof.
  exact (main_exit_status
           (sample_host "Linux" (Exited 0) (Exited 0)
              (Loaded (PyDict [(PyStr "test_hw", PyStr "")])))
           (world_with "/opt/bench/benchmark_config.yaml" "test_hw:") 1 eq_refl).
Defined.

(** X19. Once the configuration is loaded as a mapping, the main block
    exits, with status 1 and its error line, exactly when "test_hw" is
    missing or holds a value that counts as false (an empty string, null, 0):
    it does so before it looks at the sizes and the number of runs, which
    may then be missing too. *)
Theorem configure_without_hw (H : Host) (entries : list (pyval * pyval)) (w : World) :
  (no_test_hw entries = true ->
   configure H (PyDict entries) w = (SysExit 1, log (EvPrint msg_no_hw) w)) /\
  (forall code : Z,
     (configure H (PyDict entries) w).1 = SysExit code -> no_test_hw entries = true) /\
  (lookup_key "test_hw" entries = None -> no_test_hw entries = true) /\
  (forall v : pyval,
     lookup_key "test_hw" entries = Some v ->
     no_test_hw entries = negb (truthy v)) /\
  truthy (PyStr "") = false /\ truthy PyNone = false /\ truthy (PyInt 0) = false.
Proof.
  split; [apply configure_no_hw|]. split.
  - intros code Hexit. apply configure_exit in Hexit as [_ (entries' & Heq & Hno)].
    injection Heq as <-. exact Hno.
  - unfold no_test_hw. split; [intros ->; reflexivity|].
    split; [intros v ->; reflexivity|]. repeat split.
Qed.

(** X20. A configuration that is not what the block expects makes it raise,
    not exit. A document that is not a mapping (an empty file loads as null)
    raises [AttributeError]; with a usable "test_hw", a missing
    "test_data_sizes_mB" raises [KeyError], sizes given as one number raise
    [TypeError], a null among the sizes raises [TypeError], and a missing
    "num_runs" raises [KeyError] after the sizes were converted. Nothing is
    printed in any of these cases. *)
Theorem configure_malformed (H : Host) (w : World) :
  (forall config : pyval,
     (forall entries, config <> PyDict entries) ->
     configure H config w = (Uncaught AttributeError, w)) /\
  (forall entries : list (pyval * pyval),
     no_test_hw entries = false ->
     (lookup_key "test_data_sizes_mB" entries = None ->
      configure H (PyDict entries) w = (Uncaught (KeyError "test_data_sizes_mB"), w)) /\
     (forall n : Z,
        lookup_key "test_data_sizes_mB" entries = Some (PyInt n) ->
        configure H (PyDict entries) w = (Uncaught TypeError, w)) /\
     (forall (before : list Z) (after : list pyval),
        lookup_key "test_data_sizes_mB" entries =
          Some (PyList (map PyInt before ++ PyNone :: after)) ->
        configure H (PyDict entries) w = (Uncaught TypeError, w)) /\
     (forall sizes_mb : list Z,
        lookup_key "test_data_sizes_mB" entries = Some (PyList (map PyInt sizes_mb)) ->
        lookup_key "num_runs" entries = None ->
        configure H (PyDict entries) w = (Uncaught (KeyError "num_runs"), w))).
Proof.
  split.
  - intros config Hnot. destruct config; try reflexivity.
    exfalso. exact (Hnot entries eq_refl).
  - intros entries Hno. destruct (no_test_hw_false entries Hno) as (hw & Hhw & Ht).
    rewrite (configure_hw H entries w hw Hhw Ht). unfold subscript.
    split; [intros ->; reflexivity|]. split; [intros n ->; reflexivity|]. split.
    + intros before after ->. cbn [iterate].
      replace (comprehension times_mb (map PyInt before ++ PyNone :: after))
        with (@Uncaught (list pyval) TypeError); [reflexivity|].
      induction before as [|n before IH]; cbn [map app comprehension times_mb];
        [reflexivity | rewrite <- IH; reflexivity].
    + intros sizes_mb -> ->. cbn [iterate]. rewrite comprehension_ints. reflexivity.
Qed.

(** X21. The call the main block prepares. With a "test_hw" whose text has
    no slash, sizes given as a list of integers and a "num_runs", it calls
    [run_benchmarks] with the directory "hw_benchmark_results_<test_hw>"
    beside the script, each size in MB times [1024**2] as the sizes in bytes,
    in the same order, the number of runs as it was loaded, and the file
    "benchmark_results.csv" inside that directory. It prints nothing and
    creates nothing on the way. *)
Theorem configure_call (H : Host) (entries : list (pyval * pyval)) (w : World)
    (hw num_runs : pyval) (sizes_mb : list Z) :
  lookup_key "test_hw" entries = Some hw -> truthy hw = true ->
  no_slash (py_str H hw) = true ->
  lookup_key "test_data_sizes_mB" entries = Some (PyList (map PyInt sizes_mb)) ->
  lookup_key "num_runs" entries = Some num_runs ->
  let TEST_DIR := child (script_dir H) ("hw_benchmark_results_" +:+ py_str H hw) in
  let TEST_SIZES := map (fun size_mb => size_mb * 1024 ^ 2) sizes_mb in
  configure H (PyDict entries) w =
    (Return (mk_call TEST_DIR (map PyInt TEST_SIZES) num_runs
               (joinpath TEST_DIR "benchmark_results.csv")), w) /\
  ints_of (map PyInt TEST_SIZES) = Some TEST_SIZES /\
  (forall s : string, hw = PyStr s -> py_str H hw = s) /\
  (script_dir H <> "/"%string ->
   TEST_DIR = joinpath (script_dir H) ("hw_benchmark_results_" +:+ py_str H hw)).
Proof.
  intros Hhw Ht Hslash Hsizes Hruns. cbn zeta.
  rewrite (configure_hw H entries w hw Hhw Ht). unfold subscript.
  rewrite Hsizes, Hruns. cbn [iterate]. rewrite comprehension_ints.
  assert (Hseg : no_slash ("hw_benchmark_results_" +:+ py_str H hw) = true).
  { unfold no_slash in *. rewrite StrFacts.forall_chars_app, Hslash. reflexivity. }
  rewrite path_div_plain; [| exact Hseg | reflexivity].
  rewrite results_file_path by discriminate.
  split; [rewrite map_map; reflexivity|]. split; [apply ints_of_ints|].
  split; [intros s ->; reflexivity|].
  intros Hroot. unfold child. apply String.eqb_neq in Hroot. rewrite Hroot. reflexivity.
Qed.

Lemma configure_call_witness :
  configure (sample_host "Linux" (Exited 0) (Exited 0) (Loaded sample_config))
    sample_config world0 =
    (Return (mk_call "/opt/bench/hw_benchmark_results_nvme1" [PyInt 1048576] (PyInt 1)
               "/opt/bench/hw_benchmark_results_nvme1/benchmark_results.csv"), world0).
Proof.
  exact (proj1 (configure_call
                  (sample_host "Linux" (Exited 0) (Exited 0) (Loaded sample_config))
                  [(PyStr "test_hw", PyStr "nvme1");
                   (PyStr "test_data_sizes_mB", PyList [PyInt 1]);
                   (PyStr "num_runs", PyInt 1)]
                  world0 (PyStr "nvme1") (PyInt 1) [1]
                  eq_refl eq_refl eq_refl eq_refl eq_refl)).
Defined.

(** X22. On Linux with [fio] at hand, the main block opens the file
    "benchmark_config.yaml" beside the script. When it is not there
    [FileNotFoundError] escapes, when it may not be read [PermissionError],
    and when the loader rejects it the loader's exception: in none of these
    cases does the block exit with a message. When the file loads, the block
    goes on with what was loaded, the file closed. *)
Theorem main_reads_config (H : Host) (w w1 : World) :
  String.eqb (platform_system H) "Linux" = true ->
  check_fio_installed H w = (Return true, w1) ->
  let p := path_div (script_dir H) "benchmark_config.yaml" in
  (fs w1 !! p = None ->
   main H w = (Uncaught (Builtin FileNotFoundError), log (EvOpen p "r") w1)) /\
  (forall f : File,
     fs w1 !! p = Some f ->
     (readable f = false ->
      main H w = (Uncaught (Builtin PermissionError), log (EvOpen p "r") w1)) /\
     (forall e : py_exn,
        readable f = true -> safe_load H (content f) = LoadError e ->
        main H w = (Uncaught e, close p (log (EvOpen p "r") w1))) /\
     (forall config : pyval,
        readable f = true -> safe_load H (content f) = Loaded config ->
        main H w = configure H config (close p (log (EvOpen p "r") w1)))).
Proof.
  intros Hsys Hcheck p. rewrite main_linux by exact Hsys. rewrite Hcheck.
  unfold sbind. rewrite load_config_run. change (config_path H) with p. split.
  - intros ->. reflexivity.
  - intros f ->. split; [intros ->; reflexivity|]. split.
    + intros e -> ->. reflexivity.
    + intros config -> ->. reflexivity.
Qed.

Lemma main_reads_config_witness :
  main (sample_host "Linux" (Exited 0) (Exited 0) (Loaded sample_config))
    (world_with "/opt/bench/benchmark_config.yaml" "test_hw: nvme1") =
    (Return (mk_call "/opt/bench/hw_benchmark_results_nvme1" [PyInt 1048576] (PyInt 1)
               "/opt/bench/hw_benchmark_results_nvme1/benchmark_results.csv"),
     mk_World {[ ("/opt/bench/benchmark_config.yaml")%string :=
                   mk_File "test_hw: nvme1" true true ]} 0 1
       [EvRun fio_version_argv;
        EvOpen "/opt/bench/benchmark_config.yaml" "r";
        EvClose "/opt/bench/benchmark_config.yaml"]).
Proof.
  pose proof (main_reads_config
                (sample_host "Linux" (Exited 0) (Exited 0) (Loaded sample_config))
                (world_with "/opt/bench/benchmark_config.yaml" "test_hw: nvme1")
                _ eq_refl eq_refl) as [_ Hfile].
  destruct (Hfile (mk_File "test_hw: nvme1" true true) eq_refl) as (_ & _ & Hload).
  rewrite (Hload sample_config eq_refl eq_refl). reflexivity.
Defined.

(** X23. From the configuration to the results. When the main block calls
    [run_benchmarks] with sizes and a number of runs that are integers, and
    the loops of that call end well, the results hold six tuples for every
    pass over every size, that is [6 * num_runs * len(sizes)] in all, named
    and numbered as the driver orders them, for the sizes in bytes that the
    block computed; and the first thing the call does is to make the
    directory "hw_benchmark_results_<test_hw>". *)
Theorem main_then_run (H : Host) (E : Env) (entries : list (pyval * pyval))
    (hw : pyval) (sizes_mb : list Z) (num_runs : Z) (w w' : World)
    (call : benchmark_call) (TEST_SIZES : list Z) (results : list row) :
  lookup_key "test_hw" entries = Some hw -> truthy hw = true ->
  no_slash (py_str H hw) = true ->
  lookup_key "test_data_sizes_mB" entries = Some (PyList (map PyInt sizes_mb)) ->
  lookup_key "num_runs" entries = Some (PyInt num_runs) ->
  (configure H (PyDict entries) w).1 = Return call ->
  ints_of (call_sizes call) = Some TEST_SIZES ->
  (run_all E (call_test_dir call) TEST_SIZES num_runs w').1 = Ok results ->
  call_test_dir call = child (script_dir H) ("hw_benchmark_results_" +:+ py_str H hw) /\
  call_results_file call = joinpath (call_test_dir call) "benchmark_results.csv" /\
  int_of (call_num_runs call) = Some num_runs /\
  TEST_SIZES = map (fun size_mb => size_mb * 1024 ^ 2) sizes_mb /\
  map row_key results = expected_keys TEST_SIZES num_runs /\
  length results = (6 * Z.to_nat num_runs * length sizes_mb)%nat /\
  exists evs : list event,
    trace (run_all E (call_test_dir call) TEST_SIZES num_runs w').2 =
      trace w' ++ EvMkdir (call_test_dir call) :: evs.
Proof.
  intros Hhw Ht Hslash Hsizes Hruns Hcall Hints Hrun.
  assert (Hconf : configure H (PyDict entries) w =
                  (Return (mk_call
                             (child (script_dir H) ("hw_benchmark_results_" +:+ py_str H hw))
                             (map PyInt (map (fun size_mb => size_mb * 1024 ^ 2) sizes_mb))
                             (PyInt num_runs)
                             (joinpath
                                (child (script_dir H)
                                   ("hw_benchmark_results_" +:+ py_str H hw))
                                "benchmark_results.csv")), w)).
  { rewrite (configure_hw H entries w hw Hhw Ht). unfold subscript.
    rewrite Hsizes, Hruns. cbn [iterate]. rewrite comprehension_ints.
    assert (Hseg : no_slash ("hw_benchmark_results_" +:+ py_str H hw) = true).
    { unfold no_slash in *. rewrite StrFacts.forall_chars_app, Hslash. reflexivity. }
    rewrite path_div_plain; [| exact Hseg | reflexivity].
    rewrite results_file_path by discriminate. rewrite map_map. reflexivity. }
  rewrite Hconf in Hcall. cbn [fst] in Hcall. injection Hcall as <-.
  cbn [call_test_dir call_sizes call_num_runs call_results_file] in *.
  rewrite ints_of_ints in Hints. injection Hints as <-.
  split; [reflexivity|]. split; [reflexivity|]. split; [reflexivity|].
  split; [reflexivity|].
  destruct (run_all E _ _ num_runs w') as [r w2] eqn:Hall. cbn [fst snd] in *. subst r.
  apply run_all_inv in Hall as (evs & Hout & Htr).
  destruct (outer_loop_keys E _ _ _ _ _ Hout) as [Hkeys Hlen].
  rewrite length_map in Hlen.
  split; [exact Hkeys|]. split; [exact Hlen|]. exists evs. exact Htr.
Qed.

Lemma main_then_run_witness :
  exists results : list row,
    (run_all (sample_env "BW=12.3MiB/s") "/opt/bench/hw_benchmark_results_nvme1"
       [0] 1 world0).1 = Ok results /\
    length results = 6%nat /\
    map row_key results = map (fun name => (name, 0%float, 1)) test_names.
Proof.
  destruct (run_all (sample_env "BW=12.3MiB/s") "/opt/bench/hw_benchmark_results_nvme1"
              [0] 1 world0).1 as [results|e] eqn:Hrun.
  - exists results. split; [reflexivity|].
    destruct (main_then_run
                (sample_host "Linux" (Exited 0) (Exited 0) (Loaded sample_config))
                (sample_env "BW=12.3MiB/s")
                [(PyStr "test_hw", PyStr "nvme1");
                 (PyStr "test_data_sizes_mB", PyList [PyInt 0]);
                 (PyStr "num_runs", PyInt 1)]
                (PyStr "nvme1") [0] 1 world0 world0
                (mk_call "/opt/bench/hw_benchmark_results_nvme1" [PyInt 0] (PyInt 1)
                   "/opt/bench/hw_benchmark_results_nvme1/benchmark_results.csv")
                [0] results
                eq_refl eq_refl eq_refl eq_refl eq_refl eq_refl eq_refl Hrun)
      as (_ & _ & _ & _ & Hkeys & Hlen & _).
    split; [exact Hlen|]. rewrite Hkeys. reflexivity.
  - vm_compute in Hrun. discriminate.
Defined.
